(** * DataModel converters: a shallow embedding of [datamodel/converters.pyx]

    The source holds two variants of the converter engine.  The later one
    (the one with the value-producer branches, [strtobool] of its own and
    [parse_basic]) is embedded at top level; the earlier one lives in
    [Module Legacy].

    Conventions of the embedding.
    - A Python call returns a value or raises: [res A] is [Ok a] or
      [Raise e]; [try ... except] is [catch].
    - Text is a [string] whose characters are the code points 0..255; in
      that range [\d] is the ten ASCII digits.  Error messages are left
      out, an exception is its class.
    - The function bodies are embedded statement by statement.  A result
      type written after [cpdef] is checked at each [return] that can
      hand back something else, by [cpdef_result].
    - Third-party parsers, the rounding of floats and class constructors
      are fields of the record [Externals]. *)

From Stdlib Require Import ZArith List String Ascii Bool Lia.
From Stdlib Require Import Strings.Byte DecimalString.
From Stdlib Require DecimalPos.
Import ListNotations.

Local Open Scope string_scope.
Local Open Scope list_scope.
Local Open Scope Z_scope.

Set Warnings "-register-all".

(** ** Exceptions and results *)

Inductive exn : Type :=
| ValueError
| UnicodeDecodeError      (* subclass of ValueError *)
| JSONDecodeError         (* subclass of ValueError *)
| ParserError             (* pendulum.parsing.exceptions.ParserError *)
| TypeError
| KeyError
| IndexError
| AttributeError
| OverflowError
| InvalidOperation        (* decimal.InvalidOperation, an ArithmeticError *)
| UnboundLocalError
| RuntimeError
| UserError (name : string).

(** [isinstance(e, ValueError)] *)
Definition is_ValueError (e : exn) : bool :=
  match e with
  | ValueError | UnicodeDecodeError | JSONDecodeError => true
  | _ => false
  end.

Definition is_TypeError (e : exn) : bool :=
  match e with TypeError => true | _ => false end.

Definition is_KeyError (e : exn) : bool :=
  match e with KeyError => true | _ => false end.

Definition is_ParserError (e : exn) : bool :=
  match e with ParserError => true | _ => false end.

Definition is_RuntimeError (e : exn) : bool :=
  match e with RuntimeError => true | _ => false end.

Inductive res (A : Type) : Type :=
| Ok (a : A)
| Raise (e : exn).

Arguments Ok {A} a.
Arguments Raise {A} e.

Definition bind {A B : Type} (c : res A) (k : A -> res B) : res B :=
  match c with
  | Ok a => k a
  | Raise e => Raise e
  end.

Notation "x <- c ;; k" := (bind c (fun x => k))
  (at level 61, c at next level, right associativity).

(** [try: c  except <classes>: h] *)
Definition catch {A : Type} (c : res A) (classes : exn -> bool)
    (h : exn -> res A) : res A :=
  match c with
  | Ok a => Ok a
  | Raise e => if classes e then h e else Raise e
  end.

(** [try: c  except: h] (a bare except) *)
Definition catch_all {A : Type} (c : res A) (h : res A) : res A :=
  match c with
  | Ok a => Ok a
  | Raise _ => h
  end.

Definition raises {A : Type} (c : res A) : Prop :=
  exists e, c = Raise e.

(** The module reports a failed conversion with [raise ValueError(...)]. *)
Definition conversion_error {A : Type} (c : res A) : Prop :=
  exists e, c = Raise e /\ is_ValueError e = true.

Fixpoint mapM {A B : Type} (f : A -> res B) (l : list A) : res (list B) :=
  match l with
  | [] => Ok []
  | x :: l' => y <- f x ;; ys <- mapM f l' ;; Ok (y :: ys)
  end.

(** ** Values *)

Record date : Type := mkdate { year : Z; month : Z; day : Z }.

Record time : Type :=
  mktime { hour : Z; minute : Z; second : Z; microsecond : Z }.

(** A binary64 float: not-a-number, an infinity, or [m * 2^e]. *)
Inductive pyfloat : Type :=
| FNan
| FInf (neg : bool)
| FFin (m e : Z).

(** A [decimal.Decimal]: sign, coefficient and exponent, or a special. *)
Inductive decimal : Type :=
| DFin (neg : bool) (coef : N) (exp : Z)
| DInf (neg : bool)
| DNaN (neg signalling : bool) (payload : N).

Inductive value : Type :=
| VNone
| VBool (b : bool)
| VInt (z : Z)
| VFloat (f : pyfloat)
| VDecimal (d : decimal)
| VStr (s : string)
| VBytes (b : list byte)
| VByteArray (b : list byte)
| VUUID (u : N)
| VDate (d : date)
| VDateTime (d : date) (t : time)
| VTime (t : time)
| VTimedelta (us : Z)                 (* the duration in microseconds *)
| VList (l : list value)
| VTuple (l : list value)
| VDict (items : list (value * value))
| VCallable (body : res value)        (* a zero-argument value-producer *)
| VMissing                            (* dataclasses.MISSING *)
| VInstance (cls : string) (fields : list (string * value)).

(** *** [isinstance] tests used by the converters *)

Definition is_None (v : value) : bool :=
  match v with VNone => true | _ => false end.

Definition is_bool (v : value) : bool :=
  match v with VBool _ => true | _ => false end.

(** [isinstance(obj, int)]: [bool] is a subclass of [int]. *)
Definition is_int (v : value) : bool :=
  match v with VInt _ | VBool _ => true | _ => false end.

Definition is_float (v : value) : bool :=
  match v with VFloat _ => true | _ => false end.

Definition is_Decimal (v : value) : bool :=
  match v with VDecimal _ => true | _ => false end.

Definition is_str (v : value) : bool :=
  match v with VStr _ => true | _ => false end.

(** [isinstance(obj, (bytes, bytearray))] *)
Definition is_bytes (v : value) : bool :=
  match v with VBytes _ | VByteArray _ => true | _ => false end.

Definition is_UUID (v : value) : bool :=
  match v with VUUID _ => true | _ => false end.

(** [isinstance(obj, datetime.date)]: [datetime] is a subclass of [date]. *)
Definition is_date (v : value) : bool :=
  match v with VDate _ | VDateTime _ _ => true | _ => false end.

Definition is_datetime (v : value) : bool :=
  match v with VDateTime _ _ => true | _ => false end.

Definition is_time (v : value) : bool :=
  match v with VTime _ => true | _ => false end.

Definition is_timedelta (v : value) : bool :=
  match v with VTimedelta _ => true | _ => false end.

Definition is_list (v : value) : bool :=
  match v with VList _ => true | _ => false end.

Definition is_dict (v : value) : bool :=
  match v with VDict _ => true | _ => false end.

(** [isinstance(obj, (list, tuple))] *)
Definition is_list_or_tuple (v : value) : bool :=
  match v with VList _ | VTuple _ => true | _ => false end.

Definition is_MISSING (v : value) : bool :=
  match v with VMissing => true | _ => false end.

Definition callable (v : value) : bool :=
  match v with VCallable _ => true | _ => false end.

(** [obj()] *)
Definition call (v : value) : res value :=
  match v with
  | VCallable body => body
  | _ => Raise TypeError
  end.

(** [bool(obj)], the truth value of an object *)
Definition truth (v : value) : bool :=
  match v with
  | VNone => false
  | VBool b => b
  | VInt z => negb (z =? 0)
  | VFloat (FFin m _) => negb (m =? 0)
  | VFloat _ => true
  | VDecimal (DFin _ c _) => negb (c =? 0)%N
  | VDecimal _ => true
  | VStr s => negb (String.eqb s EmptyString)
  | VBytes b | VByteArray b => match b with [] => false | _ => true end
  | VTimedelta us => negb (us =? 0)
  | VList l | VTuple l => match l with [] => false | _ => true end
  | VDict l => match l with [] => false | _ => true end
  | _ => true
  end.

(** ** Text *)

Definition is_digit (c : ascii) : bool :=
  let n := nat_of_ascii c in (48 <=? n)%nat && (n <=? 57)%nat.

Definition digit_val (c : ascii) : Z := Z.of_nat (nat_of_ascii c) - 48.

(** [str.lower] on one code point below 256: the letters A-Z and the
    capital letters U+00C0..U+00DE, the sign U+00D7 apart. *)
Definition lower_char (c : ascii) : ascii :=
  let n := nat_of_ascii c in
  if ((65 <=? n)%nat && (n <=? 90)%nat
      || (192 <=? n)%nat && (n <=? 222)%nat && negb (n =? 215)%nat)
  then ascii_of_nat (n + 32) else c.

Fixpoint lower (s : string) : string :=
  match s with
  | EmptyString => EmptyString
  | String c s' => String (lower_char c) (lower s')
  end.

Fixpoint repeat_char (c : ascii) (n : nat) : string :=
  match n with
  | O => EmptyString
  | S n' => String c (repeat_char c n')
  end.

(** [s.ljust(width, fill)] *)
Definition ljust (width : nat) (fill : ascii) (s : string) : string :=
  (s ++ repeat_char fill (width - String.length s))%string.

(** [s[:n]] *)
Definition prefix_upto (n : nat) (s : string) : string := substring 0 n s.

(** [s.split(sep)] for a one-character separator *)
Fixpoint split_on (sep : ascii) (s : string) : list string :=
  match s with
  | EmptyString => [EmptyString]
  | String c s' =>
      if Ascii.eqb c sep then EmptyString :: split_on sep s'
      else match split_on sep s' with
           | [] => [String c EmptyString]
           | w :: ws => String c w :: ws
           end
  end.

(** [b.decode("ascii")] *)
Fixpoint decode_ascii (b : list byte) : res string :=
  match b with
  | [] => Ok EmptyString
  | x :: b' =>
      if (Byte.to_nat x <? 128)%nat
      then s <- decode_ascii b' ;; Ok (String (ascii_of_byte x) s)
      else Raise UnicodeDecodeError
  end.

Definition decode (v : value) : res value :=
  match v with
  | VBytes b | VByteArray b => s <- decode_ascii b ;; Ok (VStr s)
  | _ => Raise AttributeError
  end.

(** ** Regular expressions: the fragment used by [TIMEDELTA_RE] and [TIME_RE]

    A backtracking matcher in continuation-passing style, greedy as
    Python's [re]; [re_match] anchors at the start only, as [re.match]. *)

Inductive regex : Type :=
| Lit (c : ascii)                      (* a literal character *)
| Digit                                (* \d *)
| Dot                                  (* .  any character but a newline *)
| Seq (r1 r2 : regex)
| Repeat (lo hi : nat) (r : regex)     (* r{lo,hi}; r? is r{0,1} *)
| Group (i : nat) (r : regex).         (* capturing group number i+1 *)

Definition captures : Type := list (option string).

Fixpoint set_nth {A : Type} (i : nat) (x : A) (l : list A) : list A :=
  match l, i with
  | [], _ => []
  | _ :: l', O => x :: l'
  | y :: l', S i' => y :: set_nth i' x l'
  end.

(** what was read between the input [s] and the rest [s'] *)
Definition consumed (s s' : string) : string :=
  substring 0 (String.length s - String.length s') s.

Definition newline : ascii := ascii_of_nat 10.

Fixpoint re_run (r : regex) (s : string) (caps : captures)
    (k : string -> captures -> option captures) {struct r} : option captures :=
  match r with
  | Lit c =>
      match s with
      | String a s' => if Ascii.eqb a c then k s' caps else None
      | EmptyString => None
      end
  | Digit =>
      match s with
      | String a s' => if is_digit a then k s' caps else None
      | EmptyString => None
      end
  | Dot =>
      match s with
      | String a s' => if Ascii.eqb a newline then None else k s' caps
      | EmptyString => None
      end
  | Seq r1 r2 => re_run r1 s caps (fun s' caps' => re_run r2 s' caps' k)
  | Repeat lo hi r1 =>
      (fix rep (lo hi : nat) (s : string) (caps : captures) {struct hi}
         : option captures :=
         match hi with
         | O => match lo with O => k s caps | S _ => None end
         | S hi' =>
             match re_run r1 s caps (fun s' caps' => rep (pred lo) hi' s' caps') with
             | Some c => Some c
             | None => match lo with O => k s caps | S _ => None end
             end
         end) lo hi s caps
  | Group i r1 =>
      re_run r1 s caps
        (fun s' caps' => k s' (set_nth i (Some (consumed s s')) caps'))
  end.

Definition group_value (g : option string) : value :=
  match g with
  | Some s => VStr s
  | None => VNone
  end.

(** [m = R.match(obj)] followed by [m.groups()]: [None] when there is no
    match, else the list of the groups; a pattern over text refuses
    anything that is not text. *)
Definition re_match (r : regex) (ngroups : nat) (obj : value)
    : res (option (list value)) :=
  match obj with
  | VStr s =>
      Ok (option_map (map group_value)
            (re_run r s (repeat None ngroups) (fun _ caps => Some caps)))
  | _ => Raise TypeError
  end.

Definition digits (lo hi : nat) : regex := Repeat lo hi Digit.
Definition opt (r : regex) : regex := Repeat 0 1 r.

(** [(-)?(\d{1,3}):(\d{1,2}):(\d{1,2})(?:.(\d{1,6}))?] *)
Definition TIMEDELTA_RE : regex :=
  Seq (opt (Group 0 (Lit "-")))
 (Seq (Group 1 (digits 1 3))
 (Seq (Lit ":")
 (Seq (Group 2 (digits 1 2))
 (Seq (Lit ":")
 (Seq (Group 3 (digits 1 2))
      (opt (Seq Dot (Group 4 (digits 1 6))))))))).

(** [(\d{1,2}):(\d{1,2}):(\d{1,2})(?:.(\d{1,6}))?] *)
Definition TIME_RE : regex :=
  Seq (Group 0 (digits 1 2))
 (Seq (Lit ":")
 (Seq (Group 1 (digits 1 2))
 (Seq (Lit ":")
 (Seq (Group 2 (digits 1 2))
      (opt (Seq Dot (Group 3 (digits 1 6)))))))).

(** ** The built-in [int] *)

(** [str.isspace] below code point 256: the blanks [Decimal] strips from
    the two ends of a text *)
Definition is_space (c : ascii) : bool :=
  let n := nat_of_ascii c in
  ((9 <=? n) && (n <=? 13) || (28 <=? n) && (n <=? 32)
   || (n =? 133) || (n =? 160))%nat.

(** the blanks of C's [isspace]: what [int] skips around a literal given
    as bytes *)
Definition is_c_space (c : ascii) : bool :=
  let n := nat_of_ascii c in ((9 <=? n) && (n <=? 13) || (n =? 32))%nat.

(** the blanks [int] skips around a literal given as text: C's blanks, and
    the blank code points from 127 on, which [int] first turns into
    spaces; the separators U+001C..U+001F are refused *)
Definition is_int_blank (c : ascii) : bool :=
  let n := nat_of_ascii c in
  is_c_space c || ((n =? 133) || (n =? 160))%nat.

Fixpoint lstrip_by (blank : ascii -> bool) (s : string) : string :=
  match s with
  | String c s' => if blank c then lstrip_by blank s' else s
  | EmptyString => EmptyString
  end.

Fixpoint rstrip_by (blank : ascii -> bool) (s : string) : string :=
  match s with
  | String c s' =>
      match rstrip_by blank s' with
      | EmptyString => if blank c then EmptyString else String c EmptyString
      | r => String c r
      end
  | EmptyString => EmptyString
  end.

Definition strip_by (blank : ascii -> bool) (s : string) : string :=
  rstrip_by blank (lstrip_by blank s).

(** [s.strip()] *)
Definition strip (s : string) : string := strip_by is_space s.

(** decimal digits, single underscores allowed between two digits *)
Fixpoint int_digits (s : string) (acc : Z) (after_digit : bool) : option Z :=
  match s with
  | EmptyString => if after_digit then Some acc else None
  | String c s' =>
      if is_digit c then int_digits s' (10 * acc + digit_val c) true
      else if Ascii.eqb c "_" then
        if after_digit then int_digits s' acc false else None
      else None
  end.

(** [sys.int_info.default_max_str_digits]: [int] refuses a literal in base
    ten of more digits, and [str] an integer of more digits, with a
    [ValueError] *)
Definition max_str_digits : Z := 4300.

(** the number of digits of a text, its underscores left out *)
Fixpoint count_digits (s : string) : Z :=
  match s with
  | EmptyString => 0
  | String c s' => (if is_digit c then 1 else 0) + count_digits s'
  end.

Definition int_literal (r : string) : option Z :=
  if max_str_digits <? count_digits r then None else int_digits r 0 false.

Definition int_of_text (blank : ascii -> bool) (s : string) : option Z :=
  match strip_by blank s with
  | String "+" r => int_literal r
  | String "-" r => option_map Z.opp (int_literal r)
  | r => int_literal r
  end.

Definition text_of_bytes (b : list byte) : string :=
  string_of_list_ascii (map ascii_of_byte b).

(** [int(obj)]: a [ValueError] for text that is no integer literal or has
    more than [max_str_digits] digits and for a NaN, an [OverflowError] for
    an infinity, a [TypeError] for an object with no conversion to [int]. *)
Definition py_int (obj : value) : res Z :=
  match obj with
  | VBool b => Ok (if b then 1 else 0)
  | VInt z => Ok z
  | VStr s =>
      match int_of_text is_int_blank s with
      | Some z => Ok z
      | None => Raise ValueError
      end
  | VBytes b | VByteArray b =>
      match int_of_text is_c_space (text_of_bytes b) with
      | Some z => Ok z
      | None => Raise ValueError
      end
  | VFloat FNan => Raise ValueError
  | VFloat (FInf _) => Raise OverflowError
  | VFloat (FFin m e) =>
      Ok (if 0 <=? e then m * 2 ^ e else Z.quot m (2 ^ (- e)))
  | VDecimal (DNaN _ _ _) => Raise ValueError
  | VDecimal (DInf _) => Raise OverflowError
  | VDecimal (DFin neg c e) =>
      let a := if 0 <=? e then Z.of_N c * 10 ^ e
               else Z.quot (Z.of_N c) (10 ^ (- e)) in
      Ok (if neg then - a else a)
  | VUUID u => Ok (Z.of_N u)
  | _ => Raise TypeError
  end.

(** ** [datetime.timedelta] and [datetime.time] *)

Definition us_per_day : Z := 86400000000.
Definition max_days : Z := 999999999.

Definition timedelta_of_us (us : Z) : res value :=
  if Z.abs (us / us_per_day) <=? max_days
  then Ok (VTimedelta us) else Raise OverflowError.

(** [datetime.timedelta(hours=h, minutes=m, seconds=s, microseconds=us)] *)
Definition timedelta (h m s us : Z) : res value :=
  timedelta_of_us (((h * 60 + m) * 60 + s) * 1000000 + us).

(** [td * n] *)
Definition timedelta_mul (td : value) (n : Z) : res value :=
  match td with
  | VTimedelta us => timedelta_of_us (us * n)
  | _ => Raise TypeError
  end.

(** the range of a C [int], the type [datetime.time] reads its fields
    into *)
Definition in_c_int (z : Z) : bool := (- 2 ^ 31 <=? z) && (z <? 2 ^ 31).

(** [datetime.time(hour, minute, second, microsecond)]: an
    [OverflowError] for a field that is no C [int], then a [ValueError]
    for a field out of its range *)
Definition mk_time (h m s us : Z) : res value :=
  if negb (in_c_int h && in_c_int m && in_c_int s && in_c_int us)
  then Raise OverflowError
  else if (0 <=? h) && (h <? 24) && (0 <=? m) && (m <? 60)
          && (0 <=? s) && (s <? 60) && (0 <=? us) && (us <? 1000000)
  then Ok (VTime (mktime h m s us)) else Raise ValueError.

(** [datetime.time( *args )] on integer arguments; the fifth positional
    argument is [tzinfo], which an integer is not: it is refused once the
    four fields are accepted. *)
Definition time_of_args (args : list Z) : res value :=
  match args with
  | [] => mk_time 0 0 0 0
  | [h] => mk_time h 0 0 0
  | [h; m] => mk_time h m 0 0
  | [h; m; s] => mk_time h m s 0
  | [h; m; s; us] => mk_time h m s us
  | [h; m; s; us; _] => _ <- mk_time h m s us ;; Raise TypeError
  | _ => Raise TypeError
  end.

(** ** Duration and time converters *)

(** [_convert_second_fraction]
<<
    if not s: return 0
    s = s.ljust(6, "0")
    return int(s[:6])
>> *)
Definition _convert_second_fraction (s : value) : res value :=
  if negb (truth s) then Ok (VInt 0)
  else
    match s with
    | VStr t =>
        z <- py_int (VStr (prefix_upto 6 (ljust 6 "0" t))) ;; Ok (VInt z)
    | _ => Raise AttributeError
    end.

(** [groups[-1] = x] *)
Definition set_last (l : list value) (x : value) : list value :=
  set_nth (pred (List.length l)) x l.

(** The result type written in [cpdef T f(...)]: at each [return] the
    object is checked against [T]; [None] passes, anything else is a
    [TypeError], raised where the [return] stands. *)
Definition cpdef_result (T : value -> bool) (r : res value) : res value :=
  v <- r ;; if is_None v || T v then Ok v else Raise TypeError.

(** [cpdef datetime.timedelta to_timedelta(object obj)]
<<
    if isinstance(obj, (bytes, bytearray)):
        obj = obj.decode("ascii")
    m = TIMEDELTA_RE.match(obj)
    if not m:
        return obj
    try:
        groups = list(m.groups())
        groups[-1] = _convert_second_fraction(groups[-1])
        negate = -1 if groups[0] else 1
        hours, minutes, seconds, microseconds = groups[1:]
        tdelta = (datetime.timedelta(hours=int(hours), minutes=int(minutes),
                    seconds=int(seconds), microseconds=int(microseconds))
                  * negate)
        return tdelta
    except ValueError:
        raise ValueError(f"Invalid timedelta Object: {obj}")
>> *)
Definition to_timedelta (obj : value) : res value :=
  obj <- (if is_bytes obj then decode obj else Ok obj) ;;
  m <- re_match TIMEDELTA_RE 5 obj ;;
  match m with
  | None => cpdef_result is_timedelta (Ok obj)
  | Some groups =>
      catch
        (cpdef_result is_timedelta
          (frac <- _convert_second_fraction (last groups VNone) ;;
           let groups := set_last groups frac in
           let negate := if truth (nth 0 groups VNone) then -1 else 1 in
           match skipn 1 groups with
           | [hours; minutes; seconds; microseconds] =>
               h <- py_int hours ;;
               mi <- py_int minutes ;;
               s <- py_int seconds ;;
               us <- py_int microseconds ;;
               td <- timedelta h mi s us ;;
               timedelta_mul td negate
           | _ => Raise ValueError
           end))
        is_ValueError (fun _ => Raise ValueError)
  end.

(** ** Declared types: classes and the objects of [typing] *)

Inductive pyclass : Type :=
| C_str | C_bytes | C_int | C_bool | C_float | C_Decimal | C_UUID
| C_date | C_datetime | C_timedelta | C_time
| C_dict | C_list | C_tuple | C_NoneType
| C_dataclass (name : string)          (* a class made by [@dataclass] *)
| C_class (name : string).             (* any other class *)

Definition pyclass_eqb (a b : pyclass) : bool :=
  match a, b with
  | C_str, C_str | C_bytes, C_bytes | C_int, C_int | C_bool, C_bool
  | C_float, C_float | C_Decimal, C_Decimal | C_UUID, C_UUID
  | C_date, C_date | C_datetime, C_datetime | C_timedelta, C_timedelta
  | C_time, C_time | C_dict, C_dict | C_list, C_list | C_tuple, C_tuple
  | C_NoneType, C_NoneType => true
  | C_dataclass n, C_dataclass m => String.eqb n m
  | C_class n, C_class m => String.eqb n m
  | _, _ => false
  end.

(** A declared type [T]: a class, or an object of module [typing] with its
    [_name], whether [get_origin(T)] is [Union], and its [__args__]
    ([None] when the attribute is missing). *)
Inductive pytype : Type :=
| Class (c : pyclass)
| Typing (name : option string) (origin_is_Union : bool)
         (args : option (list pytype)).

(** ** What the embedding takes from outside the module *)

Record Externals : Type := mkExternals {
  (* [str(obj)] for the objects [py_str] does not print itself *)
  repr : value -> string;
  (* [float(text)], [None] for a [ValueError] *)
  float_of_text : string -> option pyfloat;
  (* the float nearest to an integer in range *)
  round_int : Z -> pyfloat;
  (* [float(d)] for a decimal that is no signalling NaN *)
  float_of_decimal : decimal -> pyfloat;
  (* [Decimal((sign, digits, exponent))], with the error it raises *)
  decimal_of_sequence : list value -> res decimal;
  (* [ciso8601.parse_datetime(text)] *)
  ciso8601_parse_datetime : string -> res value;
  (* [datetime.datetime.fromisoformat(text)] *)
  fromisoformat_text : string -> res value;
  (* [pendulum.parse(obj, strict=False)] *)
  pendulum_parse : value -> res value;
  (* [dateutil.parser.parse(obj)] *)
  dateutil_parse : value -> res value;
  (* [orjson.loads(text)] *)
  orjson_loads : string -> res value;
  (* [C( *args, **kwargs )] for a class [C] *)
  construct : pyclass -> list value -> list (value * value) -> res value;
  (* [is_iterable] of [datamodel.validation] *)
  is_iterable : value -> bool
}.

(** ** The built-ins [str], [float], [Decimal], [UUID] *)

Definition text_of_Z (z : Z) : string := NilZero.string_of_int (Z.to_int z).

(** the number of decimal digits of an integer *)
Definition decimal_digits (z : Z) : Z :=
  Z.of_nat (String.length (text_of_Z (Z.abs z))).

Section Builtins.

Variable ext : Externals.

(** [str(obj)]: a [ValueError] for an integer of more than
    [max_str_digits] digits *)
Definition py_str (obj : value) : res string :=
  match obj with
  | VStr s => Ok s
  | VNone => Ok "None"
  | VBool true => Ok "True"
  | VBool false => Ok "False"
  | VInt z =>
      if max_str_digits <? decimal_digits z then Raise ValueError
      else Ok (text_of_Z z)
  | _ => Ok (repr ext obj)
  end.

(** [float(obj)]: an [OverflowError] for an integer out of range, a
    [ValueError] for text that is no number and for a signalling NaN, a
    [TypeError] for an object with no conversion. *)
Definition py_float (obj : value) : res pyfloat :=
  match obj with
  | VFloat f => Ok f
  | VBool b => Ok (FFin (if b then 1 else 0) 0)
  | VInt z =>
      if Z.abs z <? 2 ^ 1024 - 2 ^ 970 then Ok (round_int ext z)
      else Raise OverflowError
  | VStr s =>
      match float_of_text ext s with
      | Some f => Ok f
      | None => Raise ValueError
      end
  | VBytes b | VByteArray b =>
      match float_of_text ext (text_of_bytes b) with
      | Some f => Ok f
      | None => Raise ValueError
      end
  | VDecimal (DNaN _ true _) => Raise ValueError
  | VDecimal d => Ok (float_of_decimal ext d)
  | _ => Raise TypeError
  end.

End Builtins.

(** *** [Decimal(text)]: the numeric-string syntax of module [decimal] *)

Fixpoint remove_char (c : ascii) (s : string) : string :=
  match s with
  | EmptyString => EmptyString
  | String a s' =>
      if Ascii.eqb a c then remove_char c s' else String a (remove_char c s')
  end.

(** the longest prefix of digits, read as a number, its length, the rest *)
Fixpoint span_digits (s : string) (acc : N) (n : nat) : N * nat * string :=
  match s with
  | String c s' =>
      if is_digit c
      then span_digits s' (10 * acc + Z.to_N (digit_val c))%N (S n)
      else (acc, n, s)
  | EmptyString => (acc, n, s)
  end.

Definition split_sign (s : string) : bool * string :=
  match s with
  | String "-" r => (true, r)
  | String "+" r => (false, r)
  | _ => (false, s)
  end.

(** [e|E] [sign] digits, to the end of the text *)
Definition decimal_exponent (s : string) : option Z :=
  match s with
  | EmptyString => Some 0
  | String c r =>
      if Ascii.eqb (lower_char c) "e" then
        let '(neg, r) := split_sign r in
        match span_digits r 0%N 0 with
        | (_, O, _) => None
        | (e, _, EmptyString) =>
            Some (if neg then - Z.of_N e else Z.of_N e)
        | _ => None
        end
      else None
  end.

Definition decimal_of_text (s : string) : option decimal :=
  let '(neg, body) := split_sign (remove_char "_" (strip s)) in
  let low := lower body in
  if String.eqb low "inf" || String.eqb low "infinity" then Some (DInf neg)
  else
    match low with
    | String "n" (String "a" (String "n" r)) =>
        match span_digits r 0%N 0 with
        | (p, _, EmptyString) => Some (DNaN neg false p)
        | _ => None
        end
    | String "s" (String "n" (String "a" (String "n" r))) =>
        match span_digits r 0%N 0 with
        | (p, _, EmptyString) => Some (DNaN neg true p)
        | _ => None
        end
    | _ =>
        let '(ip, ilen, r) := span_digits body 0%N 0 in
        let '(cf, flen, r) :=
          match r with
          | String "." r' => span_digits r' ip 0
          | _ => (ip, O, r)
          end in
        match (ilen + flen)%nat with
        | O => None
        | S _ =>
            match decimal_exponent r with
            | Some e => Some (DFin neg cf (e - Z.of_nat flen))
            | None => None
            end
        end
    end.

Definition decimal_of_float (f : pyfloat) : decimal :=
  match f with
  | FNan => DNaN false false 0
  | FInf neg => DInf neg
  | FFin m e =>
      if 0 <=? e then DFin (m <? 0) (Z.to_N (Z.abs m * 2 ^ e)) 0
      else DFin (m <? 0) (Z.to_N (Z.abs m * 5 ^ (- e))) e
  end.

(** The limits of the context [Decimal] converts in (the C module on a
    64-bit build): the greatest exponent and precision, and the least
    exponent of a subnormal. *)
Definition MAX_EMAX : Z := 999999999999999999.
Definition MAX_PREC : Z := 999999999999999999.
Definition MIN_ETINY : Z := - 1999999999999999997.

(** the number is held exactly within these limits: no overflow, no
    rounding, no clamping of the exponent *)
Definition decimal_exact (d : decimal) : bool :=
  match d with
  | DFin _ c e =>
      let n := decimal_digits (Z.of_N c) in
      (n <=? MAX_PREC) && (e + n - 1 <=? MAX_EMAX) && (MIN_ETINY <=? e)
  | DNaN _ _ p => decimal_digits (Z.of_N p) <=? MAX_PREC
  | DInf _ => true
  end.

(** the conversion is exact or refused with [decimal.InvalidOperation] *)
Definition exactly (d : decimal) : res decimal :=
  if decimal_exact d then Ok d else Raise InvalidOperation.

(** [Decimal(obj)]: [decimal.InvalidOperation] for text outside the
    numeric-string syntax and for a number beyond the limits of the
    context, the error of the constructor for a sequence, a [TypeError]
    for an object with no conversion. *)
Definition py_Decimal (ext : Externals) (obj : value) : res decimal :=
  match obj with
  | VDecimal d => Ok d
  | VBool b => Ok (DFin false (if b then 1 else 0) 0)
  | VInt z => exactly (DFin (z <? 0) (Z.to_N (Z.abs z)) 0)
  | VStr s =>
      match decimal_of_text s with
      | Some d => exactly d
      | None => Raise InvalidOperation
      end
  | VFloat f => Ok (decimal_of_float f)
  | VTuple l | VList l => decimal_of_sequence ext l
  | _ => Raise TypeError
  end.

(** *** [UUID(text)]
<<
    hex = hex.replace('urn:', '').replace('uuid:', '')
    hex = hex.strip('{}').replace('-', '')
    if len(hex) != 32: raise ValueError(...)
    int = int_(hex, 16)
>> *)

(** [s.replace(pat, '')]; [skip] characters of a match are still to drop *)
Fixpoint remove_sub (pat : string) (skip : nat) (s : string) : string :=
  match s with
  | EmptyString => EmptyString
  | String c s' =>
      match skip with
      | S k => remove_sub pat k s'
      | O =>
          if String.prefix pat s && negb (String.eqb pat EmptyString)
          then remove_sub pat (pred (String.length pat)) s'
          else String c (remove_sub pat O s')
      end
  end.

Definition is_brace (c : ascii) : bool :=
  Ascii.eqb c "{" || Ascii.eqb c "}".

Fixpoint lstrip_braces (s : string) : string :=
  match s with
  | String c s' => if is_brace c then lstrip_braces s' else s
  | EmptyString => EmptyString
  end.

Fixpoint rstrip_braces (s : string) : string :=
  match s with
  | String c s' =>
      match rstrip_braces s' with
      | EmptyString => if is_brace c then EmptyString else String c EmptyString
      | r => String c r
      end
  | EmptyString => EmptyString
  end.

Definition hex_val (c : ascii) : option Z :=
  let n := Z.of_nat (nat_of_ascii (lower_char c)) in
  if is_digit c then Some (digit_val c)
  else if (97 <=? n) && (n <=? 102) then Some (n - 87)
  else None.

Fixpoint hex_digits (s : string) (acc : Z) (after_digit : bool) : option Z :=
  match s with
  | EmptyString => if after_digit then Some acc else None
  | String c s' =>
      match hex_val c with
      | Some d => hex_digits s' (16 * acc + d) true
      | None =>
          if Ascii.eqb c "_" then
            if after_digit then hex_digits s' acc false else None
          else None
      end
  end.

(** [int(text, 16)]: blanks, a sign and a [0x] prefix are accepted *)
Definition int16_of_text (s : string) : option Z :=
  let '(neg, r) := split_sign (strip_by is_int_blank s) in
  let v :=
    match r with
    | String "0" (String x r') =>
        if Ascii.eqb (lower_char x) "x" then
          match r' with
          | String "_" r'' => hex_digits r'' 0 false
          | _ => hex_digits r' 0 false
          end
        else hex_digits r 0 false
    | _ => hex_digits r 0 false
    end in
  option_map (fun z => if neg then - z else z) v.

Definition py_UUID (s : string) : res value :=
  let hex := remove_sub "uuid:" 0 (remove_sub "urn:" 0 s) in
  let hex := remove_char "-" (rstrip_braces (lstrip_braces hex)) in
  if negb (String.length hex =? 32)%nat then Raise ValueError
  else
    match int16_of_text hex with
    | Some z =>
        if (0 <=? z) && (z <? 2 ^ 128) then Ok (VUUID (Z.to_N z))
        else Raise ValueError
    | None => Raise ValueError
    end.


(** ** The converters *)

Definition TypeError_or_ValueError (e : exn) : bool :=
  is_TypeError e || is_ValueError e.

(** [x.date()] *)
Definition method_date (x : value) : res value :=
  match x with
  | VDateTime d _ => Ok (VDate d)
  | _ => Raise AttributeError
  end.

(** [obj.split(':')] *)
Definition method_split (obj : value) : res (list value) :=
  match obj with
  | VStr s => Ok (map VStr (split_on ":" s))
  | VBytes _ | VByteArray _ => Raise TypeError
  | _ => Raise AttributeError
  end.

(** [strtobool]
<<
    val = val.lower()
    if val in ('y', 'yes', 't', 'true', 'on', '1'):
        return True
    elif val in ('n', 'no', 'f', 'false', 'off', '0'):
        return False
    else:
        raise ValueError(f"Invalid truth value for {val}")
>> *)
Definition truthy : list string := ["y"; "yes"; "t"; "true"; "on"; "1"].
Definition falsy : list string := ["n"; "no"; "f"; "false"; "off"; "0"].

Definition str_in (s : string) (l : list string) : bool :=
  existsb (String.eqb s) l.

Definition strtobool (val : string) : res value :=
  let val := lower val in
  if str_in val truthy then Ok (VBool true)
  else if str_in val falsy then Ok (VBool false)
  else Raise ValueError.

Section Converters.

Variable ext : Externals.

(** [datetime.datetime.fromisoformat(obj)]: the argument must be text *)
Definition fromisoformat (obj : value) : res value :=
  match obj with
  | VStr s => fromisoformat_text ext s
  | _ => Raise TypeError
  end.

(** [to_uuid]
<<
    if isinstance(obj, UUID):
        return obj
    elif callable(obj):
        try:
            return obj()
        except:
            pass
    try:
        return UUID(str(obj))
    except ValueError:
        return None
>> *)
Definition to_uuid (obj : value) : res value :=
  let parse := catch (s <- py_str ext obj ;; py_UUID s) is_ValueError
                 (fun _ => Ok VNone) in
  if is_UUID obj then Ok obj
  else if callable obj then catch_all (call obj) parse
  else parse.

Definition ValueError_TypeError_ParserError (e : exn) : bool :=
  is_ValueError e || is_TypeError e || is_ParserError e.

(** [cpdef datetime.date to_date(object obj)]: every [return] hands back
    [None], the date it was given or the result of [.date()], which the
    declared result type accepts.
<<
    if obj is None:
        return None
    if isinstance(obj, datetime.date):
        return obj
    elif isinstance(obj, str):
        try:
            return ciso8601.parse_datetime(obj).date()
        except ValueError:
            pass
    if isinstance(obj, (bytes, bytearray)):
        obj = obj.decode("ascii")
    try:
        return datetime.datetime.fromisoformat(obj).date()
    except ValueError:
        pass
    try:
        return pendulum.parse(obj, strict=False).date()
    except (ValueError, TypeError, ParserError):
        raise ValueError(f"Can't convert invalid data *{obj}* to date")
>> *)
Definition to_date_tail (obj : value) : res value :=
  obj <- (if is_bytes obj then decode obj else Ok obj) ;;
  catch (x <- fromisoformat obj ;; method_date x) is_ValueError (fun _ =>
  catch (x <- pendulum_parse ext obj ;; method_date x)
        ValueError_TypeError_ParserError (fun _ => Raise ValueError)).

Definition to_date (obj : value) : res value :=
  if is_None obj then Ok VNone
  else if is_date obj then Ok obj
  else
    match obj with
    | VStr s =>
        catch (x <- ciso8601_parse_datetime ext s ;; method_date x)
              is_ValueError (fun _ => to_date_tail obj)
    | _ => to_date_tail obj
    end.

(** [cpdef datetime.datetime to_datetime(object obj)]: as [to_date]
    without the calls of [.date()], so that what a parser answers is
    checked against the declared result type where it is returned, inside
    the [try]: the [TypeError] of the check is caught by the last handler
    only.  The test [obj == _MISSING_TYPE] compares with the class itself,
    which no value of the embedding is.
<<
    if obj is None:
        return None
    if isinstance(obj, datetime.datetime):
        return obj
    elif obj == _MISSING_TYPE:
        return None
    elif isinstance(obj, str):
        try:
            return ciso8601.parse_datetime(obj)
        except ValueError:
            pass
    if isinstance(obj, (bytes, bytearray)):
        obj = obj.decode("ascii")
    try:
        return datetime.datetime.fromisoformat(obj)
    except ValueError:
        pass
    try:
        return pendulum.parse(obj, strict=False)
    except (ValueError, TypeError, ParserError):
        raise ValueError(f"Can't convert invalid data *{obj}* to datetime")
>> *)
Definition to_datetime_tail (obj : value) : res value :=
  obj <- (if is_bytes obj then decode obj else Ok obj) ;;
  catch (cpdef_result is_datetime (fromisoformat obj)) is_ValueError (fun _ =>
  catch (cpdef_result is_datetime (pendulum_parse ext obj))
        ValueError_TypeError_ParserError (fun _ => Raise ValueError)).

Definition to_datetime (obj : value) : res value :=
  if is_None obj then Ok VNone
  else if is_datetime obj then Ok obj
  else
    match obj with
    | VStr s =>
        catch (cpdef_result is_datetime (ciso8601_parse_datetime ext s))
              is_ValueError (fun _ => to_datetime_tail obj)
    | _ => to_datetime_tail obj
    end.

(** [to_integer]
<<
    if obj is None:
        return None
    if isinstance(obj, int):
        return obj
    elif callable(obj):
        try:
            return obj()
        except:
            pass
    else:
        try:
            return int(obj)
        except (TypeError, ValueError) as e:
            raise ValueError(f"Invalid conversion to Integer of {obj}") from e
>> *)
Definition to_integer (obj : value) : res value :=
  if is_None obj then Ok VNone
  else if is_int obj then Ok obj
  else if callable obj then catch_all (call obj) (Ok VNone)
  else catch (z <- py_int obj ;; Ok (VInt z)) TypeError_or_ValueError
         (fun _ => Raise ValueError).

(** [to_float]
<<
    if isinstance(obj, (float, Decimal)):
        return obj
    elif isinstance(obj, _MISSING_TYPE):
        return None
    elif callable(obj):
        try:
            return obj()
        except:
            pass
    else:
        try:
            return float(obj)
        except (TypeError, ValueError):
            return None
>> *)
Definition to_float (obj : value) : res value :=
  if is_float obj || is_Decimal obj then Ok obj
  else if is_MISSING obj then Ok VNone
  else if callable obj then catch_all (call obj) (Ok VNone)
  else catch (f <- py_float ext obj ;; Ok (VFloat f)) TypeError_or_ValueError
         (fun _ => Ok VNone).

(** [to_decimal]
<<
    if obj is None:
        return None
    if isinstance(obj, Decimal):
        return obj
    elif callable(obj):
        try:
            return obj()
        except:
            pass
    else:
        try:
            return Decimal(obj)
        except (TypeError, ValueError):
            return None
>> *)
Definition to_decimal (obj : value) : res value :=
  if is_None obj then Ok VNone
  else if is_Decimal obj then Ok obj
  else if callable obj then catch_all (call obj) (Ok VNone)
  else catch (d <- py_Decimal ext obj ;; Ok (VDecimal d))
         TypeError_or_ValueError (fun _ => Ok VNone).

(** [to_time]
<<
    if obj is None:
        return None
    if isinstance(obj, datetime.time):
        return obj
    elif callable(obj):
        try:
            return obj()
        except:
            pass
    else:
        try:
            return datetime.time( *map(int, obj.split(':')) )
        except (ValueError, TypeError):
            pass
        m = TIME_RE.match(obj)
        if not m:
            return obj
        try:
            groups = list(m.groups())
            groups[-1] = _convert_second_fraction(groups[-1])
            hours, minutes, seconds, microseconds = groups
            return datetime.time(hour=int(hours), minute=int(minutes),
                second=int(seconds), microsecond=int(microseconds))
        except (TypeError, ValueError) as e:
            raise ValueError(f"Invalid Time/Timestamp Object {obj}: {e}")
>> *)
Definition to_time_match (obj : value) : res value :=
  m <- re_match TIME_RE 4 obj ;;
  match m with
  | None => Ok obj
  | Some groups =>
      catch
        (frac <- _convert_second_fraction (last groups VNone) ;;
         match set_last groups frac with
         | [hours; minutes; seconds; microseconds] =>
             h <- py_int hours ;;
             mi <- py_int minutes ;;
             s <- py_int seconds ;;
             us <- py_int microseconds ;;
             mk_time h mi s us
         | _ => Raise ValueError
         end)
        TypeError_or_ValueError (fun _ => Raise ValueError)
  end.

Definition to_time (obj : value) : res value :=
  if is_None obj then Ok VNone
  else if is_time obj then Ok obj
  else if callable obj then catch_all (call obj) (Ok VNone)
  else
    catch (parts <- method_split obj ;;
           ints <- mapM py_int parts ;;
           time_of_args ints)
          TypeError_or_ValueError (fun _ => to_time_match obj).

(** [to_boolean]
<<
    if obj is None:
        return False
    if isinstance(obj, bool):
        return obj
    if isinstance(obj, (bytes, bytearray)):
        obj = obj.decode("ascii")
    if isinstance(obj, str):
        return strtobool(obj)
    elif callable(obj):
        try:
            return obj()
        except:
            pass
    else:
        return bool(obj)
>> *)
Definition to_boolean (obj : value) : res value :=
  if is_None obj then Ok (VBool false)
  else if is_bool obj then Ok obj
  else
    obj <- (if is_bytes obj then decode obj else Ok obj) ;;
    match obj with
    | VStr s => strtobool s
    | _ =>
        if callable obj then catch_all (call obj) (Ok VNone)
        else Ok (VBool (truth obj))
    end.

(** [to_object]
<<
    if obj is None:
        return None
    if isinstance(obj, (list, dict, tuple)):
        return obj
    elif callable(obj):
        try:
            return obj()
        except:
            pass
    elif isinstance(obj, str):
        try:
            return orjson.loads(obj)
        except (TypeError, ValueError):
            return None
    else:
        raise ValueError(f"Can't convert invalid data {obj} to Object")
>> *)
Definition to_object (obj : value) : res value :=
  if is_None obj then Ok VNone
  else if is_list_or_tuple obj || is_dict obj then Ok obj
  else if callable obj then catch_all (call obj) (Ok VNone)
  else
    match obj with
    | VStr s =>
        catch (orjson_loads ext s) TypeError_or_ValueError (fun _ => Ok VNone)
    | _ => Raise ValueError
    end.

(** [encoders], the registry *)
Definition encoders : list (pyclass * (value -> res value)) :=
  [ (C_UUID, to_uuid);
    (C_bool, to_boolean);
    (C_int, to_integer);
    (C_float, to_float);
    (C_date, to_date);
    (C_datetime, to_datetime);
    (C_timedelta, to_timedelta);
    (C_time, to_time);
    (C_Decimal, to_decimal);
    (C_dict, to_object);
    (C_list, to_object);
    (C_tuple, to_object) ].

(** [encoders[T]]: a [KeyError] when [T] is no key *)
Fixpoint registry_get (reg : list (pyclass * (value -> res value)))
    (c : pyclass) : res (value -> res value) :=
  match reg with
  | [] => Raise KeyError
  | (k, f) :: reg' => if pyclass_eqb k c then Ok f else registry_get reg' c
  end.

Definition encoders_get (T : pytype) : res (value -> res value) :=
  match T with
  | Class c => registry_get encoders c
  | Typing _ _ _ => Raise KeyError
  end.

End Converters.

(** ** The coercion engine *)

(** [is_dataclass] of [datamodel.validation] is not in the source at hand;
    it is taken to be [dataclasses.is_dataclass], which the earlier variant
    imports: true of a dataclass and of an instance of one. *)
Definition is_dataclass (T : pytype) : bool :=
  match T with
  | Class (C_dataclass _) => true
  | _ => false
  end.

Definition is_dataclass_instance (v : value) : bool :=
  match v with VInstance _ _ => true | _ => false end.

(** [T.__module__ == 'typing'] *)
Definition in_typing (T : pytype) : bool :=
  match T with Typing _ _ _ => true | Class _ => false end.

(** [T._name == n] *)
Definition name_is (T : pytype) (n : string) : bool :=
  match T with
  | Typing (Some m) _ _ => String.eqb m n
  | _ => false
  end.

(** [get_args(T)]: the empty tuple when [T] has no [__args__] *)
Definition get_args (args : option (list pytype)) : list pytype :=
  match args with Some l => l | None => [] end.

(** [callable(t)]: classes and the objects of [typing] can all be called *)
Definition callable_type (t : pytype) : bool := true.

Definition is_NoneType (T : pytype) : bool :=
  match T with Class C_NoneType => true | _ => false end.

Definition is_str_class (T : pytype) : bool :=
  match T with Class C_str => true | _ => false end.

Definition is_bytes_class (T : pytype) : bool :=
  match T with Class C_bytes => true | _ => false end.

(** [for x in data] *)
Definition iterate (data : value) : res (list value) :=
  match data with
  | VList l | VTuple l => Ok l
  | VDict items => Ok (map fst items)
  | VStr s => Ok (map (fun c => VStr (String c EmptyString)) (list_ascii_of_string s))
  | VBytes b | VByteArray b => Ok (map (fun x => VInt (Z.of_nat (Byte.to_nat x))) b)
  | _ => Raise TypeError
  end.

Definition dict_items (data : value) : list (value * value) :=
  match data with VDict items => items | _ => [] end.

Definition is_AttributeError (e : exn) : bool :=
  match e with AttributeError => true | _ => false end.

Definition ValueError_or_RuntimeError (e : exn) : bool :=
  is_ValueError e || is_RuntimeError e.

Section Engine.

Variable ext : Externals.

(** [T(...)] for a declared type: a class is constructed, an object of
    [typing] cannot be instantiated. *)
Definition new (T : pytype) (args : list value) (kwargs : list (value * value))
    : res value :=
  match T with
  | Class c => construct ext c args kwargs
  | Typing _ _ _ => Raise TypeError
  end.

(** [t( **x ) if isinstance(x, dict) else t( *x )] and its variants *)
Definition new_from (T : pytype) (x : value) (otherwise : res value)
    : res value :=
  if is_dict x then new T [] (dict_items x)
  else if is_list_or_tuple x then (xs <- iterate x ;; new T xs [])
  else otherwise.

(** the nested-typing case of the [List] branch *)
Definition list_of_nested (arg_type : pytype) (data : value) : res value :=
  catch
    (match arg_type with
     | Typing _ _ None => Raise AttributeError
     | Typing _ _ (Some []) => Raise IndexError
     | Typing _ _ (Some (t :: _)) =>
         if is_dataclass t then
           xs <- iterate data ;;
           result <- mapM (fun x => new_from t x (new t [] [])) xs ;;
           Ok (VList result)
         else Ok data
     | Class _ => Raise AttributeError
     end)
    is_AttributeError (fun _ => Ok data).

(** the dataclass case of the [List] branch; [result] is bound only when
    [data] is a list *)
Definition list_of_dataclass (arg_type : pytype) (data : value) : res value :=
  match data with
  | VList l =>
      result <- mapM (fun d =>
                  if is_dataclass_instance d then Ok d
                  else if is_list d then (xs <- iterate d ;; new arg_type xs [])
                  else if is_dict d then new arg_type [] (dict_items d)
                  else new arg_type [d] []) l ;;
      Ok (VList result)
  | _ => Raise UnboundLocalError
  end.

(** the part of the [Optional]/[Union] branch under [try: t = args[0]],
    for a [t] that is no dataclass *)
Definition union_member (t : pytype) (data : value) : res value :=
  if in_typing t then
    if name_is t "List" && is_list data then
      match t with
      | Typing _ _ (Some (arg :: _)) =>
          if is_dataclass arg then
            xs <- iterate data ;;
            result <- mapM (fun x =>
                        if is_dict x then new arg [] (dict_items x)
                        else (a <- iterate x ;; new arg a [])) xs ;;
            Ok (VList result)
          else Ok data
      | Typing _ _ (Some []) => Raise IndexError
      | _ => Raise AttributeError
      end
    else Ok data
  else
    catch
      (if is_str_class t then Ok data
       else
         fn <- encoders_get ext t ;;
         if negb (is_None data) then
           catch (catch (fn data) is_TypeError (fun _ => Ok data))
                 ValueError_or_RuntimeError (fun _ => Raise ValueError)
         else Ok data)
      is_KeyError (fun _ => Ok data).

(** the end of the branch for a class with no converter
<<
    if inspect.isclass(T):
        try:
            if isinstance(data, dict):
                data = T( **data )
            elif isinstance(data, (list, tuple)):
                data = T( *data )
            elif isinstance(data, str):
                data = T(data)
        except (TypeError, ValueError) as e:
            logging.error(...)
        return data
    return data
>> *)
Definition last_conversion (T : pytype) (data : value) : res value :=
  match T with
  | Class _ =>
      catch (new_from T data (if is_str data then new T [data] [] else Ok data))
            TypeError_or_ValueError (fun _ => Ok data)
  | Typing _ _ _ => Ok data
  end.

(** [parse_type(T, data, encoder=None)]
<<
    if hasattr(T, '__module__') and T.__module__ == 'typing':
        args = None
        try:
            args = T.__args__
        except AttributeError:
            pass
        if T._name == 'Dict' and isinstance(data, dict):
            if args:
                return {k: parse_type(T.__args__[1], v) for k, v in data.items()}
        elif T._name == 'List':
            if not isinstance(data, (list, tuple)):
                data = [data]
            arg_type = args[0]
            if arg_type.__module__ == 'typing':
                ...                                    # [list_of_nested]
            elif is_dataclass(arg_type):
                ...                                    # [list_of_dataclass]
            else:
                result = []
                if is_iterable(data):
                    for item in data:
                        converted_item = parse_type(arg_type, item, encoder)
                        result.append(converted_item)
                    return result
                return data
        elif T._name is None or T._name in ('Optional', 'Union'):
            origin = get_origin(T)
            args = get_args(T)
            if origin == Union and type(None) in args:
                if data is None:
                    return None
                else:
                    non_none_arg = args[0] if args[1] is type(None) else args[1]
                    return parse_type(non_none_arg, data, encoder)
            try:
                t = args[0]
                if is_dataclass(t):
                    if isinstance(data, dict):
                        data = t( **data )
                    elif isinstance(data, (list, tuple)):
                        data = t( *data )
                    else:
                        return data
                elif callable(t):
                    ...                                # [union_member]
                return data
            except KeyError:
                pass
    else:
        if encoder is not None:
            try:
                return encoder(data)
            except ValueError as e:
                raise ValueError(f"Error parsing type {T}, {e}")
        elif is_dataclass(T):
            if isinstance(data, dict):
                data = T( **data )
            elif isinstance(data, (list, tuple)):
                data = T( *data )
            else:
                data = T(data)
            return data
        else:
            try:
                conv = encoders[T]
                return conv(data)
            except KeyError:
                pass
            except (TypeError, ValueError) as e:
                raise ValueError(f"Error type {T}: {e}") from e
            ...                                        # [last_conversion]
        return data
>>
    The [return data] that ends the function belongs to the [else] branch:
    a path through the [typing] branch that meets no [return] ends the
    call with [None]. *)
Fixpoint parse_type (T : pytype) (data : value)
    (encoder : option (value -> res value)) {struct T} : res value :=
  match T with
  | Typing name origin_is_Union args =>
      if name_is T "Dict" && is_dict data then
        match args with
        | Some (_ :: value_type :: _) =>
            items <- mapM (fun kv : value * value =>
                             v <- parse_type value_type (snd kv) None ;;
                             Ok (fst kv, v)) (dict_items data) ;;
            Ok (VDict items)
        | Some [_] =>
            match dict_items data with
            | [] => Ok (VDict [])
            | _ :: _ => Raise IndexError
            end
        | Some [] | None => Ok VNone
        end
      else if name_is T "List" then
        let data := if negb (is_list_or_tuple data) then VList [data] else data in
        match args with
        | None => Raise TypeError
        | Some [] => Raise IndexError
        | Some (arg_type :: _) =>
            if in_typing arg_type then list_of_nested arg_type data
            else if is_dataclass arg_type then list_of_dataclass arg_type data
            else if is_iterable ext data then
              items <- iterate data ;;
              result <- mapM (fun item => parse_type arg_type item encoder) items ;;
              Ok (VList result)
            else Ok data
        end
      else if match name with None => true | Some _ => false end
              || name_is T "Optional" || name_is T "Union" then
        if origin_is_Union && existsb is_NoneType (get_args args) then
          if is_None data then Ok VNone
          else
            match args with
            | Some (a0 :: a1 :: _) =>
                if is_NoneType a1 then parse_type a0 data encoder
                else parse_type a1 data encoder
            | _ => Raise IndexError
            end
        else
          match get_args args with
          | [] => Raise IndexError
          | t :: _ =>
              catch
                (if is_dataclass t then
                   new_from t data (Ok data)
                 else if callable_type t then union_member t data
                 else Ok data)
                is_KeyError (fun _ => Ok VNone)
          end
      else Ok VNone
  | Class _ =>
      match encoder with
      | Some enc => catch (enc data) is_ValueError (fun _ => Raise ValueError)
      | None =>
          if is_dataclass T then new_from T data (new T [data] [])
          else
            match encoders_get ext T with
            | Ok conv =>
                match conv data with
                | Ok v => Ok v
                | Raise e =>
                    if is_KeyError e then last_conversion T data
                    else if TypeError_or_ValueError e then Raise ValueError
                    else Raise e
                end
            | Raise _ => last_conversion T data
            end
      end
  end.

(** [bytes(data)] *)
Definition byte_of_value (v : value) : res byte :=
  match v with
  | VInt z =>
      if (0 <=? z) && (z <? 256) then
        match Byte.of_nat (Z.to_nat z) with
        | Some b => Ok b
        | None => Raise ValueError
        end
      else Raise ValueError
  | VBool b => Ok (if b then x01 else x00)
  | _ => Raise TypeError
  end.

Definition py_bytes (data : value) : res value :=
  match data with
  | VBytes b | VByteArray b => Ok (VBytes b)
  | VBool b => Ok (VBytes (if b then [x00] else []))
  | VInt n =>
      if n <? 0 then Raise ValueError
      else if 2 ^ 63 <=? n then Raise OverflowError
      else Ok (VBytes (repeat x00 (Z.to_nat n)))
  | VList l | VTuple l => b <- mapM byte_of_value l ;; Ok (VBytes b)
  | VDict items => b <- mapM byte_of_value (map fst items) ;; Ok (VBytes b)
  | _ => Raise TypeError
  end.

(** [parse_basic(T, data, encoder=None)]
<<
    if T == str:
        return str(data)
    elif T == bytes:
        return bytes(data)
    try:
        return encoders[T](data)
    except KeyError:
        pass
    except (TypeError, ValueError) as e:
        raise ValueError(f"Encoder Error {T}: {e}") from e
    if encoder and callable(encoder):
        try:
            return encoder(data)
        except ValueError as e:
            raise ValueError(f"Error parsing type {T}, {e}")
>> *)
Definition parse_basic (T : pytype) (data : value)
    (encoder : option (value -> res value)) : res value :=
  if is_str_class T then (s <- py_str ext data ;; Ok (VStr s))
  else if is_bytes_class T then py_bytes data
  else
    match (conv <- encoders_get ext T ;; conv data) with
    | Ok v => Ok v
    | Raise e =>
        if is_KeyError e then
          match encoder with
          | Some enc => catch (enc data) is_ValueError (fun _ => Raise ValueError)
          | None => Ok VNone
          end
        else if TypeError_or_ValueError e then Raise ValueError
        else Raise e
    end.

End Engine.

(** *** The declared types the statements are about *)

(** [Optional[inner]], that is [Union[inner, None]]; its [_name] is [None],
    ['Optional'] or ['Union'] with the version of [typing]. *)
Definition Optional_ (name : option string) (inner : pytype) : pytype :=
  Typing name true (Some [inner; Class C_NoneType]).

Definition optional_name (name : option string) : Prop :=
  name = None \/ name = Some "Optional" \/ name = Some "Union".

(** [List[element]] *)
Definition List_ (element : pytype) : pytype :=
  Typing (Some "List") false (Some [element]).

(** [Dict[key, val]] *)
Definition Dict_ (key val : pytype) : pytype :=
  Typing (Some "Dict") false (Some [key; val]).

(** ** The earlier variant of the module *)

Module Legacy.

Section Converters.

Variable ext : Externals.

(** [to_uuid]
<<
    if isinstance(obj, UUID):
        return obj
    try:
        return UUID(str(obj))
    except ValueError:
        return None
>> *)
Definition to_uuid (obj : value) : res value :=
  if is_UUID obj then Ok obj
  else catch (s <- py_str ext obj ;; py_UUID s) is_ValueError
         (fun _ => Ok VNone).

(** [to_date]
<<
    if isinstance(obj, datetime.date):
        return obj
    else:
        if isinstance(obj, (bytes, bytearray)):
            obj = obj.decode("ascii")
        try:
            return parser.parse(obj).date()
        except (ValueError, TypeError):
            raise ValueError(...)
>> *)
Definition to_date (obj : value) : res value :=
  if is_date obj then Ok obj
  else
    obj <- (if is_bytes obj then decode obj else Ok obj) ;;
    catch (x <- dateutil_parse ext obj ;; method_date x)
          TypeError_or_ValueError (fun _ => Raise ValueError).

(** [cpdef datetime.datetime to_datetime(object obj)]
<<
    if isinstance(obj, datetime.datetime):
        return obj
    else:
        if isinstance(obj, (bytes, bytearray)):
            obj = obj.decode("ascii")
        try:
            return parser.parse(obj)
        except (ValueError, TypeError):
            raise ValueError(...)
>> *)
Definition to_datetime (obj : value) : res value :=
  if is_datetime obj then Ok obj
  else
    obj <- (if is_bytes obj then decode obj else Ok obj) ;;
    catch (cpdef_result is_datetime (dateutil_parse ext obj))
          TypeError_or_ValueError (fun _ => Raise ValueError).

(** [to_integer]
<<
    if isinstance(obj, int):
        return obj
    else:
        try:
            return int(obj)
        except (TypeError, ValueError):
            return None
>> *)
Definition to_integer (obj : value) : res value :=
  if is_int obj then Ok obj
  else catch (z <- py_int obj ;; Ok (VInt z)) TypeError_or_ValueError
         (fun _ => Ok VNone).

(** [to_float]
<<
    if isinstance(obj, (float, Decimal)):
        return obj
    elif isinstance(obj, _MISSING_TYPE):
        return None
    else:
        try:
            return float(obj)
        except (TypeError, ValueError):
            return None
>> *)
Definition to_float (obj : value) : res value :=
  if is_float obj || is_Decimal obj then Ok obj
  else if is_MISSING obj then Ok VNone
  else catch (f <- py_float ext obj ;; Ok (VFloat f)) TypeError_or_ValueError
         (fun _ => Ok VNone).

(** [to_decimal]
<<
    if isinstance(obj, Decimal):
        return obj
    else:
        try:
            return Decimal(obj)
        except (TypeError, ValueError):
            return None
>> *)
Definition to_decimal (obj : value) : res value :=
  if is_Decimal obj then Ok obj
  else catch (d <- py_Decimal ext obj ;; Ok (VDecimal d))
         TypeError_or_ValueError (fun _ => Ok VNone).

(** [cpdef datetime.timedelta to_timedelta(object obj)]: the body of the
    later variant, but for its handler
<<
    except ValueError:
        return obj
>> *)
Definition to_timedelta (obj : value) : res value :=
  obj <- (if is_bytes obj then decode obj else Ok obj) ;;
  m <- re_match TIMEDELTA_RE 5 obj ;;
  match m with
  | None => cpdef_result is_timedelta (Ok obj)
  | Some groups =>
      catch
        (cpdef_result is_timedelta
          (frac <- _convert_second_fraction (last groups VNone) ;;
           let groups := set_last groups frac in
           let negate := if truth (nth 0 groups VNone) then -1 else 1 in
           match skipn 1 groups with
           | [hours; minutes; seconds; microseconds] =>
               h <- py_int hours ;;
               mi <- py_int minutes ;;
               s <- py_int seconds ;;
               us <- py_int microseconds ;;
               td <- timedelta h mi s us ;;
               timedelta_mul td negate
           | _ => Raise ValueError
           end))
        is_ValueError (fun _ => cpdef_result is_timedelta (Ok obj))
  end.

(** [to_time]
<<
    if isinstance(obj, datetime.time):
        return obj
    else:
        try:
            return datetime.time( *map(int, obj.split(':')) )
        except (ValueError, TypeError):
            pass
        m = TIME_RE.match(obj)
        if not m:
            return obj
        try:
            ...
        except ValueError:
            return obj
>> *)
Definition to_time (obj : value) : res value :=
  if is_time obj then Ok obj
  else
    catch (parts <- method_split obj ;;
           ints <- mapM py_int parts ;;
           time_of_args ints)
          TypeError_or_ValueError (fun _ =>
      m <- re_match TIME_RE 4 obj ;;
      match m with
      | None => Ok obj
      | Some groups =>
          catch
            (frac <- _convert_second_fraction (last groups VNone) ;;
             match set_last groups frac with
             | [hours; minutes; seconds; microseconds] =>
                 h <- py_int hours ;;
                 mi <- py_int minutes ;;
                 s <- py_int seconds ;;
                 us <- py_int microseconds ;;
                 mk_time h mi s us
             | _ => Raise ValueError
             end)
            is_ValueError (fun _ => Ok obj)
      end).

(** [distutils.util.strtobool]: the vocabulary of [strtobool] above, with
    the results [1] and [0]. *)
Definition strtobool (val : string) : res value :=
  let val := lower val in
  if str_in val truthy then Ok (VInt 1)
  else if str_in val falsy then Ok (VInt 0)
  else Raise ValueError.

(** [to_boolean]
<<
    if isinstance(obj, bool):
        return obj
    if isinstance(obj, (bytes, bytearray)):
        obj = obj.decode("ascii")
    if isinstance(obj, str):
        return strtobool(obj)
    else:
        return bool(obj)
>> *)
Definition to_boolean (obj : value) : res value :=
  if is_bool obj then Ok obj
  else
    obj <- (if is_bytes obj then decode obj else Ok obj) ;;
    match obj with
    | VStr s => strtobool s
    | _ => Ok (VBool (truth obj))
    end.

(** [to_object]
<<
    if isinstance(obj, (list, dict)):
        return obj
    elif isinstance(obj, str):
        try:
            return orjson.loads(obj)
        except (TypeError, ValueError):
            return None
    else:
        raise ValueError(...)
>> *)
Definition to_object (obj : value) : res value :=
  if is_list obj || is_dict obj then Ok obj
  else
    match obj with
    | VStr s =>
        catch (orjson_loads ext s) TypeError_or_ValueError (fun _ => Ok VNone)
    | _ => Raise ValueError
    end.

Definition encoders : list (pyclass * (value -> res value)) :=
  [ (C_UUID, to_uuid);
    (C_bool, to_boolean);
    (C_int, to_integer);
    (C_float, to_float);
    (C_class "numpy.int64", to_integer);
    (C_date, to_date);
    (C_datetime, to_datetime);
    (C_timedelta, to_timedelta);
    (C_time, to_time);
    (C_Decimal, to_decimal);
    (C_dict, to_object);
    (C_list, to_object) ].

(** [parse_type(T, data, encoder=None)]
<<
    if T.__module__ == 'typing':
        args = None
        try:
            args = T.__args__
        except AttributeError:
            pass
        if T._name == 'Dict' and isinstance(data, dict):
            return {k: parse_type(T.__args__[1], v) for k, v in data.items()}
        elif T._name == 'List' and isinstance(data, (list, tuple)):
            arg = args[0]
            if arg.__module__ == 'typing':
                try:
                    t = arg.__args__[0]
                    if is_dataclass(t):
                        result = []
                        for x in data:
                            if isinstance(x, dict):
                                result.append(t( **x ))
                            else:
                                result.append(t( *x ))
                        return result
                    else:
                        return data
                except AttributeError:
                    return data
            elif is_dataclass(arg):
                return [arg( *x ) for x in data]
            else:
                return data
        elif T._name is None:
            if isinstance(T.__origin__, type(Union)):
                t = args[0]
                if is_dataclass(t):
                    if isinstance(data, dict):
                        data = t( **data )
                    elif isinstance(data, (list, tuple)):
                        data = t( *data )
                    else:
                        data = None
                return data
            else:
                pass
    else:
        if encoder is not None:
            try:
                return encoder(data)
            except ValueError:
                raise ValueError(...)
        elif is_dataclass(T):
            ...
            return data
        elif T == str:
            return str(data)
        else:
            try:
                conv = encoders[T]
                return conv(data)
            except KeyError:
                pass
            except ValueError:
                raise ValueError(...)
        return data
>> *)
Definition new_star (t : pytype) (x : value) : res value :=
  if is_dict x then new ext t [] (dict_items x)
  else (xs <- iterate x ;; new ext t xs []).

Fixpoint parse_type (T : pytype) (data : value)
    (encoder : option (value -> res value)) {struct T} : res value :=
  match T with
  | Typing name origin_is_Union args =>
      if name_is T "Dict" && is_dict data then
        match dict_items data, args with
        | [], _ => Ok (VDict [])
        | _ :: _, None => Raise AttributeError
        | _ :: _, Some (_ :: value_type :: _) =>
            items <- mapM (fun kv : value * value =>
                             v <- parse_type value_type (snd kv) None ;;
                             Ok (fst kv, v)) (dict_items data) ;;
            Ok (VDict items)
        | _ :: _, Some _ => Raise IndexError
        end
      else if name_is T "List" && is_list_or_tuple data then
        match args with
        | None => Raise TypeError
        | Some [] => Raise IndexError
        | Some (arg :: _) =>
            if in_typing arg then
              catch
                (match arg with
                 | Typing _ _ (Some (t :: _)) =>
                     if is_dataclass t then
                       xs <- iterate data ;;
                       result <- mapM (new_star t) xs ;;
                       Ok (VList result)
                     else Ok data
                 | Typing _ _ (Some []) => Raise IndexError
                 | _ => Raise AttributeError
                 end)
                is_AttributeError (fun _ => Ok data)
            else if is_dataclass arg then
              xs <- iterate data ;;
              result <- mapM (fun x => a <- iterate x ;; new ext arg a []) xs ;;
              Ok (VList result)
            else Ok data
        end
      else if match name with None => true | Some _ => false end then
        if origin_is_Union then
          match args with
          | None => Raise TypeError
          | Some [] => Raise IndexError
          | Some (t :: _) =>
              if is_dataclass t then new_from ext t data (Ok VNone)
              else Ok data
          end
        else Ok VNone
      else Ok VNone
  | Class _ =>
      match encoder with
      | Some enc => catch (enc data) is_ValueError (fun _ => Raise ValueError)
      | None =>
          if is_dataclass T then new_from ext T data (new ext T [data] [])
          else if is_str_class T then (s <- py_str ext data ;; Ok (VStr s))
          else
            match (match T with
                   | Class c => conv <- registry_get encoders c ;; conv data
                   | Typing _ _ _ => Raise KeyError
                   end) with
            | Ok v => Ok v
            | Raise e =>
                if is_KeyError e then Ok data
                else if is_ValueError e then Raise ValueError
                else Raise e
            end
      end
  end.

End Converters.

End Legacy.

(** ** Calendar dates in the extended ISO 8601 format, [YYYY-MM-DD] *)

Definition is_leap (y : Z) : bool :=
  ((y mod 4 =? 0) && negb (y mod 100 =? 0)) || (y mod 400 =? 0).

Definition days_in_month (y m : Z) : Z :=
  if m =? 2 then (if is_leap y then 29 else 28)
  else if (m =? 4) || (m =? 6) || (m =? 9) || (m =? 11) then 30
  else 31.

Definition valid_date (d : date) : bool :=
  (1 <=? year d) && (year d <=? 9999) && (1 <=? month d) && (month d <=? 12)
  && (1 <=? day d) && (day d <=? days_in_month (year d) (month d)).

Definition two_digits (a b : ascii) : option Z :=
  if is_digit a && is_digit b then Some (10 * digit_val a + digit_val b)
  else None.

Definition iso_calendar_date (s : string) : option date :=
  match list_ascii_of_string s with
  | [y1; y2; y3; y4; "-"%char; m1; m2; "-"%char; d1; d2] =>
      match two_digits y1 y2, two_digits y3 y4, two_digits m1 m2,
            two_digits d1 d2 with
      | Some yh, Some yl, Some m, Some d =>
          let r := mkdate (100 * yh + yl) m d in
          if valid_date r then Some r else None
      | _, _, _, _ => None
      end
  | _ => None
  end.

Definition midnight : time := mktime 0 0 0 0.


(** ** A small instance of [Externals], to run the definitions

    The parsers read calendar dates and nothing else, numbers are read as
    integer literals, a dataclass is built from its positional arguments. *)

Definition calendar_parser (s : string) : res value :=
  match iso_calendar_date s with
  | Some d => Ok (VDateTime d midnight)
  | None => Raise ValueError
  end.

Definition calendar_parser_value (obj : value) : res value :=
  match obj with
  | VStr s =>
      match iso_calendar_date s with
      | Some d => Ok (VDateTime d midnight)
      | None => Raise ParserError
      end
  | _ => Raise TypeError
  end.

Fixpoint number_fields (i : nat) (args : list value) : list (string * value) :=
  match args with
  | [] => []
  | a :: args' =>
      (text_of_Z (Z.of_nat i), a) :: number_fields (S i) args'
  end.

Definition sample_construct (c : pyclass) (args : list value)
    (kwargs : list (value * value)) : res value :=
  match c, kwargs with
  | C_dataclass name, [] => Ok (VInstance name (number_fields 0 args))
  | _, _ => Raise TypeError
  end.

Definition sample_externals : Externals :=
  {| repr := fun _ => "<object>";
     float_of_text := fun s =>
       option_map (fun z => FFin z 0) (int_of_text is_int_blank s);
     round_int := fun z => FFin z 0;
     float_of_decimal := fun _ => FFin 0 0;
     decimal_of_sequence := fun _ => Raise ValueError;
     ciso8601_parse_datetime := calendar_parser;
     fromisoformat_text := calendar_parser;
     pendulum_parse := calendar_parser_value;
     dateutil_parse := calendar_parser_value;
     orjson_loads := fun _ => Raise JSONDecodeError;
     construct := sample_construct;
     is_iterable := is_list_or_tuple |}.

(** ** Spellings of a word that differ in the case of its letters *)

Definition is_lower_letter (c : ascii) : bool :=
  let n := nat_of_ascii c in (97 <=? n)%nat && (n <=? 122)%nat.

Definition upper_letter (c : ascii) : ascii :=
  if is_lower_letter c then ascii_of_nat (nat_of_ascii c - 32) else c.

(** [casing s w]: [s] spells the word [w], each letter in either case *)
Fixpoint casing (s w : string) : bool :=
  match s, w with
  | EmptyString, EmptyString => true
  | String c s', String d w' =>
      (Ascii.eqb c d || Ascii.eqb c (upper_letter d)) && casing s' w'
  | _, _ => false
  end.

(** the words of the vocabulary: lower-case ASCII letters and digits *)
Definition plain_char (c : ascii) : bool := is_lower_letter c || is_digit c.

Fixpoint plain_word (w : string) : bool :=
  match w with
  | EmptyString => true
  | String c w' => plain_char c && plain_word w'
  end.


(** ** Notions used in the statements *)

(** text made of decimal digits only *)
Fixpoint all_digits (s : string) : bool :=
  match s with
  | EmptyString => true
  | String c s' => is_digit c && all_digits s'
  end.

(** the result of [try: return UUID(str(obj)) except ValueError: return None] *)
Definition parsed_or_none (ext : Externals) (obj v : value) : Prop :=
  ((s <- py_str ext obj ;; py_UUID s) = Ok v /\ is_UUID v = true)
  \/ ((s <- py_str ext obj ;; py_UUID s) = Raise ValueError /\ v = VNone).

Definition all_ascii : list ascii := map ascii_of_nat (seq 0 256).

(** [lower_char] sends exactly the two spellings of a plain character to
    it; checked on the 256 code points. *)
Definition lower_char_table_ok : bool :=
  forallb (fun d =>
    implb (plain_char d)
      (forallb (fun c =>
         Bool.eqb (Ascii.eqb (lower_char c) d)
                  (Ascii.eqb c d || Ascii.eqb c (upper_letter d)))
         all_ascii))
    all_ascii.

Definition coerce_item (ext : Externals) (val : pytype) (kv : value * value)
    : res (value * value) :=
  v <- parse_type ext val (snd kv) None ;; Ok (fst kv, v).

(** one parse attempt of [to_date]: the parser's result, then [.date()] *)
Definition attempt_date (parsed : res value) : res value :=
  x <- parsed ;; method_date x.

(** the attempt ended in a [ValueError] *)
Definition failed (a : res value) : Prop :=
  exists e, a = Raise e /\ is_ValueError e = true.


Section DateStages.

Variable ext : Externals.




End DateStages.

(** [coerce(d, v)] for a primitive kind [d] *)
Definition coerce (ext : Externals) (d : pyclass) (v : value) : res value :=
  parse_basic ext (Class d) v None.


(** ** More of the module, and notions for the further properties *)

(** [c.isupper()] for one code point below 256 *)
Definition is_upper_char (c : ascii) : bool :=
  let n := nat_of_ascii c in
  (65 <=? n)%nat && (n <=? 90)%nat
  || (192 <=? n)%nat && (n <=? 222)%nat && negb (n =? 215)%nat.

(** the loop of [slugify_camelcase]
<<
    for c in obj[1:]:
        if c.isupper():
            slugified.append(' ')
        slugified.append(c)
>> *)
Fixpoint slugify_loop (rest : string) (slugified : list string) : list string :=
  match rest with
  | EmptyString => slugified
  | String c rest' =>
      let slugified :=
        if is_upper_char c then slugified ++ [" "] else slugified in
      slugify_loop rest' (slugified ++ [String c EmptyString])
  end.

(** the code point 0, which ends the text of a [str] in memory *)
Definition NUL : ascii := ascii_of_nat 0.

(** [cpdef str slugify_camelcase(str obj)]
<<
    slugified = [obj[0]]
    for c in obj[1:]:
        ...
    return ''.join(slugified)
>>
    The module is compiled with [boundscheck=False] and [obj] is declared
    a [str]: [obj[0]] is read without a test of the length, and on the
    empty text it is the NUL that ends the text, not an [IndexError]. *)
Definition slugify_camelcase (obj : string) : res string :=
  let '(c, rest) :=
    match obj with
    | EmptyString => (NUL, EmptyString)
    | String c rest => (c, rest)
    end in
  Ok (String.concat EmptyString (slugify_loop rest [String c EmptyString])).

Fixpoint count_upper (s : string) : nat :=
  match s with
  | EmptyString => O
  | String c s' => (if is_upper_char c then 1 else 0) + count_upper s'
  end.

(** the body of the [try] of [to_timedelta], on the groups of the match *)
Definition timedelta_of_groups (groups : list value) : res value :=
  frac <- _convert_second_fraction (last groups VNone) ;;
  let groups := set_last groups frac in
  let negate := if truth (nth 0 groups VNone) then -1 else 1 in
  match skipn 1 groups with
  | [hours; minutes; seconds; microseconds] =>
      h <- py_int hours ;;
      mi <- py_int minutes ;;
      s <- py_int seconds ;;
      us <- py_int microseconds ;;
      td <- timedelta h mi s us ;;
      timedelta_mul td negate
  | _ => Raise ValueError
  end.

(** [TIMEDELTA_RE] after its optional sign *)
Definition UNSIGNED_RE : regex :=
  Seq (Group 1 (digits 1 3))
 (Seq (Lit ":")
 (Seq (Group 2 (digits 1 2))
 (Seq (Lit ":")
 (Seq (Group 3 (digits 1 2))
      (opt (Seq Dot (Group 4 (digits 1 6)))))))).

(** no group of the expression is group [i] *)
Fixpoint avoids_group (i : nat) (r : regex) : bool :=
  match r with
  | Lit _ | Digit | Dot => true
  | Seq r1 r2 => avoids_group i r1 && avoids_group i r2
  | Repeat _ _ r1 => avoids_group i r1
  | Group j r1 => negb (Nat.eqb i j) && avoids_group i r1
  end.

(** the number a text of digits denotes *)
Fixpoint digits_value (s : string) (acc : Z) : Z :=
  match s with
  | EmptyString => acc
  | String c s' => digits_value s' (10 * acc + digit_val c)
  end.

(** the microseconds a captured fraction stands for *)
Definition fraction_value (g : option string) : Z :=
  match g with
  | None => 0
  | Some f => digits_value f 0 * 10 ^ Z.of_nat (6 - String.length f)
  end.

(** the duration the captured groups stand for, before the sign *)
Definition groups_microseconds (h m sec : string) (g4 : option string) : Z :=
  ((digits_value h 0 * 60 + digits_value m 0) * 60 + digits_value sec 0)
    * 1000000 + fraction_value g4.

Definition captured_digits (lo hi : nat) (t : string) : Prop :=
  all_digits t = true /\ (lo <= String.length t <= hi)%nat.

Definition captured_fraction (g4 : option string) : Prop :=
  g4 = None \/ exists f, g4 = Some f /\ captured_digits 1 6 f.

(** every byte is below 128 *)
Definition is_ascii_bytes (b : list byte) : bool :=
  forallb (fun x => (Byte.to_nat x <? 128)%nat) b.

(** the text does not begin with a minus sign *)
Definition unsigned_text (t : string) : Prop :=
  forall r, t <> String "-" r.

(** every parser of the externals answers with a date-time when it
    answers *)
Definition parsers_return_datetimes (ext : Externals) : Prop :=
  (forall s x, ciso8601_parse_datetime ext s = Ok x -> is_datetime x = true)
  /\ (forall s x, fromisoformat_text ext s = Ok x -> is_datetime x = true)
  /\ (forall v x, pendulum_parse ext v = Ok x -> is_datetime x = true).

(** [x.date()] unless [x] is [None] *)
Definition date_part (x : value) : res value :=
  if is_None x then Ok VNone else method_date x.



(** a set of blanks that holds no digit *)
Definition spares_digits (blank : ascii -> bool) : Prop :=
  forall c, is_digit c = true -> blank c = false.

Fixpoint spaced (s : string) : string :=
  match s with
  | EmptyString => EmptyString
  | String c s' =>
      if is_upper_char c then String " " (String c (spaced s'))
      else String c (spaced s')
  end.

(** the text does not begin with a digit *)
Definition no_leading_digit (s : string) : bool :=
  match s with
  | EmptyString => true
  | String c _ => negb (is_digit c)
  end.

(** the text of a captured fraction: nothing, or a point and the digits *)
Definition fraction_suffix (g : option string) : string :=
  match g with
  | None => EmptyString
  | Some f => String "." f
  end.

(** [H:M:S] and the fraction, as one text *)
Definition clock_text (h m sec : string) (g4 : option string) : string :=
  (h ++ String ":" (m ++ String ":" (sec ++ fraction_suffix g4)))%string.


(** * Properties *)

Lemma conversion_error_Raise {A : Type} (e : exn) :
  @conversion_error A (Raise e) <-> is_ValueError e = true.
Proof.
  split.
  - intros [e' [H1 H2]]. inversion H1; subst; assumption.
  - intros H. exists e. split; [reflexivity | assumption].
Qed.


Lemma raises_Ok {A : Type} (a : A) : ~ raises (Ok a).
Proof. intros [e H]. discriminate H. Qed.

(** ** Duration *)

(** Text that [TIMEDELTA_RE] does not match reaches [return obj], where
    the declared result type refuses it: the call ends in a [TypeError]. *)
Lemma to_timedelta_text_unmatched (s : string) :
  re_match TIMEDELTA_RE 5 (VStr s) = Ok None ->
  to_timedelta (VStr s) = Raise TypeError.
Proof.
  intros H. unfold to_timedelta. simpl is_bytes. cbv iota.
  unfold bind at 1. unfold bind at 1. rewrite H. reflexivity.
Qed.

(** So do bytes, once decoded. *)
Lemma to_timedelta_bytes_unmatched (b : list byte) (s : string) :
  decode_ascii b = Ok s ->
  re_match TIMEDELTA_RE 5 (VStr s) = Ok None ->
  to_timedelta (VBytes b) = Raise TypeError.
Proof.
  intros Hd H. unfold to_timedelta. simpl is_bytes. cbv iota.
  unfold decode. rewrite Hd. unfold bind at 2. unfold bind at 1.
  unfold bind at 1. rewrite H. reflexivity.
Qed.

(** The earlier variant is declared alike and ends alike. *)
Lemma Legacy_to_timedelta_text_unmatched (s : string) :
  re_match TIMEDELTA_RE 5 (VStr s) = Ok None ->
  Legacy.to_timedelta (VStr s) = Raise TypeError.
Proof.
  intros H. unfold Legacy.to_timedelta. simpl is_bytes. cbv iota.
  unfold bind at 1. unfold bind at 1. rewrite H. reflexivity.
Qed.

(** The engine reports the [TypeError] of the converter as a
    [ValueError]. *)
Lemma coerce_timedelta_unmatched (ext : Externals) (v : value) :
  to_timedelta v = Raise TypeError ->
  parse_type ext (Class C_timedelta) v None = Raise ValueError
  /\ parse_basic ext (Class C_timedelta) v None = Raise ValueError.
Proof.
  intros H. split.
  - cbn [parse_type is_dataclass encoders_get registry_get encoders
         pyclass_eqb]. rewrite H. reflexivity.
  - unfold parse_basic.
    cbn [is_str_class is_bytes_class encoders_get registry_get encoders
         pyclass_eqb bind]. rewrite H. reflexivity.
Qed.

(** C1, at the input ["abc"] (as text and as bytes): the pattern does not
    match, and [to_timedelta] ends in the [TypeError] of its declared
    result type, in both variants: the input is not handed back, but the
    error is not the [ValueError] of the handler, it is no conversion
    error.  Only the engine, whose handlers name [TypeError], turns it into
    a [ValueError]. *)
Theorem to_timedelta_unmatched_input_TypeError (ext : Externals) :
  re_match TIMEDELTA_RE 5 (VStr "abc") = Ok None
  /\ to_timedelta (VStr "abc") = Raise TypeError
  /\ to_timedelta (VBytes [x61; x62; x63]) = Raise TypeError
  /\ Legacy.to_timedelta (VStr "abc") = Raise TypeError
  /\ Legacy.to_timedelta (VBytes [x61; x62; x63]) = Raise TypeError
  /\ ~ conversion_error (to_timedelta (VStr "abc"))
  /\ ~ conversion_error (to_timedelta (VBytes [x61; x62; x63]))
  /\ parse_type ext (Class C_timedelta) (VStr "abc") None = Raise ValueError
  /\ parse_basic ext (Class C_timedelta) (VStr "abc") None = Raise ValueError.
Proof.
  assert (Ht : to_timedelta (VStr "abc") = Raise TypeError)
    by (vm_compute; reflexivity).
  assert (Hb : to_timedelta (VBytes [x61; x62; x63]) = Raise TypeError)
    by (vm_compute; reflexivity).
  split; [vm_compute; reflexivity |].
  split; [exact Ht |]. split; [exact Hb |].
  split; [vm_compute; reflexivity |]. split; [vm_compute; reflexivity |].
  split; [rewrite Ht; intros [e [H1 H2]]; inversion H1; subst; discriminate H2 |].
  split; [rewrite Hb; intros [e [H1 H2]]; inversion H1; subst; discriminate H2 |].
  apply coerce_timedelta_unmatched. exact Ht.
Qed.

(** *** What a match of [TIMEDELTA_RE] captures *)

Lemma re_run_Repeat_O (r : regex) (lo : nat) s caps k :
  re_run (Repeat lo 0 r) s caps k
  = match lo with O => k s caps | S _ => None end.
Proof. reflexivity. Qed.

Lemma re_run_Repeat_S (r : regex) (lo hi : nat) s caps k :
  re_run (Repeat lo (S hi) r) s caps k
  = match re_run r s caps
            (fun s' caps' => re_run (Repeat (pred lo) hi r) s' caps' k) with
    | Some c => Some c
    | None => match lo with O => k s caps | S _ => None end
    end.
Proof. reflexivity. Qed.

Lemma re_run_Digit s caps k :
  re_run Digit s caps k
  = match s with
    | String a s' => if is_digit a then k s' caps else None
    | EmptyString => None
    end.
Proof. reflexivity. Qed.

Lemma digits_run (hi : nat) : forall lo s caps k c,
  re_run (Repeat lo hi Digit) s caps k = Some c ->
  exists ds s', s = (ds ++ s')%string /\ all_digits ds = true
    /\ (lo <= String.length ds <= hi)%nat /\ k s' caps = Some c.
Proof.
  induction hi as [| hi IH]; intros lo s caps k c H.
  - rewrite re_run_Repeat_O in H. destruct lo; [| discriminate H].
    exists EmptyString, s. repeat split; try reflexivity; try lia. exact H.
  - rewrite re_run_Repeat_S in H.
    assert (Hstop : match lo with O => k s caps | S _ => None end = Some c ->
      exists ds s', s = (ds ++ s')%string /\ all_digits ds = true
        /\ (lo <= String.length ds <= S hi)%nat /\ k s' caps = Some c).
    { destruct lo; [| discriminate].
      intros E. exists EmptyString, s. repeat split; try reflexivity; simpl; try lia.
      exact E. }
    rewrite re_run_Digit in H.
    destruct s as [| a s1]; [apply Hstop, H |].
    destruct (is_digit a) eqn:Ha; [| apply Hstop, H].
    destruct (re_run (Repeat (pred lo) hi Digit) s1 caps k) as [c' |] eqn:E;
      [| apply Hstop, H].
    inversion H; subst c'. apply IH in E.
    destruct E as [ds [s' [Hs [Hd [Hl Hk]]]]].
    exists (String a ds), s'. subst s1. repeat split.
    + simpl. rewrite Ha, Hd. reflexivity.
    + simpl. lia.
    + simpl. lia.
    + exact Hk.
Qed.

Lemma length_app (a b : string) :
  String.length (a ++ b)%string = (String.length a + String.length b)%nat.
Proof. induction a as [| c a IH]; simpl; [reflexivity | rewrite IH; reflexivity]. Qed.

Lemma substring_prefix (a b : string) :
  substring 0 (String.length a) (a ++ b)%string = a.
Proof.
  induction a as [| c a IH]; simpl.
  - destruct b; reflexivity.
  - rewrite IH. reflexivity.
Qed.

Lemma consumed_app (ds s' : string) : consumed (ds ++ s')%string s' = ds.
Proof.
  unfold consumed. rewrite length_app.
  replace (String.length ds + String.length s' - String.length s')%nat
    with (String.length ds) by lia.
  apply substring_prefix.
Qed.

Lemma re_run_Group i r s caps k :
  re_run (Group i r) s caps k
  = re_run r s caps (fun s' caps' => k s' (set_nth i (Some (consumed s s')) caps')).
Proof. reflexivity. Qed.

Lemma re_run_Seq r1 r2 s caps k :
  re_run (Seq r1 r2) s caps k
  = re_run r1 s caps (fun s' caps' => re_run r2 s' caps' k).
Proof. reflexivity. Qed.

Lemma re_run_Lit a s caps k c :
  re_run (Lit a) s caps k = Some c ->
  exists s', s = String a s' /\ k s' caps = Some c.
Proof.
  simpl. destruct s as [| b s']; [discriminate |].
  destruct (Ascii.eqb b a) eqn:E; [| discriminate].
  apply Ascii.eqb_eq in E. subst b. intros H. exists s'. split; [reflexivity | exact H].
Qed.

Lemma re_run_Dot s caps k c :
  re_run Dot s caps k = Some c ->
  exists a s', s = String a s' /\ k s' caps = Some c.
Proof.
  simpl. destruct s as [| b s']; [discriminate |].
  destruct (Ascii.eqb b newline); [discriminate |].
  intros H. exists b, s'. split; [reflexivity | exact H].
Qed.

Lemma re_run_opt r s caps k c :
  re_run (opt r) s caps k = Some c ->
  re_run r s caps k = Some c \/ k s caps = Some c.
Proof.
  unfold opt. rewrite re_run_Repeat_S. cbn [pred].
  intros H.
  change (fun s' caps' => re_run (Repeat 0 0 r) s' caps' k) with k in H.
  destruct (re_run r s caps k) as [c' |]; [left; exact H | right; exact H].
Qed.

Lemma group_digits_run i lo hi s caps k c :
  re_run (Group i (digits lo hi)) s caps k = Some c ->
  exists ds s', s = (ds ++ s')%string /\ all_digits ds = true
    /\ (lo <= String.length ds <= hi)%nat
    /\ k s' (set_nth i (Some ds) caps) = Some c.
Proof.
  rewrite re_run_Group. unfold digits. intros H. apply digits_run in H.
  destruct H as [ds [s' [Hs [Hd [Hl Hk]]]]].
  exists ds, s'. subst s. rewrite consumed_app in Hk. repeat split; try assumption; lia.
Qed.

(** the groups of a match of [TIMEDELTA_RE] *)
Lemma TIMEDELTA_RE_groups (s : string) (c : captures) :
  re_run TIMEDELTA_RE s (repeat None 5) (fun _ caps => Some caps) = Some c ->
  exists g0 h m sec g4,
    c = [g0; Some h; Some m; Some sec; g4]
    /\ (g0 = None \/ g0 = Some "-")
    /\ all_digits h = true /\ (1 <= String.length h <= 3)%nat
    /\ all_digits m = true /\ (1 <= String.length m <= 2)%nat
    /\ all_digits sec = true /\ (1 <= String.length sec <= 2)%nat
    /\ (g4 = None \/ exists f, g4 = Some f /\ all_digits f = true
                              /\ (1 <= String.length f <= 6)%nat).
Proof.
  unfold TIMEDELTA_RE. rewrite re_run_Seq. intros H.
  assert (H1 : exists g0 s1, (g0 = None \/ g0 = Some "-") /\
     re_run (Seq (Group 1 (digits 1 3))
       (Seq (Lit ":") (Seq (Group 2 (digits 1 2)) (Seq (Lit ":")
         (Seq (Group 3 (digits 1 2)) (opt (Seq Dot (Group 4 (digits 1 6)))))))))
       s1 [g0; None; None; None; None] (fun _ caps => Some caps) = Some c).
  { apply re_run_opt in H. destruct H as [H | H].
    - rewrite re_run_Group in H. apply re_run_Lit in H.
      destruct H as [s1 [Hs H]]. subst s.
      change (String "-" s1) with ("-" ++ s1)%string in H.
      rewrite consumed_app in H.
      exists (Some "-"), s1. split; [right; reflexivity | exact H].
    - exists None, s. split; [left; reflexivity | exact H]. }
  clear H. destruct H1 as [g0 [s1 [Hg0 H]]].
  rewrite re_run_Seq in H. apply group_digits_run in H.
  destruct H as [h [s2 [_ [Hh [Hhl H]]]]]. cbn [set_nth] in H.
  rewrite re_run_Seq in H. apply re_run_Lit in H. destruct H as [s3 [_ H]].
  rewrite re_run_Seq in H. apply group_digits_run in H.
  destruct H as [m [s4 [_ [Hm [Hml H]]]]]. cbn [set_nth] in H.
  rewrite re_run_Seq in H. apply re_run_Lit in H. destruct H as [s5 [_ H]].
  rewrite re_run_Seq in H. apply group_digits_run in H.
  destruct H as [sec [s6 [_ [Hs [Hsl H]]]]]. cbn [set_nth] in H.
  apply re_run_opt in H. destruct H as [H | H].
  - rewrite re_run_Seq in H. apply re_run_Dot in H. destruct H as [a [s7 [_ H]]].
    apply group_digits_run in H.
    destruct H as [f [s8 [_ [Hf [Hfl H]]]]]. cbn [set_nth] in H.
    inversion H; subst c.
    exists g0, h, m, sec, (Some f). repeat split; try assumption; try lia.
    right. exists f. repeat split; try assumption; lia.
  - inversion H; subst c.
    exists g0, h, m, sec, None. repeat split; try assumption; try lia.
    left. reflexivity.
Qed.

Lemma is_digit_bounds (c : ascii) :
  is_digit c = true -> 0 <= digit_val c <= 9.
Proof.
  unfold is_digit, digit_val. intros H. apply andb_prop in H. destruct H as [H1 H2].
  apply Nat.leb_le in H1. apply Nat.leb_le in H2. lia.
Qed.

Lemma digit_not_space (c : ascii) : is_digit c = true -> is_space c = false.
Proof.
  unfold is_digit, is_space. intros H. apply andb_prop in H. destruct H as [H1 H2].
  apply Nat.leb_le in H1. apply Nat.leb_le in H2.
  repeat match goal with
  | |- context [(?a <=? ?b)%nat] => destruct (Nat.leb_spec a b)
  | |- context [(?a =? ?b)%nat] => destruct (Nat.eqb_spec a b)
  end; simpl; try reflexivity; lia.
Qed.

Lemma digit_not_c_space (c : ascii) : is_digit c = true -> is_c_space c = false.
Proof.
  unfold is_digit, is_c_space. intros H. apply andb_prop in H. destruct H as [H1 H2].
  apply Nat.leb_le in H1. apply Nat.leb_le in H2.
  repeat match goal with
  | |- context [(?a <=? ?b)%nat] => destruct (Nat.leb_spec a b)
  | |- context [(?a =? ?b)%nat] => destruct (Nat.eqb_spec a b)
  end; simpl; try reflexivity; lia.
Qed.

Lemma digit_not_int_blank (c : ascii) :
  is_digit c = true -> is_int_blank c = false.
Proof.
  intros H. unfold is_int_blank. rewrite (digit_not_c_space c H).
  unfold is_digit in H. apply andb_prop in H. destruct H as [H1 H2].
  apply Nat.leb_le in H1. apply Nat.leb_le in H2.
  repeat match goal with
  | |- context [(?a =? ?b)%nat] => destruct (Nat.eqb_spec a b)
  end; simpl; try reflexivity; lia.
Qed.

Lemma lstrip_digits (blank : ascii -> bool) (t : string) :
  spares_digits blank -> all_digits t = true -> lstrip_by blank t = t.
Proof.
  intros Hb. destruct t as [| c t]; [reflexivity |]. simpl. intros H.
  apply andb_prop in H. destruct H as [H _].
  rewrite (Hb c H). reflexivity.
Qed.

Lemma rstrip_digits (blank : ascii -> bool) (t : string) :
  spares_digits blank -> all_digits t = true -> rstrip_by blank t = t.
Proof.
  intros Hb. induction t as [| c t IH]; [reflexivity |]. simpl. intros H.
  apply andb_prop in H. destruct H as [Hc Ht]. rewrite (IH Ht).
  destruct t; [rewrite (Hb c Hc) |]; reflexivity.
Qed.

Lemma strip_digits (blank : ascii -> bool) (t : string) :
  spares_digits blank -> all_digits t = true -> strip_by blank t = t.
Proof.
  intros Hb Hd. unfold strip_by.
  rewrite (lstrip_digits blank t Hb Hd). apply rstrip_digits; assumption.
Qed.

Lemma count_digits_all (t : string) :
  all_digits t = true -> count_digits t = Z.of_nat (String.length t).
Proof.
  induction t as [| c t IH]; [reflexivity |]. intros H. simpl in H.
  apply andb_prop in H. destruct H as [Hc Ht].
  cbn [count_digits String.length]. rewrite Hc, (IH Ht). lia.
Qed.

Lemma int_digits_all (t : string) : forall acc b,
  all_digits t = true -> (t <> EmptyString \/ b = true) -> 0 <= acc ->
  exists z, int_digits t acc b = Some z
    /\ acc * 10 ^ Z.of_nat (String.length t) <= z
       < (acc + 1) * 10 ^ Z.of_nat (String.length t).
Proof.
  induction t as [| c t IH]; intros acc b Hd Hne Hacc.
  - destruct Hne as [Hne | ->]; [contradiction Hne; reflexivity |].
    exists acc. simpl. split; [reflexivity | lia].
  - simpl in Hd. apply andb_prop in Hd. destruct Hd as [Hc Ht].
    cbn [int_digits]. rewrite Hc.
    pose proof (is_digit_bounds c Hc) as Hb.
    destruct (IH (10 * acc + digit_val c) true Ht (or_intror eq_refl)) as [z [Hz Hr]];
      [lia |].
    exists z. split; [exact Hz |].
    cbn [String.length]. rewrite Nat2Z.inj_succ, Z.pow_succ_r by lia.
    assert (0 < 10 ^ Z.of_nat (String.length t)) by (apply Z.pow_pos_nonneg; lia).
    nia.
Qed.

(** a text of digits has no blank to strip and no sign *)
Lemma int_of_text_unsigned (blank : ascii -> bool) (t : string) :
  spares_digits blank -> all_digits t = true ->
  int_of_text blank t = int_literal t.
Proof.
  intros Hb Hd. unfold int_of_text. rewrite (strip_digits blank t Hb Hd).
  destruct t as [| c t]; [reflexivity |].
  simpl in Hd. apply andb_prop in Hd. destruct Hd as [Hc _].
  destruct c as [[] [] [] [] [] [] [] []]; try discriminate Hc; reflexivity.
Qed.

(** a text of at most [max_str_digits] digits is read as the literal it
    is, whatever the blanks *)
Lemma int_of_text_digits (blank : ascii -> bool) (t : string) :
  spares_digits blank -> all_digits t = true ->
  Z.of_nat (String.length t) <= max_str_digits ->
  int_of_text blank t = int_digits t 0 false.
Proof.
  intros Hb Hd Hl. rewrite (int_of_text_unsigned blank t Hb Hd).
  unfold int_literal. rewrite (count_digits_all t Hd).
  destruct (Z.ltb_spec max_str_digits (Z.of_nat (String.length t)));
    [lia | reflexivity].
Qed.

Lemma py_int_digits (t : string) :
  all_digits t = true -> (1 <= String.length t)%nat ->
  Z.of_nat (String.length t) <= max_str_digits ->
  exists z, py_int (VStr t) = Ok z /\ 0 <= z < 10 ^ Z.of_nat (String.length t).
Proof.
  intros Hd Hl Hm.
  pose proof (int_of_text_digits is_int_blank t digit_not_int_blank Hd Hm) as Hi.
  destruct (int_digits_all t 0 false Hd) as [z [Hz Hr]].
  - left. destruct t; [simpl in Hl; lia | discriminate].
  - lia.
  - exists z. cbn [py_int]. rewrite Hi, Hz. split; [reflexivity | lia].
Qed.

Lemma fraction_digits (f : string) :
  all_digits f = true -> (1 <= String.length f <= 6)%nat ->
  exists z, _convert_second_fraction (VStr f) = Ok (VInt z) /\ 0 <= z < 1000000.
Proof.
  intros Hd Hl. unfold _convert_second_fraction.
  assert (Ht : truth (VStr f) = true).
  { destruct f; [simpl in Hl; lia | reflexivity]. }
  rewrite Ht. cbn [negb].
  assert (Hp : all_digits (prefix_upto 6 (ljust 6 "0" f)) = true
               /\ String.length (prefix_upto 6 (ljust 6 "0" f)) = 6%nat).
  { destruct f as [| c1 [| c2 [| c3 [| c4 [| c5 [| c6 [| c7 f]]]]]]];
      simpl in Hl; try lia; simpl in Hd;
      repeat match goal with
      | H : _ && _ = true |- _ => apply andb_prop in H; destruct H
      end;
      split; try reflexivity; simpl;
      repeat match goal with
      | H : is_digit _ = true |- _ => rewrite H; clear H
      end; reflexivity. }
  destruct Hp as [Hpd Hpl].
  destruct (py_int_digits _ Hpd) as [z [Hz Hr]];
    [lia | rewrite Hpl; unfold max_str_digits; lia |].
  exists z. rewrite Hz. rewrite Hpl in Hr. split; [reflexivity | exact Hr].
Qed.

Lemma timedelta_of_us_small (us : Z) :
  - 10 ^ 13 < us < 10 ^ 13 -> timedelta_of_us us = Ok (VTimedelta us).
Proof.
  intros H. unfold timedelta_of_us, us_per_day, max_days.
  assert (Hb : Z.abs (us / 86400000000) <= 999999999).
  { pose proof (Z.mul_div_le us 86400000000 ltac:(lia)).
    pose proof (Z.mul_succ_div_gt us 86400000000 ltac:(lia)).
    change (10 ^ 13) with 10000000000000 in H. lia. }
  apply Z.leb_le in Hb. rewrite Hb. reflexivity.
Qed.

(** On text [to_timedelta] hands nothing back but a duration: text that
    the pattern does not match ends in the [TypeError] of the declared
    result type, and after a match the handler of the [try] is never
    entered. *)
Theorem to_timedelta_text_total (s : string) :
  (re_match TIMEDELTA_RE 5 (VStr s) = Ok None
   /\ to_timedelta (VStr s) = Raise TypeError)
  \/ exists v, to_timedelta (VStr s) = Ok v /\ is_timedelta v = true.
Proof.
  destruct (re_match TIMEDELTA_RE 5 (VStr s)) as [[groups |] | e] eqn:Em.
  3: { discriminate Em. }
  2: { left. split; [reflexivity | apply to_timedelta_text_unmatched, Em]. }
  right. unfold to_timedelta. cbn [is_bytes]. cbv iota. unfold bind at 1.
  rewrite Em. unfold bind at 1. unfold re_match in Em.
  destruct (re_run TIMEDELTA_RE s (repeat None 5) (fun _ caps => Some caps))
    as [c |] eqn:E; cbn [option_map] in Em; [| discriminate Em].
  inversion Em; subst groups. clear Em.
  apply TIMEDELTA_RE_groups in E.
  destruct E as [g0 [h [m [sec [g4 [-> [Hg0 [Hh [Hhl [Hm [Hml [Hs [Hsl Hg4]]]]]]]]]]]]].
  cbn [map group_value last].
  assert (Hfrac : exists z, _convert_second_fraction (group_value g4) = Ok (VInt z)
                            /\ 0 <= z < 1000000).
  { destruct Hg4 as [-> | [f [-> [Hf Hfl]]]].
    - exists 0. split; [reflexivity | lia].
    - apply fraction_digits; assumption. }
  destruct Hfrac as [us [Hus Husr]]. unfold cpdef_result. rewrite Hus. cbn [bind].
  unfold set_last. cbn [List.length pred set_nth nth skipn].
  destruct (py_int_digits h Hh) as [zh [Ezh Rh]];
    [lia | unfold max_str_digits; lia |].
  destruct (py_int_digits m Hm) as [zm [Ezm Rm]];
    [lia | unfold max_str_digits; lia |].
  destruct (py_int_digits sec Hs) as [zs [Ezs Rs]];
    [lia | unfold max_str_digits; lia |].
  rewrite Ezh, Ezm, Ezs. cbn [bind py_int].
  assert (Bh : zh < 1000).
  { assert (10 ^ Z.of_nat (String.length h) <= 10 ^ 3)
      by (apply Z.pow_le_mono_r; lia). lia. }
  assert (Bm : zm < 100).
  { assert (10 ^ Z.of_nat (String.length m) <= 10 ^ 2)
      by (apply Z.pow_le_mono_r; lia). lia. }
  assert (Bs : zs < 100).
  { assert (10 ^ Z.of_nat (String.length sec) <= 10 ^ 2)
      by (apply Z.pow_le_mono_r; lia). lia. }
  unfold timedelta.
  set (total := ((zh * 60 + zm) * 60 + zs) * 1000000 + us).
  assert (Bt : 0 <= total < 10 ^ 13).
  { unfold total. change (10 ^ 13) with 10000000000000. nia. }
  rewrite (timedelta_of_us_small total) by lia. cbn [bind timedelta_mul].
  destruct (truth (group_value g0)).
  - rewrite (timedelta_of_us_small (total * -1)) by lia.
    cbn [bind is_None is_timedelta orb catch].
    eexists. split; reflexivity.
  - rewrite (timedelta_of_us_small (total * 1)) by lia.
    cbn [bind is_None is_timedelta orb catch].
    eexists. split; reflexivity.
Qed.

Lemma to_timedelta_bytes_as_text (b : list byte) (s : string) :
  decode_ascii b = Ok s -> to_timedelta (VBytes b) = to_timedelta (VStr s).
Proof.
  intros H. unfold to_timedelta. cbn [is_bytes]. unfold decode. rewrite H.
  reflexivity.
Qed.

(** [re.match] anchors at the start only: what follows a duration is
    ignored. *)
Lemma to_timedelta_prefix_match :
  to_timedelta (VStr "1:02:03 or so") = Ok (VTimedelta 3723000000).
Proof. vm_compute. reflexivity. Qed.

(** A duration that matches is converted, the sign applied to the whole. *)
Lemma to_timedelta_negative_example :
  to_timedelta (VStr "-01:02:03.250000")
  = Ok (VTimedelta (- ((1 * 3600 + 2 * 60 + 3) * 1000000 + 250000))).
Proof. vm_compute. reflexivity. Qed.

(** ** Integer *)

(** C2, counterexample: [None] is not integral, is no value-producer and
    [int(None)] fails, yet [to_integer] answers [None] and raises nothing:
    the guard [if obj is None: return None] comes first. *)
Lemma to_integer_none_is_returned :
  is_int VNone = false /\ callable VNone = false
  /\ py_int VNone = Raise TypeError
  /\ to_integer VNone = Ok VNone
  /\ ~ raises (to_integer VNone).
Proof.
  repeat split. apply raises_Ok.
Qed.

(** C2, amended: an input other than [None] that is not integral, is no
    value-producer and that [int] rejects with a [TypeError] or a
    [ValueError] makes [to_integer] raise a conversion error; the answer is
    never [None] there. *)
Theorem to_integer_rejects (obj : value) (e : exn) :
  is_None obj = false -> is_int obj = false -> callable obj = false ->
  py_int obj = Raise e -> TypeError_or_ValueError e = true ->
  to_integer obj = Raise ValueError
  /\ conversion_error (to_integer obj)
  /\ to_integer obj <> Ok VNone.
Proof.
  intros Hn Hi Hc He Hcls.
  assert (H : to_integer obj = Raise ValueError).
  { unfold to_integer. rewrite Hn, Hi, Hc, He. simpl. rewrite Hcls. reflexivity. }
  rewrite H. repeat split.
  - apply conversion_error_Raise. reflexivity.
  - discriminate.
Qed.

Lemma to_integer_rejects_witness :
  to_integer (VStr "4x2") = Raise ValueError
  /\ conversion_error (to_integer (VStr "4x2"))
  /\ to_integer (VStr "4x2") <> Ok VNone.
Proof.
  apply (to_integer_rejects (VStr "4x2") ValueError); reflexivity.
Defined.


(** The earlier variant is lenient: the same failure is answered [None]. *)
Lemma Legacy_to_integer_lenient (obj : value) (e : exn) :
  is_int obj = false -> py_int obj = Raise e ->
  TypeError_or_ValueError e = true ->
  Legacy.to_integer obj = Ok VNone.
Proof.
  intros Hi He Hcls. unfold Legacy.to_integer. rewrite Hi, He. simpl.
  rewrite Hcls. reflexivity.
Qed.

(** ** Float and decimal *)

(** The float converter is lenient for what its handler names. *)
Lemma to_float_lenient (ext : Externals) (obj : value) (e : exn) :
  is_float obj = false -> is_Decimal obj = false -> callable obj = false ->
  py_float ext obj = Raise e -> TypeError_or_ValueError e = true ->
  to_float ext obj = Ok VNone.
Proof.
  intros Hf Hd Hc He Hcls. unfold to_float. rewrite Hf, Hd, Hc. simpl.
  destruct (is_MISSING obj); [reflexivity |].
  rewrite He. simpl. rewrite Hcls. reflexivity.
Qed.

(** So is the decimal converter, for the same two classes. *)
Lemma to_decimal_lenient (ext : Externals) (obj : value) (e : exn) :
  is_Decimal obj = false -> callable obj = false ->
  py_Decimal ext obj = Raise e -> TypeError_or_ValueError e = true ->
  to_decimal ext obj = Ok VNone.
Proof.
  intros Hd Hc He Hcls. unfold to_decimal. rewrite Hd, Hc.
  destruct (is_None obj); [reflexivity |].
  rewrite He. simpl. rewrite Hcls. reflexivity.
Qed.

(** But text outside the numeric syntax makes [Decimal] raise
    [decimal.InvalidOperation], which the handler does not name. *)
Lemma to_decimal_text_unparsable (ext : Externals) (s : string) :
  decimal_of_text s = None ->
  to_decimal ext (VStr s) = Raise InvalidOperation
  /\ Legacy.to_decimal ext (VStr s) = Raise InvalidOperation.
Proof.
  intros H. unfold to_decimal, Legacy.to_decimal. simpl. rewrite H.
  split; reflexivity.
Qed.

(** C8, at the input ["abc"]: it is no decimal, no value-producer and
    cannot be parsed, and [to_decimal] raises [decimal.InvalidOperation]
    (in both variants) where the claim has it return [None]. *)
Theorem to_decimal_unparsable_text_raises (ext : Externals) :
  is_Decimal (VStr "abc") = false /\ callable (VStr "abc") = false
  /\ py_Decimal ext (VStr "abc") = Raise InvalidOperation
  /\ to_decimal ext (VStr "abc") = Raise InvalidOperation
  /\ to_decimal ext (VStr "abc") <> Ok VNone
  /\ Legacy.to_decimal ext (VStr "abc") = Raise InvalidOperation.
Proof.
  repeat split. discriminate.
Qed.

(** An integer too large for a float escapes [to_float] the same way. *)
Lemma to_float_overflow (ext : Externals) :
  to_float ext (VInt (2 ^ 1024)) = Raise OverflowError.
Proof. reflexivity. Qed.

(** ** Identifier *)

Lemma py_UUID_cases (s : string) :
  (exists u, py_UUID s = Ok (VUUID u)) \/ py_UUID s = Raise ValueError.
Proof.
  unfold py_UUID.
  destruct (negb _); [right; reflexivity |].
  destruct (int16_of_text _) as [z |]; [| right; reflexivity].
  destruct (_ && _); [left; eexists; reflexivity | right; reflexivity].
Qed.

(** [str] fails on an integer of too many digits only, with a
    [ValueError] *)
Lemma py_str_cases (ext : Externals) (obj : value) :
  (exists s, py_str ext obj = Ok s) \/ py_str ext obj = Raise ValueError.
Proof.
  destruct obj; try (left; eexists; reflexivity).
  - destruct b; left; eexists; reflexivity.
  - cbn [py_str]. destruct (max_str_digits <? decimal_digits z);
      [right; reflexivity | left; eexists; reflexivity].
Qed.

Lemma uuid_parse_total (ext : Externals) (obj : value) :
  exists v,
    catch (s <- py_str ext obj ;; py_UUID s) is_ValueError (fun _ => Ok VNone)
    = Ok v
    /\ parsed_or_none ext obj v.
Proof.
  unfold parsed_or_none.
  destruct (py_str_cases ext obj) as [[s Hs] | Hs]; rewrite Hs; cbn [bind].
  - destruct (py_UUID_cases s) as [[u H] | H]; rewrite H; simpl.
    + exists (VUUID u). split; [reflexivity |]. left. split; reflexivity.
    + exists VNone. split; [reflexivity |]. right. split; reflexivity.
  - exists VNone. split; [reflexivity |]. right. split; reflexivity.
Qed.

(** C10, counterexample: a value-producer that returns the text ["x"] is
    answered with that text, which is neither the input, nor a UUID, nor
    [None]. *)
Lemma to_uuid_producer_result_returned :
  let producer := VCallable (Ok (VStr "x")) in
  is_UUID producer = false
  /\ to_uuid sample_externals producer = Ok (VStr "x")
  /\ is_UUID (VStr "x") = false
  /\ VStr "x" <> VNone
  /\ VStr "x" <> producer.
Proof.
  repeat split; discriminate.
Qed.

(** C10, amended: [to_uuid] never raises.  A UUID comes back unchanged; a
    value-producer whose call succeeds is answered with what it produced,
    as it is; in every other case the answer is the UUID parsed from the
    text of the input, or [None] when that text is no UUID.  The earlier
    variant has no value-producer case and is as lenient. *)
Theorem to_uuid_never_raises (ext : Externals) (obj : value) :
  (exists v,
      to_uuid ext obj = Ok v
      /\ (is_UUID obj = true -> v = obj)
      /\ (is_UUID obj = false -> forall w, call obj = Ok w -> v = w)
      /\ (is_UUID obj = false -> (forall w, call obj <> Ok w) ->
          parsed_or_none ext obj v))
  /\ (exists v,
      Legacy.to_uuid ext obj = Ok v
      /\ (is_UUID obj = true -> v = obj)
      /\ (is_UUID obj = false -> parsed_or_none ext obj v)).
Proof.
  destruct (uuid_parse_total ext obj) as [p [Hp Hpn]].
  split.
  - unfold to_uuid. destruct (is_UUID obj) eqn:Hu.
    + exists obj. repeat split; intros; congruence.
    + destruct (callable obj) eqn:Hc.
      * destruct obj; try discriminate. unfold call.
        destruct body as [w | e]; unfold catch_all.
        -- exists w. split; [reflexivity |]. split; [discriminate |].
           split; [intros _ w' Hw; congruence |].
           intros _ Hno. exfalso. apply (Hno w). reflexivity.
        -- exists p. rewrite Hp. split; [reflexivity |].
           split; [discriminate |]. split; [intros _ w Hw; discriminate |].
           intros _ _. exact Hpn.
      * exists p. rewrite Hp. repeat split; intros; try congruence.
        destruct obj; simpl in *; try discriminate; congruence.
  - unfold Legacy.to_uuid. destruct (is_UUID obj) eqn:Hu.
    + exists obj. repeat split; intros; congruence.
    + exists p. rewrite Hp. repeat split; intros; congruence.
Qed.

(** ** Boolean *)

Lemma all_ascii_complete (c : ascii) : In c all_ascii.
Proof.
  unfold all_ascii. rewrite <- (ascii_nat_embedding c).
  apply in_map. apply in_seq. pose proof (nat_ascii_bounded c). lia.
Qed.

Lemma lower_char_table : lower_char_table_ok = true.
Proof. vm_compute. reflexivity. Qed.

Lemma lower_char_plain (c d : ascii) :
  plain_char d = true ->
  Ascii.eqb (lower_char c) d = Ascii.eqb c d || Ascii.eqb c (upper_letter d).
Proof.
  intros Hd. pose proof lower_char_table as H. unfold lower_char_table_ok in H.
  pose proof (proj1 (forallb_forall _ _) H d (all_ascii_complete d)) as H1.
  cbv beta in H1. rewrite Hd in H1. cbn [implb] in H1.
  pose proof (proj1 (forallb_forall _ _) H1 c (all_ascii_complete c)) as H2.
  cbv beta in H2. apply Bool.eqb_prop in H2. exact H2.
Qed.

(** A text spells a plain word in some casing exactly when its lower-case
    form is the word. *)
Lemma casing_lower (s w : string) :
  plain_word w = true -> casing s w = String.eqb (lower s) w.
Proof.
  revert w. induction s as [| c s IH]; intros [| d w] Hw; simpl; try reflexivity.
  simpl in Hw. apply andb_prop in Hw. destruct Hw as [Hd Hw].
  rewrite (lower_char_plain c d Hd), (IH w Hw).
  destruct (Ascii.eqb c d || Ascii.eqb c (upper_letter d)); reflexivity.
Qed.

Lemma vocabulary_plain (w : string) :
  In w (truthy ++ falsy) -> plain_word w = true.
Proof.
  simpl. intros H.
  repeat (destruct H as [H | H]; [subst w; reflexivity |]). contradiction.
Qed.

Lemma str_in_spec (x : string) (l : list string) :
  str_in x l = true <-> In x l.
Proof.
  unfold str_in. rewrite existsb_exists. split.
  - intros [y [Hy He]]. apply String.eqb_eq in He. subst y. exact Hy.
  - intros H. exists x. split; [exact H | apply String.eqb_refl].
Qed.

Lemma truthy_not_falsy (w : string) : In w falsy -> str_in w truthy = false.
Proof.
  simpl. intros H.
  repeat (destruct H as [H | H]; [subst w; reflexivity |]). contradiction.
Qed.

(** C3: a text that spells one of [y, yes, t, true, on, 1] in any casing is
    converted to [True], one that spells one of [n, no, f, false, off, 0]
    to [False], and every other text raises a conversion error; so
    coercing ["YES"] gives [True], ["0"] gives [False] and ["maybe"]
    raises, through [parse_type] and through [parse_basic]. *)
Theorem to_boolean_vocabulary (ext : Externals) (s : string) :
  (forall w, In w truthy -> casing s w = true ->
     to_boolean (VStr s) = Ok (VBool true))
  /\ (forall w, In w falsy -> casing s w = true ->
     to_boolean (VStr s) = Ok (VBool false))
  /\ ((forall w, In w (truthy ++ falsy) -> casing s w = false) ->
     to_boolean (VStr s) = Raise ValueError
     /\ conversion_error (to_boolean (VStr s)))
  /\ parse_type ext (Class C_bool) (VStr "YES") None = Ok (VBool true)
  /\ parse_type ext (Class C_bool) (VStr "0") None = Ok (VBool false)
  /\ conversion_error (parse_type ext (Class C_bool) (VStr "maybe") None)
  /\ parse_basic ext (Class C_bool) (VStr "YES") None = Ok (VBool true)
  /\ parse_basic ext (Class C_bool) (VStr "0") None = Ok (VBool false)
  /\ conversion_error (parse_basic ext (Class C_bool) (VStr "maybe") None).
Proof.
  assert (Hbody : to_boolean (VStr s) = strtobool s) by reflexivity.
  rewrite Hbody. unfold strtobool.
  split; [| split; [| split]].
  - intros w Hin Hc.
    rewrite casing_lower in Hc
      by (apply vocabulary_plain, in_or_app; left; exact Hin).
    apply String.eqb_eq in Hc. rewrite Hc.
    apply str_in_spec in Hin. rewrite Hin. reflexivity.
  - intros w Hin Hc.
    rewrite casing_lower in Hc
      by (apply vocabulary_plain, in_or_app; right; exact Hin).
    apply String.eqb_eq in Hc. rewrite Hc.
    rewrite (truthy_not_falsy w Hin).
    apply str_in_spec in Hin. rewrite Hin. reflexivity.
  - intros Hnone.
    assert (Hout : forall l, incl l (truthy ++ falsy) -> str_in (lower s) l = false).
    { intros l Hl. destruct (str_in (lower s) l) eqn:E; [| reflexivity].
      apply str_in_spec in E. apply Hl in E.
      pose proof (Hnone _ E) as Hc.
      rewrite casing_lower in Hc by (apply vocabulary_plain; exact E).
      rewrite String.eqb_refl in Hc. discriminate Hc. }
    rewrite (Hout truthy) by (apply incl_appl, incl_refl).
    rewrite (Hout falsy) by (apply incl_appr, incl_refl).
    split; [reflexivity |]. apply conversion_error_Raise. reflexivity.
  - repeat split; try reflexivity;
      apply conversion_error_Raise; reflexivity.
Qed.

Lemma to_boolean_vocabulary_witness :
  to_boolean (VStr "tRuE") = Ok (VBool true)
  /\ to_boolean (VStr "OFF") = Ok (VBool false)
  /\ to_boolean (VStr "maybe") = Raise ValueError.
Proof.
  destruct (to_boolean_vocabulary sample_externals "tRuE") as [Ht _].
  destruct (to_boolean_vocabulary sample_externals "OFF") as [_ [Hf _]].
  destruct (to_boolean_vocabulary sample_externals "maybe") as [_ [_ [Hn _]]].
  split; [| split].
  - apply (Ht "true"); [simpl; tauto | reflexivity].
  - apply (Hf "off"); [simpl; tauto | reflexivity].
  - apply Hn. intros w Hw. simpl in Hw.
    repeat (destruct Hw as [Hw | Hw]; [subst w; reflexivity |]). contradiction.
Defined.

(** Bytes are decoded first and then read with the same vocabulary. *)
Lemma to_boolean_bytes (b : list byte) (s : string) :
  decode_ascii b = Ok s -> to_boolean (VBytes b) = to_boolean (VStr s).
Proof.
  intros H. unfold to_boolean. simpl. rewrite H. reflexivity.
Qed.

(** The earlier variant reads the same vocabulary, with results [1], [0]. *)
Lemma Legacy_to_boolean_text (s : string) :
  Legacy.to_boolean (VStr s)
  = match to_boolean (VStr s) with
    | Ok (VBool true) => Ok (VInt 1)
    | Ok _ => Ok (VInt 0)
    | Raise e => Raise e
    end.
Proof.
  change (to_boolean (VStr s)) with (strtobool s).
  change (Legacy.to_boolean (VStr s)) with (Legacy.strtobool s).
  unfold strtobool, Legacy.strtobool.
  destruct (str_in (lower s) truthy); [reflexivity |].
  destruct (str_in (lower s) falsy); reflexivity.
Qed.

(** ** The engine on [Optional], [List] and [Dict] *)

(** C4, amended, for the later variant: for [Optional[inner]], whatever
    [inner] and the encoder are, the absence marker [None] is answered
    [None], and every other value is
    coerced as [inner] coerces it; so [None] stays [None] and ["42"]
    becomes [42] under [Optional[int]]. *)
Theorem parse_type_Optional (ext : Externals) (name : option string)
    (inner : pytype) (data : value) (encoder : option (value -> res value)) :
  optional_name name ->
  parse_type ext (Optional_ name inner) VNone encoder = Ok VNone
  /\ (data <> VNone ->
      parse_type ext (Optional_ name inner) data encoder
      = parse_type ext inner data encoder)
  /\ parse_type ext (Optional_ name (Class C_int)) VNone None = Ok VNone
  /\ parse_type ext (Optional_ name (Class C_int)) (VStr "42") None
     = Ok (VInt 42).
Proof.
  intros Hname.
  assert (Hbranch : forall i d e,
    parse_type ext (Optional_ name i) d e
    = if is_None d then Ok VNone else parse_type ext i d e).
  { intros i d e.
    assert (Hmem : existsb is_NoneType [i; Class C_NoneType] = true)
      by (simpl; apply Bool.orb_true_r).
    destruct Hname as [-> | [-> | ->]]; unfold Optional_;
      cbn [parse_type name_is String.eqb Ascii.eqb Bool.eqb andb orb get_args];
      rewrite Hmem; reflexivity. }
  repeat split.
  - rewrite Hbranch. reflexivity.
  - intros Hd. rewrite Hbranch. destruct data; try reflexivity.
    contradiction Hd. reflexivity.
  - rewrite Hbranch. reflexivity.
  - rewrite Hbranch. reflexivity.
Qed.

Lemma parse_type_Optional_witness :
  parse_type sample_externals (Optional_ (Some "Optional") (Class C_bool))
    VNone None = Ok VNone
  /\ (VStr "no" <> VNone ->
      parse_type sample_externals (Optional_ (Some "Optional") (Class C_bool))
        (VStr "no") None
      = parse_type sample_externals (Class C_bool) (VStr "no") None)
  /\ parse_type sample_externals (Optional_ (Some "Optional") (Class C_int))
       VNone None = Ok VNone
  /\ parse_type sample_externals (Optional_ (Some "Optional") (Class C_int))
       (VStr "42") None = Ok (VInt 42).
Proof.
  apply (parse_type_Optional sample_externals (Some "Optional")
           (Class C_bool) (VStr "no") None).
  right. left. reflexivity.
Defined.

(** The order of the two members does not matter. *)
Lemma parse_type_Optional_none_first (ext : Externals) (inner : pytype)
    (data : value) (encoder : option (value -> res value)) :
  parse_type ext (Typing None true (Some [Class C_NoneType; inner])) data encoder
  = if is_None data then Ok VNone else parse_type ext inner data encoder.
Proof.
  simpl. destruct (is_None data); [reflexivity |].
  destruct inner as [[] |]; reflexivity.
Qed.

(** C4, counterexample: the earlier variant coerces nothing under
    [Optional].  A member that is no dataclass leaves the value as it is, so
    ["42"] under [Optional[int]] stays the text ["42"], though [int] alone
    coerces it to [42]; and a union that bears the name [Optional] is not
    recognised at all, the answer is [None]. *)
Lemma Legacy_parse_type_Optional_not_coerced :
  (forall ext : Externals,
     Legacy.parse_type ext (Optional_ None (Class C_int)) (VStr "42") None
     = Ok (VStr "42"))
  /\ (forall ext : Externals,
       Legacy.parse_type ext (Class C_int) (VStr "42") None = Ok (VInt 42))
  /\ (forall ext : Externals,
       Legacy.parse_type ext (Optional_ (Some "Optional") (Class C_int))
         (VStr "42") None = Ok VNone)
  /\ VStr "42" <> VInt 42.
Proof.
  split; [intros ext; reflexivity |].
  split; [intros ext; reflexivity |].
  split; [intros ext; reflexivity | discriminate].
Qed.

(** C5, amended, for the later variant: under [List[...]] a value that is
    neither a list nor a tuple is coerced as the one-element list that
    holds it; with an element type
    that is a plain class this is the list of the coerced value, and an
    error only if coercing the value is one. *)
Theorem parse_type_List_wraps (ext : Externals) (origin : bool)
    (args : option (list pytype)) (element : pytype) (data : value)
    (encoder : option (value -> res value)) :
  is_list_or_tuple data = false ->
  parse_type ext (Typing (Some "List") origin args) data encoder
  = parse_type ext (Typing (Some "List") origin args) (VList [data]) encoder
  /\ (in_typing element = false -> is_dataclass element = false ->
      is_iterable ext (VList [data]) = true ->
      parse_type ext (List_ element) data encoder
      = (r <- parse_type ext element data encoder ;; Ok (VList [r]))).
Proof.
  intros Hd. split.
  - simpl. rewrite Hd. reflexivity.
  - intros Ht Hdc Hit. unfold List_. simpl. rewrite Hd. simpl.
    rewrite Ht, Hdc, Hit. simpl.
    destruct (parse_type ext element data encoder); reflexivity.
Qed.

Lemma parse_type_List_wraps_witness :
  parse_type sample_externals (Typing (Some "List") false (Some [Class C_int]))
    (VStr "42") None
  = parse_type sample_externals (Typing (Some "List") false (Some [Class C_int]))
      (VList [VStr "42"]) None
  /\ (in_typing (Class C_int) = false -> is_dataclass (Class C_int) = false ->
      is_iterable sample_externals (VList [VStr "42"]) = true ->
      parse_type sample_externals (List_ (Class C_int)) (VStr "42") None
      = (r <- parse_type sample_externals (Class C_int) (VStr "42") None ;;
         Ok (VList [r]))).
Proof.
  apply (parse_type_List_wraps sample_externals false (Some [Class C_int])
           (Class C_int) (VStr "42") None).
  reflexivity.
Defined.

Lemma parse_type_List_example :
  parse_type sample_externals (List_ (Class C_int)) (VStr "42") None
  = Ok (VList [VInt 42]).
Proof. reflexivity. Qed.

(** C5, counterexample: the earlier variant does not wrap.  Under
    [List[int]] the text ["42"], which is neither a list nor a tuple, falls
    through every branch and the answer is [None], while the one-element
    list that holds it is answered by that list. *)
Lemma Legacy_parse_type_List_not_wrapped :
  (forall ext : Externals,
     Legacy.parse_type ext (List_ (Class C_int)) (VStr "42") None = Ok VNone)
  /\ (forall ext : Externals,
       Legacy.parse_type ext (List_ (Class C_int)) (VList [VStr "42"]) None
       = Ok (VList [VStr "42"]))
  /\ VNone <> VList [VStr "42"].
Proof.
  split; [intros ext; reflexivity |].
  split; [intros ext; reflexivity | discriminate].
Qed.

(** *** [Dict] *)

Lemma mapM_keys (ext : Externals) (val : pytype)
    (items r : list (value * value)) :
  mapM (coerce_item ext val) items = Ok r -> map fst r = map fst items.
Proof.
  revert r. induction items as [| kv items IH]; intros r H; simpl in H.
  - inversion H. reflexivity.
  - unfold coerce_item at 1 in H.
    destruct (parse_type ext val (snd kv) None) as [v | e]; simpl in H;
      [| discriminate H].
    destruct (mapM (coerce_item ext val) items) as [r' | e]; simpl in H;
      [| discriminate H].
    inversion H; subst. simpl. rewrite (IH r' eq_refl). reflexivity.
Qed.

(** A mapping under [Dict[key, val]]: every value is coerced as [val]
    coerces it, the keys stay as they are and in their order. *)
Lemma parse_type_Dict_mapping (ext : Externals) (key val : pytype)
    (items : list (value * value)) (encoder : option (value -> res value)) :
  parse_type ext (Dict_ key val) (VDict items) encoder
  = (r <- mapM (coerce_item ext val) items ;; Ok (VDict r))
  /\ (forall r, parse_type ext (Dict_ key val) (VDict items) encoder = Ok r ->
      exists items', r = VDict items'
        /\ map fst items' = map fst items
        /\ mapM (coerce_item ext val) items = Ok items').
Proof.
  assert (H : parse_type ext (Dict_ key val) (VDict items) encoder
              = (r <- mapM (coerce_item ext val) items ;; Ok (VDict r)))
    by reflexivity.
  split; [exact H |].
  intros r Hr. rewrite H in Hr.
  destruct (mapM (coerce_item ext val) items) as [items' | e] eqn:E;
    simpl in Hr; [| discriminate Hr].
  inversion Hr; subst. exists items'. repeat split.
  apply (mapM_keys ext val items items' E).
Qed.

(** A value that is no mapping: the call meets no [return], the answer is
    [None], in both variants. *)
Lemma parse_type_Dict_not_mapping (ext : Externals) (key val : pytype)
    (data : value) (encoder : option (value -> res value)) :
  is_dict data = false ->
  parse_type ext (Dict_ key val) data encoder = Ok VNone
  /\ Legacy.parse_type ext (Dict_ key val) data encoder = Ok VNone.
Proof.
  intros H. unfold Dict_. simpl. rewrite H. split; reflexivity.
Qed.

(** C6, at [Dict[str, int]] and the text ["abc"]: the value is no mapping
    and the answer is [None], not the value; a mapping has its values
    coerced and its keys kept. *)
Theorem parse_type_Dict_drops_non_mapping (ext : Externals) :
  is_dict (VStr "abc") = false
  /\ parse_type ext (Dict_ (Class C_str) (Class C_int)) (VStr "abc") None
     = Ok VNone
  /\ Legacy.parse_type ext (Dict_ (Class C_str) (Class C_int)) (VStr "abc") None
     = Ok VNone
  /\ VStr "abc" <> VNone
  /\ parse_type ext (Dict_ (Class C_str) (Class C_int))
       (VDict [(VStr "a", VStr "1"); (VStr "b", VInt 2)]) None
     = Ok (VDict [(VStr "a", VInt 1); (VStr "b", VInt 2)]).
Proof.
  repeat split. discriminate.
Qed.

(** ** Date *)




Lemma catch_Ok {A : Type} (c : res A) (cls : exn -> bool) (h : exn -> res A)
    (a : A) :
  c = Ok a -> catch c cls h = Ok a.
Proof. intros ->. reflexivity. Qed.

Lemma catch_failed (c : res value) (h : exn -> res value) :
  failed c -> exists e, catch c is_ValueError h = h e.
Proof. intros [e [-> He]]. exists e. simpl. rewrite He. reflexivity. Qed.







(** ** Coercing twice *)

(** The converter behind a kind of the registry decides the coercion; a
    [KeyError] out of the converter is taken for a missing entry, and the
    answer is then [None]. *)
Lemma coerce_registered (ext : Externals) (d : pyclass)
    (f : value -> res value) (v r : value) :
  is_str_class (Class d) = false -> is_bytes_class (Class d) = false ->
  registry_get (encoders ext) d = Ok f ->
  (f v = Ok r -> coerce ext d v = Ok r)
  /\ (coerce ext d v = Ok r ->
      f v = Ok r \/ (f v = Raise KeyError /\ r = VNone)).
Proof.
  intros Hs Hb Hf. unfold coerce, parse_basic. rewrite Hs, Hb.
  unfold encoders_get. rewrite Hf. simpl.
  destruct (f v) as [x | e]; [tauto |].
  split; [intros H; discriminate H |].
  destruct e; simpl; intros H; try discriminate H.
  inversion H. right. split; reflexivity.
Qed.

Lemma catch_Ok_inv {A : Type} (c : res A) (cls : exn -> bool)
    (h : exn -> res A) (a : A) :
  catch c cls h = Ok a ->
  c = Ok a \/ exists e, c = Raise e /\ cls e = true /\ h e = Ok a.
Proof.
  destruct c as [x | e]; simpl; intros H.
  - left. exact H.
  - destruct (cls e) eqn:E; [| discriminate H].
    right. exists e. repeat split; assumption.
Qed.

Lemma bind_Ok_inv {A B : Type} (c : res A) (k : A -> res B) (b : B) :
  bind c k = Ok b -> exists a, c = Ok a /\ k a = Ok b.
Proof.
  destruct c as [a | e]; simpl; intros H; [| discriminate H].
  exists a. split; [reflexivity | exact H].
Qed.

Lemma strtobool_result (s : string) (r : value) :
  strtobool s = Ok r -> is_bool r = true.
Proof.
  unfold strtobool. destruct (str_in (lower s) truthy).
  - intros H. inversion H. reflexivity.
  - destruct (str_in (lower s) falsy); intros H; inversion H. reflexivity.
Qed.

Lemma to_boolean_result (v r : value) :
  callable v = false -> to_boolean v = Ok r -> is_bool r = true.
Proof.
  intros Hc H. unfold to_boolean in H.
  destruct v; simpl in H; try discriminate Hc;
    try (inversion H; reflexivity).
  - apply strtobool_result in H. exact H.
  - destruct (decode_ascii b); simpl in H; [| discriminate H].
    apply strtobool_result in H. exact H.
  - destruct (decode_ascii b); simpl in H; [| discriminate H].
    apply strtobool_result in H. exact H.
Qed.

Lemma to_boolean_error (v : value) (e : exn) :
  callable v = false -> to_boolean v = Raise e -> is_ValueError e = true.
Proof.
  intros Hc H. unfold to_boolean in H.
  assert (Hs : forall s, strtobool s = Raise e -> is_ValueError e = true).
  { intros s. unfold strtobool. destruct (str_in (lower s) truthy);
      [discriminate |].
    destruct (str_in (lower s) falsy); [discriminate |].
    intros E. inversion E. reflexivity. }
  assert (Hdec : forall b, decode_ascii b = Raise e -> is_ValueError e = true).
  { induction b as [| x b IH]; simpl; [discriminate |].
    destruct (Byte.to_nat x <? 128)%nat.
    - destruct (decode_ascii b); simpl; [discriminate |].
      intros E. apply IH. exact E.
    - intros E. inversion E. reflexivity. }
  destruct v; simpl in H; try discriminate Hc; try discriminate H.
  - apply (Hs _ H).
  - destruct (decode_ascii b) eqn:E; simpl in H.
    + apply (Hs _ H).
    + inversion H; subst. apply (Hdec b E).
  - destruct (decode_ascii b) eqn:E; simpl in H.
    + apply (Hs _ H).
    + inversion H; subst. apply (Hdec b E).
Qed.
















(** The duration converter has no pass-through for a duration: the second
    coercion fails. *)
Lemma coerce_duration_not_idempotent (ext : Externals) :
  coerce ext C_timedelta (VStr "1:02:03") = Ok (VTimedelta 3723000000)
  /\ coerce ext C_timedelta (VTimedelta 3723000000) = Raise ValueError.
Proof. split; reflexivity. Qed.

(** JSON text that denotes a number is coerced to the number, which the
    object converter then refuses. *)
Lemma coerce_object_not_idempotent (ext : Externals) (s : string) (z : Z) :
  orjson_loads ext s = Ok (VInt z) ->
  coerce ext C_dict (VStr s) = Ok (VInt z)
  /\ coerce ext C_dict (VInt z) = Raise ValueError.
Proof.
  intros H.
  assert (Ho : to_object ext (VStr s) = Ok (VInt z)).
  { unfold to_object. cbn [is_None is_list_or_tuple is_dict callable orb].
    rewrite H. reflexivity. }
  split; [| reflexivity].
  apply (coerce_registered ext C_dict (to_object ext)); try reflexivity.
  exact Ho.
Qed.



(** * Further properties of the converters and of the engine *)

(** ** The matcher *)

Lemma re_run_ext (r : regex) : forall s caps k k',
  (forall s' c', k s' c' = k' s' c') ->
  re_run r s caps k = re_run r s caps k'.
Proof.
  induction r as [a | | | r1 IH1 r2 IH2 | lo hi r1 IH1 | i r1 IH1];
    intros s caps k k' Hk.
  - simpl. destruct s as [| b s']; [reflexivity |]. rewrite Hk. reflexivity.
  - simpl. destruct s as [| b s']; [reflexivity |]. rewrite Hk. reflexivity.
  - simpl. destruct s as [| b s']; [reflexivity |]. rewrite Hk. reflexivity.
  - rewrite !re_run_Seq. apply IH1. intros s' c'. apply IH2. exact Hk.
  - revert lo s caps. induction hi as [| hi IHhi]; intros lo s caps.
    + rewrite !re_run_Repeat_O. destruct lo; [apply Hk | reflexivity].
    + rewrite !re_run_Repeat_S.
      rewrite (IH1 s caps _ (fun s' caps' => re_run (Repeat (pred lo) hi r1) s' caps' k'))
        by (intros s' c'; apply IHhi).
      rewrite Hk. reflexivity.
  - rewrite !re_run_Group. apply IH1. intros s' c'. apply Hk.
Qed.

(** A continuation changed after the fact changes the answer the same way:
    backtracking only looks at whether the continuation fails. *)
Lemma re_run_map (F : captures -> captures) (r : regex) : forall s caps k,
  re_run r s caps (fun s' c' => option_map F (k s' c'))
  = option_map F (re_run r s caps k).
Proof.
  induction r as [a | | | r1 IH1 r2 IH2 | lo hi r1 IH1 | i r1 IH1];
    intros s caps k.
  - simpl. destruct s as [| b s']; [reflexivity |].
    destruct (Ascii.eqb b a); reflexivity.
  - simpl. destruct s as [| b s']; [reflexivity |].
    destruct (is_digit b); reflexivity.
  - simpl. destruct s as [| b s']; [reflexivity |].
    destruct (Ascii.eqb b newline); reflexivity.
  - rewrite !re_run_Seq.
    rewrite (re_run_ext r1 s caps _
               (fun s' c' => option_map F (re_run r2 s' c' k)))
      by (intros s' c'; apply IH2).
    apply IH1.
  - revert lo s caps. induction hi as [| hi IHhi]; intros lo s caps.
    + rewrite !re_run_Repeat_O. destruct lo; reflexivity.
    + rewrite !re_run_Repeat_S.
      rewrite (re_run_ext r1 s caps _
                 (fun s' c' => option_map F (re_run (Repeat (pred lo) hi r1) s' c' k)))
        by (intros s' c'; apply IHhi).
      rewrite IH1.
      destruct (re_run r1 s caps
                  (fun s' c' => re_run (Repeat (pred lo) hi r1) s' c' k));
        [reflexivity |].
      destruct lo; reflexivity.
  - rewrite !re_run_Group. apply (IH1 s caps (fun s' c' => k s' (set_nth i (Some (consumed s s')) c'))).
Qed.

Lemma set_nth_swap {A : Type} (i : nat) (x y : A) (l : list A) :
  i <> O -> set_nth i x (set_nth 0 y l) = set_nth 0 y (set_nth i x l).
Proof.
  intros Hi. destruct i as [| i]; [contradiction Hi; reflexivity |].
  destruct l as [| a l]; reflexivity.
Qed.

(** A group the expression does not capture can be set before or after. *)
Lemma re_run_set0 (g : option string) (r : regex) :
  avoids_group 0 r = true ->
  forall s caps k,
    re_run r s (set_nth 0 g caps) k
    = re_run r s caps (fun s' c' => k s' (set_nth 0 g c')).
Proof.
  induction r as [a | | | r1 IH1 r2 IH2 | lo hi r1 IH1 | i r1 IH1];
    intros Hr s caps k.
  - reflexivity.
  - reflexivity.
  - reflexivity.
  - simpl in Hr. apply andb_prop in Hr. destruct Hr as [H1 H2].
    rewrite !re_run_Seq. rewrite (IH1 H1).
    apply re_run_ext. intros s' c'. apply (IH2 H2).
  - simpl in Hr. revert lo s caps. induction hi as [| hi IHhi]; intros lo s caps.
    + rewrite !re_run_Repeat_O. destruct lo; reflexivity.
    + rewrite !re_run_Repeat_S. rewrite (IH1 Hr).
      rewrite (re_run_ext r1 s caps
                 (fun s' c' => re_run (Repeat (pred lo) hi r1) s' (set_nth 0 g c') k)
                 (fun s' c' => re_run (Repeat (pred lo) hi r1) s' c'
                                 (fun s'' c'' => k s'' (set_nth 0 g c''))))
        by (intros s' c'; apply IHhi).
      reflexivity.
  - simpl in Hr. apply andb_prop in Hr. destruct Hr as [Hi H1].
    rewrite !re_run_Group. rewrite (IH1 H1).
    apply re_run_ext. intros s' c'.
    rewrite set_nth_swap; [reflexivity |].
    destruct i; [discriminate Hi | discriminate].
Qed.

Lemma UNSIGNED_RE_set0 (g : option string) (s : string) (caps : captures) :
  re_run UNSIGNED_RE s (set_nth 0 g caps) (fun _ c => Some c)
  = option_map (set_nth 0 g) (re_run UNSIGNED_RE s caps (fun _ c => Some c)).
Proof.
  rewrite (re_run_set0 g UNSIGNED_RE eq_refl).
  apply (re_run_map (set_nth 0 g) UNSIGNED_RE s caps (fun _ c => Some c)).
Qed.

(** ** Duration, further *)

Lemma to_timedelta_body (obj : value) :
  to_timedelta obj
  = (obj <- (if is_bytes obj then decode obj else Ok obj) ;;
     m <- re_match TIMEDELTA_RE 5 obj ;;
     match m with
     | None => cpdef_result is_timedelta (Ok obj)
     | Some groups =>
         catch (cpdef_result is_timedelta (timedelta_of_groups groups))
               is_ValueError (fun _ => Raise ValueError)
     end)
  /\ Legacy.to_timedelta obj
  = (obj <- (if is_bytes obj then decode obj else Ok obj) ;;
     m <- re_match TIMEDELTA_RE 5 obj ;;
     match m with
     | None => cpdef_result is_timedelta (Ok obj)
     | Some groups =>
         catch (cpdef_result is_timedelta (timedelta_of_groups groups))
               is_ValueError (fun _ => cpdef_result is_timedelta (Ok obj))
     end).
Proof. split; reflexivity. Qed.

Lemma int_digits_value (t : string) : forall acc b,
  all_digits t = true -> (t <> EmptyString \/ b = true) ->
  int_digits t acc b = Some (digits_value t acc).
Proof.
  induction t as [| c t IH]; intros acc b Hd Hne.
  - destruct Hne as [Hne | ->]; [contradiction Hne; reflexivity | reflexivity].
  - simpl in Hd. apply andb_prop in Hd. destruct Hd as [Hc Ht].
    cbn [int_digits digits_value]. rewrite Hc.
    apply IH; [exact Ht | right; reflexivity].
Qed.

Lemma py_int_digits_value (t : string) :
  all_digits t = true -> (1 <= String.length t)%nat ->
  Z.of_nat (String.length t) <= max_str_digits ->
  py_int (VStr t) = Ok (digits_value t 0)
  /\ 0 <= digits_value t 0 < 10 ^ Z.of_nat (String.length t).
Proof.
  intros Hd Hl Hm. destruct (py_int_digits t Hd Hl Hm) as [z [Hz Hr]].
  assert (Hne : t <> EmptyString) by (destruct t; [simpl in Hl; lia | discriminate]).
  pose proof (int_of_text_digits is_int_blank t digit_not_int_blank Hd Hm) as Hi.
  assert (Hv : py_int (VStr t) = Ok (digits_value t 0)).
  { cbn [py_int].
    rewrite Hi, (int_digits_value t 0 false Hd (or_introl Hne)). reflexivity. }
  split; [exact Hv |]. rewrite Hv in Hz. inversion Hz. lia.
Qed.

(** the digits of a captured group are few *)
Lemma few_digits (t : string) (n : nat) :
  (String.length t <= n)%nat -> (n <= 6)%nat ->
  Z.of_nat (String.length t) <= max_str_digits.
Proof. unfold max_str_digits. lia. Qed.

Lemma all_digits_app (a b : string) :
  all_digits (a ++ b)%string = all_digits a && all_digits b.
Proof.
  induction a as [| c a IH]; simpl; [reflexivity |].
  rewrite IH. rewrite Bool.andb_assoc. reflexivity.
Qed.

Lemma all_digits_zeros (n : nat) : all_digits (repeat_char "0" n) = true.
Proof. induction n as [| n IH]; simpl; [reflexivity | exact IH]. Qed.

Lemma length_repeat_char (c : ascii) (n : nat) :
  String.length (repeat_char c n) = n.
Proof. induction n as [| n IH]; simpl; [reflexivity | rewrite IH; reflexivity]. Qed.

Lemma digits_value_app (a b : string) : forall acc,
  digits_value (a ++ b)%string acc = digits_value b (digits_value a acc).
Proof.
  induction a as [| c a IH]; intros acc; simpl; [reflexivity | apply IH].
Qed.

Lemma digits_value_zeros (n : nat) : forall acc,
  digits_value (repeat_char "0" n) acc = acc * 10 ^ Z.of_nat n.
Proof.
  induction n as [| n IH]; intros acc.
  - simpl. lia.
  - cbn [repeat_char digits_value]. rewrite IH.
    rewrite Nat2Z.inj_succ, Z.pow_succ_r by lia.
    change (digit_val "0") with 0. lia.
Qed.

Lemma all_digits_prefix (n : nat) : forall s,
  all_digits s = true -> all_digits (substring 0 n s) = true.
Proof.
  induction n as [| n IH]; intros s H.
  - destruct s; reflexivity.
  - destruct s as [| c s]; [reflexivity |]. simpl in *.
    apply andb_prop in H. destruct H as [Hc Hs]. rewrite Hc. apply IH, Hs.
Qed.

Lemma length_prefix (n : nat) : forall s,
  (n <= String.length s)%nat -> String.length (substring 0 n s) = n.
Proof.
  induction n as [| n IH]; intros s H.
  - destruct s; reflexivity.
  - destruct s as [| c s]; [simpl in H; lia |]. simpl in *.
    rewrite IH by lia. reflexivity.
Qed.

Lemma append_empty (s : string) : (s ++ EmptyString)%string = s.
Proof. induction s as [| c s IH]; simpl; [reflexivity | rewrite IH; reflexivity]. Qed.

(** the six digits [_convert_second_fraction] reads *)
Lemma fraction_text (f : string) :
  ((String.length f <= 6)%nat ->
     prefix_upto 6 (ljust 6 "0" f)
     = (f ++ repeat_char "0" (6 - String.length f))%string)
  /\ ((6 <= String.length f)%nat ->
     prefix_upto 6 (ljust 6 "0" f) = prefix_upto 6 f).
Proof.
  unfold prefix_upto, ljust. split; intros H.
  - set (p := (f ++ repeat_char "0" (6 - String.length f))%string).
    assert (Hl : String.length p = 6%nat).
    { unfold p. rewrite length_app, length_repeat_char. lia. }
    rewrite <- Hl at 1. rewrite <- (append_empty p) at 2.
    apply substring_prefix.
  - replace (6 - String.length f)%nat with O by lia. simpl.
    rewrite append_empty. reflexivity.
Qed.

Lemma convert_second_fraction_padded (f : string) :
  all_digits f = true -> (1 <= String.length f)%nat ->
  _convert_second_fraction (VStr f)
  = Ok (VInt (digits_value (prefix_upto 6 (ljust 6 "0" f)) 0))
  /\ 0 <= digits_value (prefix_upto 6 (ljust 6 "0" f)) 0 < 1000000.
Proof.
  intros Hd Hl. unfold _convert_second_fraction.
  assert (Ht : truth (VStr f) = true)
    by (destruct f; [simpl in Hl; lia | reflexivity]).
  rewrite Ht. cbn [negb].
  assert (Hp : all_digits (prefix_upto 6 (ljust 6 "0" f)) = true
               /\ String.length (prefix_upto 6 (ljust 6 "0" f)) = 6%nat).
  { destruct (Nat.le_gt_cases (String.length f) 6) as [Hle | Hgt].
    - rewrite (proj1 (fraction_text f) Hle). split.
      + rewrite all_digits_app, Hd, all_digits_zeros. reflexivity.
      + rewrite length_app, length_repeat_char. lia.
    - rewrite (proj2 (fraction_text f)) by lia. unfold prefix_upto. split.
      + apply all_digits_prefix, Hd.
      + apply length_prefix. lia. }
  destruct Hp as [Hpd Hpl].
  destruct (py_int_digits_value _ Hpd) as [Hv Hr];
    [lia | apply (few_digits _ 6); lia |].
  rewrite Hv. rewrite Hpl in Hr. split; [reflexivity | exact Hr].
Qed.

Lemma convert_second_fraction_short (f : string) :
  all_digits f = true -> (1 <= String.length f <= 6)%nat ->
  _convert_second_fraction (VStr f) = Ok (VInt (fraction_value (Some f)))
  /\ 0 <= fraction_value (Some f) < 1000000.
Proof.
  intros Hd Hl.
  destruct (convert_second_fraction_padded f Hd ltac:(lia)) as [Hv Hr].
  rewrite (proj1 (fraction_text f)) in Hv, Hr by lia.
  rewrite digits_value_app, digits_value_zeros in Hv, Hr.
  unfold fraction_value. split; [exact Hv | exact Hr].
Qed.

(** X1: the fraction of a second.  Up to six digits are scaled to
    microseconds by padding zeros on the right, more than six are cut after
    the sixth, and nothing or the empty text counts as zero; the result is
    below a million. *)
Theorem convert_second_fraction_value (f : string) :
  all_digits f = true ->
  _convert_second_fraction VNone = Ok (VInt 0)
  /\ _convert_second_fraction (VStr EmptyString) = Ok (VInt 0)
  /\ ((1 <= String.length f <= 6)%nat ->
      _convert_second_fraction (VStr f)
      = Ok (VInt (digits_value f 0 * 10 ^ Z.of_nat (6 - String.length f))))
  /\ ((6 <= String.length f)%nat ->
      _convert_second_fraction (VStr f)
      = Ok (VInt (digits_value (prefix_upto 6 f) 0)))
  /\ ((1 <= String.length f)%nat ->
      exists z, _convert_second_fraction (VStr f) = Ok (VInt z)
                /\ 0 <= z < 1000000).
Proof.
  intros Hd.
  split; [reflexivity |]. split; [reflexivity |]. split; [| split].
  - intros Hl. apply (convert_second_fraction_short f Hd Hl).
  - intros Hl.
    rewrite (proj1 (convert_second_fraction_padded f Hd ltac:(lia))).
    rewrite (proj2 (fraction_text f)) by lia. reflexivity.
  - intros Hl. destruct (convert_second_fraction_padded f Hd Hl) as [Hv Hr].
    eexists. split; [exact Hv | exact Hr].
Qed.

Lemma convert_second_fraction_value_witness :
  _convert_second_fraction (VStr "25") = Ok (VInt 250000)
  /\ _convert_second_fraction (VStr "1234567") = Ok (VInt 123456).
Proof.
  destruct (convert_second_fraction_value "25" eq_refl) as [_ [_ [H6 _]]].
  destruct (convert_second_fraction_value "1234567" eq_refl) as [_ [_ [_ [H7 _]]]].
  split.
  - apply H6. simpl. lia.
  - apply H7. simpl. lia.
Defined.

Lemma timedelta_of_groups_value (g0 : option string) (h m sec : string)
    (g4 : option string) :
  captured_digits 1 3 h -> captured_digits 1 2 m -> captured_digits 1 2 sec ->
  captured_fraction g4 ->
  0 <= groups_microseconds h m sec g4 < 3602440000000
  /\ timedelta_of_groups
       [group_value g0; VStr h; VStr m; VStr sec; group_value g4]
     = Ok (VTimedelta (groups_microseconds h m sec g4
                       * (if truth (group_value g0) then -1 else 1))).
Proof.
  intros [Hh Hhl] [Hm Hml] [Hs Hsl] Hg4.
  destruct (py_int_digits_value h Hh) as [Eh Rh];
    [lia | apply (few_digits _ 3); lia |].
  destruct (py_int_digits_value m Hm) as [Em Rm];
    [lia | apply (few_digits _ 2); lia |].
  destruct (py_int_digits_value sec Hs) as [Es Rs];
    [lia | apply (few_digits _ 2); lia |].
  assert (Bh : digits_value h 0 < 1000).
  { assert (10 ^ Z.of_nat (String.length h) <= 10 ^ 3)
      by (apply Z.pow_le_mono_r; lia). lia. }
  assert (Bm : digits_value m 0 < 100).
  { assert (10 ^ Z.of_nat (String.length m) <= 10 ^ 2)
      by (apply Z.pow_le_mono_r; lia). lia. }
  assert (Bs : digits_value sec 0 < 100).
  { assert (10 ^ Z.of_nat (String.length sec) <= 10 ^ 2)
      by (apply Z.pow_le_mono_r; lia). lia. }
  assert (Hfrac : _convert_second_fraction (group_value g4)
                  = Ok (VInt (fraction_value g4))
                  /\ 0 <= fraction_value g4 < 1000000).
  { destruct Hg4 as [-> | [f [-> [Hf Hfl]]]].
    - split; [reflexivity | simpl; lia].
    - cbn [group_value]. apply (convert_second_fraction_short f Hf Hfl). }
  destruct Hfrac as [Hus Husr].
  assert (Bt : 0 <= groups_microseconds h m sec g4 < 3602440000000).
  { unfold groups_microseconds. nia. }
  split; [exact Bt |].
  unfold timedelta_of_groups. cbn [last]. rewrite Hus. cbn [bind].
  unfold set_last. cbn [List.length pred set_nth nth skipn].
  rewrite Eh, Em, Es. cbn [bind py_int]. unfold timedelta.
  fold (groups_microseconds h m sec g4).
  change (((digits_value h 0 * 60 + digits_value m 0) * 60 + digits_value sec 0)
            * 1000000 + fraction_value g4)
    with (groups_microseconds h m sec g4).
  rewrite (timedelta_of_us_small (groups_microseconds h m sec g4))
    by (change (10 ^ 13) with 10000000000000; lia).
  cbn [bind timedelta_mul].
  destruct (truth (group_value g0));
    rewrite timedelta_of_us_small
      by (change (10 ^ 13) with 10000000000000; lia);
    reflexivity.
Qed.

Lemma TIMEDELTA_RE_unsigned (t : string) :
  unsigned_text t ->
  re_run TIMEDELTA_RE t (repeat None 5) (fun _ c => Some c)
  = re_run UNSIGNED_RE t (repeat None 5) (fun _ c => Some c).
Proof.
  intros Ht. change TIMEDELTA_RE with (Seq (opt (Group 0 (Lit "-"))) UNSIGNED_RE).
  rewrite re_run_Seq. unfold opt. rewrite re_run_Repeat_S.
  rewrite re_run_Group.
  assert (Hno : forall k, re_run (Lit "-") t (repeat None 5) k = None).
  { intros k. simpl. destruct t as [| a t']; [reflexivity |].
    destruct (Ascii.eqb a "-") eqn:E; [| reflexivity].
    apply Ascii.eqb_eq in E. subst a. destruct (Ht t' eq_refl). }
  rewrite Hno. reflexivity.
Qed.

Lemma TIMEDELTA_RE_signed (t : string) :
  re_run TIMEDELTA_RE (String "-" t) (repeat None 5) (fun _ c => Some c)
  = option_map (set_nth 0 (Some "-"))
      (re_run UNSIGNED_RE t (repeat None 5) (fun _ c => Some c)).
Proof.
  change TIMEDELTA_RE with (Seq (opt (Group 0 (Lit "-"))) UNSIGNED_RE).
  rewrite re_run_Seq. unfold opt. rewrite re_run_Repeat_S.
  rewrite re_run_Group.
  assert (Hlit : forall k, re_run (Lit "-") (String "-" t) (repeat None 5) k
                           = k t (repeat None 5)) by reflexivity.
  rewrite Hlit. cbn [pred]. rewrite re_run_Repeat_O.
  change (consumed (String "-" t) t) with (consumed ("-" ++ t)%string t).
  rewrite consumed_app.
  rewrite (UNSIGNED_RE_set0 (Some "-") t (repeat None 5)).
  destruct (re_run UNSIGNED_RE t (repeat None 5) (fun _ c => Some c)) as [c |];
    reflexivity.
Qed.

Lemma UNSIGNED_RE_no_sign (t : string) (g0 : option string) (c : captures) :
  re_run UNSIGNED_RE t (repeat None 5) (fun _ c => Some c) = Some (g0 :: c) ->
  g0 = None.
Proof.
  intros H. pose proof (UNSIGNED_RE_set0 None t (repeat None 5)) as E.
  change (set_nth 0 None (repeat None 5)) with (repeat (@None string) 5) in E.
  rewrite H in E. cbn [option_map set_nth] in E. inversion E. reflexivity.
Qed.

Lemma to_timedelta_matched (s : string) (c : captures) :
  re_run TIMEDELTA_RE s (repeat None 5) (fun _ c => Some c) = Some c ->
  to_timedelta (VStr s)
  = catch (cpdef_result is_timedelta (timedelta_of_groups (map group_value c)))
          is_ValueError (fun _ => Raise ValueError)
  /\ Legacy.to_timedelta (VStr s)
  = catch (cpdef_result is_timedelta (timedelta_of_groups (map group_value c)))
          is_ValueError (fun _ => cpdef_result is_timedelta (Ok (VStr s))).
Proof.
  intros E. destruct (to_timedelta_body (VStr s)) as [E1 E2]. rewrite E1, E2.
  cbn [is_bytes bind]. unfold re_match. rewrite E. split; reflexivity.
Qed.

(** what [to_timedelta] answers on a text, by the outcome of the match *)
Lemma to_timedelta_on_match (s : string) :
  (re_match TIMEDELTA_RE 5 (VStr s) = Ok None
   /\ to_timedelta (VStr s) = Raise TypeError
   /\ Legacy.to_timedelta (VStr s) = Raise TypeError)
  \/ (exists g0 h m sec g4,
        re_run TIMEDELTA_RE s (repeat None 5) (fun _ c => Some c)
        = Some [g0; Some h; Some m; Some sec; g4]
        /\ (g0 = None \/ g0 = Some "-")
        /\ captured_digits 1 3 h /\ captured_digits 1 2 m
        /\ captured_digits 1 2 sec /\ captured_fraction g4
        /\ to_timedelta (VStr s)
           = Ok (VTimedelta (groups_microseconds h m sec g4
                             * (if truth (group_value g0) then -1 else 1)))
        /\ Legacy.to_timedelta (VStr s) = to_timedelta (VStr s)).
Proof.
  destruct (re_run TIMEDELTA_RE s (repeat None 5) (fun _ caps => Some caps))
    as [c |] eqn:E.
  2: { left. assert (Hm : re_match TIMEDELTA_RE 5 (VStr s) = Ok None)
         by (unfold re_match; rewrite E; reflexivity).
       split; [exact Hm |]. split.
       - apply to_timedelta_text_unmatched, Hm.
       - apply Legacy_to_timedelta_text_unmatched, Hm. }
  right. destruct (to_timedelta_matched s c E) as [E1 E2].
  pose proof (TIMEDELTA_RE_groups s c E) as G.
  destruct G as [g0 [h [m [sec [g4 [-> [Hg0 [Hh [Hhl [Hm [Hml [Hs [Hsl Hg4]]]]]]]]]]]]].
  assert (Cf : captured_fraction g4).
  { destruct Hg4 as [-> | [f [-> [Hf Hfl]]]]; [left; reflexivity |].
    right. exists f. repeat split; try assumption; lia. }
  destruct (timedelta_of_groups_value g0 h m sec g4
              (conj Hh Hhl) (conj Hm Hml) (conj Hs Hsl) Cf) as [_ Hv].
  change (map group_value [g0; Some h; Some m; Some sec; g4])
    with [group_value g0; VStr h; VStr m; VStr sec; group_value g4] in E1, E2.
  rewrite Hv in E1, E2.
  cbn [cpdef_result bind is_None is_timedelta orb catch] in E1, E2.
  exists g0, h, m, sec, g4. rewrite E1, E2.
  repeat split; try assumption; lia.
Qed.

(** X2: on text [to_timedelta] answers a duration or ends in a
    [TypeError]; the text is never handed back and no [ValueError] is
    raised.  A text the pattern does not match is refused by the declared
    result type; a match is turned into a duration of less than 3 602 440
    seconds in absolute value (999 h, 99 min, 99 s and a fraction: minutes
    and seconds above 59 are accepted and carried). *)
Theorem to_timedelta_text_answer (s : string) :
  (re_match TIMEDELTA_RE 5 (VStr s) = Ok None
   /\ to_timedelta (VStr s) = Raise TypeError)
  \/ (exists groups, re_match TIMEDELTA_RE 5 (VStr s) = Ok (Some groups))
     /\ exists us, to_timedelta (VStr s) = Ok (VTimedelta us)
                   /\ Z.abs us < 3602440000000.
Proof.
  destruct (to_timedelta_on_match s)
    as [[Hm [H _]] | [g0 [h [m [sec [g4 [E [_ [Hh [Hm [Hs [Hf [H _]]]]]]]]]]]]].
  - left. split; assumption.
  - right. split.
    + unfold re_match. rewrite E. eexists. reflexivity.
    + destruct (timedelta_of_groups_value g0 h m sec g4 Hh Hm Hs Hf) as [B _].
      eexists. split; [exact H |].
      destruct (truth (group_value g0)); lia.
Qed.

(** X3: the two variants of [to_timedelta] differ in the handler of the
    [try] only, and that handler is never entered: they give the same
    answer on every input. *)
Theorem to_timedelta_variants_agree (obj : value) :
  Legacy.to_timedelta obj = to_timedelta obj.
Proof.
  assert (Htext : forall s, Legacy.to_timedelta (VStr s) = to_timedelta (VStr s)).
  { intros s. destruct (to_timedelta_on_match s)
      as [[_ [H1 H2]] | [g0 [h [m [sec [g4 [_ [_ [_ [_ [_ [_ [_ H]]]]]]]]]]]]].
    - rewrite H1, H2. reflexivity.
    - exact H. }
  destruct obj; try reflexivity; try apply Htext.
  - (* bytes *)
    destruct (decode_ascii b) as [s | e] eqn:E.
    + transitivity (Legacy.to_timedelta (VStr s)).
      * unfold Legacy.to_timedelta. cbn [is_bytes]. unfold decode. rewrite E.
        reflexivity.
      * rewrite Htext. symmetry. apply to_timedelta_bytes_as_text. exact E.
    + unfold Legacy.to_timedelta, to_timedelta. cbn [is_bytes]. unfold decode.
      rewrite E. reflexivity.
  - (* bytearray *)
    destruct (decode_ascii b) as [s | e] eqn:E.
    + transitivity (Legacy.to_timedelta (VStr s)).
      * unfold Legacy.to_timedelta. cbn [is_bytes]. unfold decode. rewrite E.
        reflexivity.
      * rewrite Htext. unfold to_timedelta at 2. cbn [is_bytes]. unfold decode.
        rewrite E. reflexivity.
    + unfold Legacy.to_timedelta, to_timedelta. cbn [is_bytes]. unfold decode.
      rewrite E. reflexivity.
Qed.

(** X4: a leading minus sign negates the whole duration.  For a text [t]
    that does not itself begin with a minus sign: if [t] is converted to a
    duration, ["-" ++ t] is converted to its opposite; if [t] is refused
    with a [TypeError], so is ["-" ++ t]. *)
Theorem to_timedelta_sign (t : string) :
  unsigned_text t ->
  (forall us, to_timedelta (VStr t) = Ok (VTimedelta us) ->
      to_timedelta (VStr (String "-" t)) = Ok (VTimedelta (- us)))
  /\ (to_timedelta (VStr t) = Raise TypeError ->
      to_timedelta (VStr (String "-" t)) = Raise TypeError).
Proof.
  intros Ht.
  pose proof (TIMEDELTA_RE_unsigned t Ht) as Rt.
  pose proof (TIMEDELTA_RE_signed t) as Rn.
  destruct (to_timedelta_on_match t)
    as [[Hm [H _]] | [g0 [h [m [sec [g4 [E [_ [Hh [Hm [Hs [Hf [H _]]]]]]]]]]]]].
  - (* no match *)
    assert (Eu : re_run UNSIGNED_RE t (repeat None 5) (fun _ c => Some c) = None).
    { rewrite <- Rt. unfold re_match in Hm.
      destruct (re_run TIMEDELTA_RE t (repeat None 5) (fun _ c => Some c));
        [discriminate Hm | reflexivity]. }
    rewrite Eu in Rn. split.
    + intros us Hus. rewrite H in Hus. discriminate Hus.
    + intros _. apply to_timedelta_text_unmatched. unfold re_match.
      rewrite Rn. reflexivity.
  - (* a match *)
    rewrite Rt in E. pose proof (UNSIGNED_RE_no_sign t _ _ E) as Hg0.
    subst g0.
    rewrite E in Rn. cbn [option_map set_nth] in Rn. split.
    + intros us Hus. rewrite H in Hus. cbn [group_value truth] in Hus.
      inversion Hus as [Hus'].
      destruct (to_timedelta_on_match (String "-" t))
        as [[Hm' _] | [g0 [h' [m' [sec' [g4' [E' [_ [_ [_ [_ [_ [H' _]]]]]]]]]]]]].
      * unfold re_match in Hm'. rewrite Rn in Hm'. discriminate Hm'.
      * rewrite Rn in E'. inversion E'; subst. rewrite H'.
        cbn [group_value truth String.eqb negb]. f_equal. f_equal. lia.
    + intros Hs'. rewrite H in Hs'. discriminate Hs'.
Qed.

Lemma to_timedelta_sign_witness :
  to_timedelta (VStr "-1:30:00") = Ok (VTimedelta (- 5400000000))
  /\ to_timedelta (VStr "-1:30") = Raise TypeError.
Proof.
  assert (Hu : unsigned_text "1:30:00") by (intros r H; discriminate H).
  assert (Hu' : unsigned_text "1:30") by (intros r H; discriminate H).
  split.
  - apply (proj1 (to_timedelta_sign "1:30:00" Hu) 5400000000).
    reflexivity.
  - apply (proj2 (to_timedelta_sign "1:30" Hu')).
    reflexivity.
Defined.

Lemma decode_ascii_spec (b : list byte) :
  decode_ascii b
  = if is_ascii_bytes b then Ok (text_of_bytes b) else Raise UnicodeDecodeError.
Proof.
  unfold is_ascii_bytes, text_of_bytes.
  induction b as [| x b IH]; [reflexivity |].
  cbn [decode_ascii forallb map string_of_list_ascii].
  destruct (Byte.to_nat x <? 128)%nat; [| reflexivity].
  rewrite IH. cbn [andb]. destruct (forallb _ b); reflexivity.
Qed.

(** X5: on bytes [to_timedelta] answers as on the decoded text, and
    raises the [UnicodeDecodeError] of the decoding when a byte is not
    ASCII.  The bytes are never handed back: the answer is a duration, and
    an error is that [UnicodeDecodeError] or the [TypeError] of the
    declared result type. *)
Theorem to_timedelta_bytes_answer (b : list byte) :
  (is_ascii_bytes b = true ->
     to_timedelta (VBytes b) = to_timedelta (VStr (text_of_bytes b)))
  /\ (is_ascii_bytes b = false ->
     to_timedelta (VBytes b) = Raise UnicodeDecodeError)
  /\ (forall r, to_timedelta (VBytes b) = Ok r -> is_timedelta r = true)
  /\ (forall e, to_timedelta (VBytes b) = Raise e ->
        (e = TypeError /\ is_ascii_bytes b = true)
        \/ (e = UnicodeDecodeError /\ is_ascii_bytes b = false)).
Proof.
  pose proof (decode_ascii_spec b) as D.
  destruct (is_ascii_bytes b) eqn:Hb.
  - pose proof (to_timedelta_bytes_as_text b _ D) as T.
    split; [intros _; exact T |]. split; [discriminate |].
    rewrite T.
    destruct (to_timedelta_text_total (text_of_bytes b))
      as [[_ H] | [v [H Hv]]]; rewrite H.
    + split; [discriminate |]. intros e E. inversion E. left.
      split; reflexivity.
    + split; [| discriminate]. intros r E. inversion E; subst. exact Hv.
  - assert (T : to_timedelta (VBytes b) = Raise UnicodeDecodeError).
    { unfold to_timedelta. cbn [is_bytes]. unfold decode. rewrite D.
      reflexivity. }
    split; [discriminate |]. split; [intros _; exact T |]. rewrite T.
    split; [discriminate |]. intros e E. inversion E. right.
    split; reflexivity.
Qed.

Lemma to_timedelta_bytes_answer_witness :
  to_timedelta (VBytes [x31; x3a; x32; x3a; x33])
  = to_timedelta (VStr "1:2:3")
  /\ to_timedelta (VBytes [x31; xe9]) = Raise UnicodeDecodeError.
Proof.
  destruct (to_timedelta_bytes_answer [x31; x3a; x32; x3a; x33]) as [H _].
  destruct (to_timedelta_bytes_answer [x31; xe9]) as [_ [H' _]].
  split.
  - apply H. reflexivity.
  - apply H'. reflexivity.
Defined.

(** ** Integer, further *)

Lemma uint_text_digits (d : Decimal.uint) :
  all_digits (NilEmpty.string_of_uint d) = true.
Proof. induction d; simpl; try reflexivity; exact IHd. Qed.

Ltac eval_digit :=
  match goal with
  | |- context [digit_val ?c] =>
      let v := eval vm_compute in (digit_val c) in
      change (digit_val c) with v
  end.

Lemma uint_text_value_acc (d : Decimal.uint) : forall acc : positive,
  digits_value (NilEmpty.string_of_uint d) (Z.pos acc)
  = Z.pos (Pos.of_uint_acc d acc).
Proof.
  induction d; intros acc; cbn [NilEmpty.string_of_uint digits_value Pos.of_uint_acc];
    try reflexivity;
    match goal with
    | |- digits_value _ ?a = Z.pos (Pos.of_uint_acc _ ?p) =>
        replace a with (Z.pos p) by (eval_digit; lia)
    end; apply IHd.
Qed.

Lemma uint_text_value (d : Decimal.uint) :
  digits_value (NilEmpty.string_of_uint d) 0 = Z.of_N (Pos.of_uint d).
Proof.
  induction d; cbn [NilEmpty.string_of_uint digits_value Pos.of_uint];
    try reflexivity;
    try (match goal with
         | |- digits_value _ ?a = Z.of_N (N.pos (Pos.of_uint_acc _ ?p)) =>
             replace a with (Z.pos p) by (eval_digit; lia)
         end; apply uint_text_value_acc).
  replace (10 * 0 + digit_val "0") with 0 by reflexivity. exact IHd.
Qed.

Lemma positive_text (p : positive) :
  let t := NilEmpty.string_of_uint (Pos.to_uint p) in
  all_digits t = true /\ (1 <= String.length t)%nat
  /\ digits_value t 0 = Z.pos p
  /\ NilZero.string_of_uint (Pos.to_uint p) = t.
Proof.
  intros t. unfold t. split; [apply uint_text_digits |]. split; [| split].
  - pose proof (DecimalPos.Unsigned.to_uint_nonnil p) as Hn.
    destruct (Pos.to_uint p); try (simpl; lia). contradiction Hn. reflexivity.
  - rewrite uint_text_value, DecimalPos.Unsigned.of_to. reflexivity.
  - pose proof (DecimalPos.Unsigned.to_uint_nonnil p) as Hn.
    destruct (Pos.to_uint p); try reflexivity. contradiction Hn. reflexivity.
Qed.

Lemma int_literal_digits (t : string) :
  all_digits t = true -> t <> EmptyString ->
  int_literal t
  = if max_str_digits <? Z.of_nat (String.length t) then None
    else Some (digits_value t 0).
Proof.
  intros Hd Hne. unfold int_literal. rewrite (count_digits_all t Hd).
  destruct (max_str_digits <? Z.of_nat (String.length t)); [reflexivity |].
  apply int_digits_value; [exact Hd | left; exact Hne].
Qed.

(** the text of an integer: its digits, after a minus sign if it is
    negative *)
Lemma text_of_Z_digits (z : Z) :
  exists t, all_digits t = true /\ t <> EmptyString
    /\ digits_value t 0 = Z.abs z
    /\ decimal_digits z = Z.of_nat (String.length t)
    /\ text_of_Z z = if z <? 0 then String "-" t else t.
Proof.
  unfold decimal_digits, text_of_Z. destruct z as [| p | p].
  - exists "0". repeat split. discriminate.
  - cbn [Z.abs Z.to_int NilZero.string_of_int Z.ltb Z.compare].
    destruct (positive_text p) as [Hd [Hl [Hv Ht]]]. rewrite Ht.
    eexists. split; [exact Hd |]. split; [| split; [exact Hv |]].
    + intros E. rewrite E in Hl. simpl in Hl. lia.
    + split; reflexivity.
  - cbn [Z.abs Z.to_int NilZero.string_of_int Z.ltb Z.compare].
    destruct (positive_text p) as [Hd [Hl [Hv Ht]]]. rewrite Ht.
    eexists. split; [exact Hd |]. split; [| split; [exact Hv |]].
    + intros E. rewrite E in Hl. simpl in Hl. lia.
    + split; reflexivity.
Qed.

(** [int] on the text of an integer: the integer, unless the digits are
    more than [max_str_digits] *)
Lemma py_int_text_of_Z (z : Z) :
  py_int (VStr (text_of_Z z))
  = if max_str_digits <? decimal_digits z then Raise ValueError else Ok z.
Proof.
  destruct (text_of_Z_digits z) as [t [Hd [Hne [Hv [Hn Ht]]]]].
  rewrite Ht, Hn. cbn [py_int].
  pose proof (int_literal_digits t Hd Hne) as Hlit.
  destruct (z <? 0) eqn:Hz.
  - unfold int_of_text.
    assert (Hs : strip_by is_int_blank (String "-" t) = String "-" t).
    { unfold strip_by. cbn [lstrip_by]. change (is_int_blank "-") with false.
      cbv iota. cbn [rstrip_by].
      rewrite (rstrip_digits is_int_blank t digit_not_int_blank Hd).
      destruct t; [contradiction Hne; reflexivity | reflexivity]. }
    rewrite Hs, Hlit.
    destruct (max_str_digits <? Z.of_nat (String.length t)); [reflexivity |].
    cbn [option_map]. apply Z.ltb_lt in Hz. rewrite Hv. f_equal. lia.
  - rewrite (int_of_text_unsigned is_int_blank t digit_not_int_blank Hd), Hlit.
    destruct (max_str_digits <? Z.of_nat (String.length t)); [reflexivity |].
    apply Z.ltb_ge in Hz. rewrite Hv. f_equal. lia.
Qed.

(** X6: an integer of at most 4300 digits that is printed as text is
    coerced back to the same integer, by [to_integer], by [parse_basic]
    and by [parse_type]: the Text kind followed by the Integer kind is the
    identity on these integers.  An integer of more digits is not printed:
    the Text kind refuses it with a [ValueError], as the Integer kind
    refuses its text. *)
Theorem integer_text_round_trip (ext : Externals) (z : Z) :
  (decimal_digits z <= max_str_digits ->
     parse_basic ext (Class C_str) (VInt z) None = Ok (VStr (text_of_Z z))
     /\ to_integer (VStr (text_of_Z z)) = Ok (VInt z)
     /\ parse_basic ext (Class C_int) (VStr (text_of_Z z)) None = Ok (VInt z)
     /\ parse_type ext (Class C_int) (VStr (text_of_Z z)) None = Ok (VInt z))
  /\ (max_str_digits < decimal_digits z ->
     parse_basic ext (Class C_str) (VInt z) None = Raise ValueError
     /\ to_integer (VStr (text_of_Z z)) = Raise ValueError).
Proof.
  pose proof (py_int_text_of_Z z) as P.
  assert (B : parse_basic ext (Class C_int) (VStr (text_of_Z z)) None
              = match to_integer (VStr (text_of_Z z)) with
                | Ok v => Ok v
                | Raise e =>
                    if is_KeyError e then Ok VNone
                    else if TypeError_or_ValueError e then Raise ValueError
                    else Raise e
                end) by reflexivity.
  assert (T : parse_type ext (Class C_int) (VStr (text_of_Z z)) None
              = match to_integer (VStr (text_of_Z z)) with
                | Ok v => Ok v
                | Raise e =>
                    if is_KeyError e then
                      last_conversion ext (Class C_int) (VStr (text_of_Z z))
                    else if TypeError_or_ValueError e then Raise ValueError
                    else Raise e
                end) by reflexivity.
  assert (S : parse_basic ext (Class C_str) (VInt z) None
              = if max_str_digits <? decimal_digits z then Raise ValueError
                else Ok (VStr (text_of_Z z))).
  { unfold parse_basic. cbn [is_str_class py_str].
    destruct (max_str_digits <? decimal_digits z); reflexivity. }
  assert (I : to_integer (VStr (text_of_Z z))
              = if max_str_digits <? decimal_digits z then Raise ValueError
                else Ok (VInt z)).
  { unfold to_integer. cbn [is_None is_int callable]. rewrite P.
    destruct (max_str_digits <? decimal_digits z); reflexivity. }
  split; intros H.
  - assert (E : (max_str_digits <? decimal_digits z) = false)
      by (apply Z.ltb_ge; exact H).
    rewrite B, T, S, I, E. repeat split.
  - assert (E : (max_str_digits <? decimal_digits z) = true)
      by (apply Z.ltb_lt; exact H).
    rewrite S, I, E. split; reflexivity.
Qed.

Lemma integer_text_round_trip_witness :
  parse_basic sample_externals (Class C_str) (VInt (- 1205)) None
  = Ok (VStr "-1205")
  /\ parse_basic sample_externals (Class C_int) (VStr "-1205") None
     = Ok (VInt (- 1205)).
Proof.
  destruct (proj1 (integer_text_round_trip sample_externals (- 1205)))
    as [H1 [_ [H3 _]]].
  - vm_compute. discriminate.
  - split; [exact H1 | exact H3].
Defined.

(** X7: on a value that is neither text, nor bytes, nor a value-producer,
    [to_boolean] never fails and answers the truth value of the object
    ([None] counts as false); on any value that is no value-producer the
    answer is a boolean and the only errors are [ValueError]s, raised for
    text and bytes. *)
Theorem to_boolean_answer (v : value) :
  callable v = false ->
  (is_str v = false -> is_bytes v = false ->
     to_boolean v = Ok (VBool (truth v)))
  /\ (forall r, to_boolean v = Ok r -> is_bool r = true)
  /\ (forall e, to_boolean v = Raise e ->
        is_ValueError e = true /\ (is_str v = true \/ is_bytes v = true)).
Proof.
  intros Hc. split; [| split].
  - intros Hs Hb. destruct v; try discriminate; reflexivity.
  - intros r H. apply (to_boolean_result v r Hc H).
  - intros e H. split; [apply (to_boolean_error v e Hc H) |].
    destruct v; try discriminate Hc; try discriminate H;
      simpl; tauto.
Qed.

Lemma to_boolean_answer_witness :
  to_boolean (VList []) = Ok (VBool false)
  /\ to_boolean (VFloat (FFin 3 (-1))) = Ok (VBool true).
Proof.
  split.
  - apply (proj1 (to_boolean_answer (VList []) eq_refl)); reflexivity.
  - apply (proj1 (to_boolean_answer (VFloat (FFin 3 (-1))) eq_refl)); reflexivity.
Defined.

(** ** Date and date-time, further *)

Lemma catch_attempts (c : res value) (h1 h2 : res value) (cls : exn -> bool) :
  (forall x, c = Ok x -> is_datetime x = true) ->
  (x <- h2 ;; date_part x) = h1 ->
  catch (attempt_date c) cls (fun _ => h1)
  = (x <- catch c cls (fun _ => h2) ;; date_part x).
Proof.
  intros Ht Hh. destruct c as [x | e]; simpl.
  - pose proof (Ht x eq_refl) as Hx. destruct x; try discriminate Hx. reflexivity.
  - destruct (cls e); [symmetry; exact Hh | reflexivity].
Qed.

(** the declared result type refuses nothing of the right type *)
Lemma cpdef_result_id (T : value -> bool) (c : res value) :
  (forall x, c = Ok x -> T x = true) -> cpdef_result T c = c.
Proof.
  intros H. destruct c as [x | e]; [| reflexivity].
  unfold cpdef_result. cbn [bind]. rewrite (H x eq_refl), orb_true_r.
  reflexivity.
Qed.

(** X8: for anything that is not already a date, [to_date] is [to_datetime]
    followed by [.date()] ([None] staying [None]), as long as the parsers
    answer with date-times: the two converters accept the same inputs and
    fail with the same errors. *)
Theorem to_date_is_date_of_to_datetime (ext : Externals) (v : value) :
  parsers_return_datetimes ext -> is_date v = false ->
  to_date ext v = (x <- to_datetime ext v ;; date_part x).
Proof.
  intros [Hc [Hf Hp]] Hv.
  assert (Htail : forall obj,
    to_date_tail ext obj = (x <- to_datetime_tail ext obj ;; date_part x)).
  { intros obj. unfold to_date_tail, to_datetime_tail.
    destruct (if is_bytes obj then decode obj else Ok obj) as [o | e];
      [| reflexivity].
    cbn [bind].
    assert (Hfo : forall x, fromisoformat ext o = Ok x -> is_datetime x = true).
    { intros x Hx. destruct o; try discriminate Hx. apply (Hf _ _ Hx). }
    rewrite (cpdef_result_id is_datetime (fromisoformat ext o) Hfo).
    rewrite (cpdef_result_id is_datetime (pendulum_parse ext o) (Hp o)).
    change (x <- fromisoformat ext o ;; method_date x)
      with (attempt_date (fromisoformat ext o)).
    change (x <- pendulum_parse ext o ;; method_date x)
      with (attempt_date (pendulum_parse ext o)).
    apply catch_attempts.
    - exact Hfo.
    - symmetry. apply catch_attempts.
      + intros x Hx. apply (Hp _ _ Hx).
      + reflexivity. }
  unfold to_date, to_datetime.
  destruct v; try discriminate Hv; try reflexivity;
    cbn [is_None is_date is_datetime]; try apply Htail.
  rewrite (cpdef_result_id is_datetime (ciso8601_parse_datetime ext s) (Hc s)).
  change (x <- ciso8601_parse_datetime ext s ;; method_date x)
    with (attempt_date (ciso8601_parse_datetime ext s)).
  apply catch_attempts.
  - intros x Hx. apply (Hc _ _ Hx).
  - symmetry. apply Htail.
Qed.

Lemma to_date_is_date_of_to_datetime_witness :
  to_date sample_externals (VStr "2024-02-29")
  = (x <- to_datetime sample_externals (VStr "2024-02-29") ;; date_part x).
Proof.
  apply (to_date_is_date_of_to_datetime sample_externals (VStr "2024-02-29")).
  - unfold parsers_return_datetimes, sample_externals; simpl.
    repeat split.
    + intros s x. unfold calendar_parser.
      destruct (iso_calendar_date s); intros H; inversion H; reflexivity.
    + intros s x. unfold calendar_parser.
      destruct (iso_calendar_date s); intros H; inversion H; reflexivity.
    + intros v x. unfold calendar_parser_value. destruct v; try discriminate.
      destruct (iso_calendar_date s); intros H; inversion H; reflexivity.
  - reflexivity.
Defined.

(** X9: whatever the parsers answer, [to_date] returns [None] for [None],
    the date it was given, or a plain date: a parser's answer that is no
    date-time is never passed on.  The earlier variant has no case for
    [None] and otherwise keeps the same discipline. *)
Theorem to_date_answer (ext : Externals) (v r : value) :
  (to_date ext v = Ok r ->
     (v = VNone /\ r = VNone) \/ (is_date v = true /\ r = v)
     \/ (is_date v = false /\ exists d, r = VDate d))
  /\ (Legacy.to_date ext v = Ok r ->
     (is_date v = true /\ r = v)
     \/ (is_date v = false /\ exists d, r = VDate d)).
Proof.
  assert (Hatt : forall p x, attempt_date p = Ok x -> exists d, x = VDate d).
  { intros p x H. unfold attempt_date in H. apply bind_Ok_inv in H.
    destruct H as [y [_ H]]. destruct y; try discriminate H.
    inversion H. eexists. reflexivity. }
  assert (Htail : forall obj x, to_date_tail ext obj = Ok x -> exists d, x = VDate d).
  { intros obj x H. unfold to_date_tail in H. apply bind_Ok_inv in H.
    destruct H as [o [_ H]].
    apply catch_Ok_inv in H. destruct H as [H | [e [_ [_ H]]]].
    - apply (Hatt _ _ H).
    - apply catch_Ok_inv in H. destruct H as [H | [e' [_ [_ H]]]].
      + apply (Hatt _ _ H).
      + discriminate H. }
  split; intros H.
  - unfold to_date in H. destruct (is_None v) eqn:Hn.
    + left. destruct v; try discriminate Hn. inversion H. split; reflexivity.
    + destruct (is_date v) eqn:Hd.
      * right. left. inversion H. split; reflexivity.
      * right. right. split; [reflexivity |].
        destruct v; try (apply (Htail _ _ H)).
        apply catch_Ok_inv in H. destruct H as [H | [e [_ [_ H]]]].
        -- apply (Hatt _ _ H).
        -- apply (Htail _ _ H).
  - unfold Legacy.to_date in H. destruct (is_date v) eqn:Hd.
    + left. inversion H. split; reflexivity.
    + right. split; [reflexivity |]. apply bind_Ok_inv in H.
      destruct H as [o [_ H]].
      apply catch_Ok_inv in H. destruct H as [H | [e [_ [_ H]]]].
      * apply (Hatt _ _ H).
      * discriminate H.
Qed.

(** ** Time of day *)



Lemma py_int_error (v : value) (e : exn) :
  py_int v = Raise e -> is_float v = false -> is_Decimal v = false ->
  TypeError_or_ValueError e = true.
Proof.
  intros H Hf Hd. destruct v; try discriminate Hf; try discriminate Hd;
    simpl in H; try (inversion H; reflexivity).
  - destruct (int_of_text _ s); inversion H. reflexivity.
  - destruct (int_of_text _ (text_of_bytes b)); inversion H. reflexivity.
  - destruct (int_of_text _ (text_of_bytes b)); inversion H. reflexivity.
Qed.






Lemma to_time_text_overflow_example :
  to_time (VStr "2147483648:0") = Raise OverflowError.
Proof. vm_compute. reflexivity. Qed.

(** ** [slugify_camelcase] *)

Lemma append_assoc (a b c : string) :
  ((a ++ b) ++ c)%string = (a ++ (b ++ c))%string.
Proof. induction a as [| x a IH]; simpl; [reflexivity | rewrite IH; reflexivity]. Qed.

Lemma concat_app (l1 l2 : list string) :
  String.concat EmptyString (l1 ++ l2)
  = (String.concat EmptyString l1 ++ String.concat EmptyString l2)%string.
Proof.
  induction l1 as [| a l1 IH]; [reflexivity |].
  destruct l1 as [| b l1].
  - simpl. destruct l2; simpl; [rewrite append_empty |]; reflexivity.
  - change ((a :: b :: l1) ++ l2) with (a :: (b :: l1) ++ l2).
    change (String.concat EmptyString (a :: (b :: l1) ++ l2))
      with (a ++ EmptyString ++ String.concat EmptyString ((b :: l1) ++ l2))%string.
    rewrite IH. simpl. rewrite append_assoc. reflexivity.
Qed.

Lemma slugify_loop_spaced (rest : string) : forall slugified,
  String.concat EmptyString (slugify_loop rest slugified)
  = (String.concat EmptyString slugified ++ spaced rest)%string.
Proof.
  induction rest as [| c rest IH]; intros slugified; simpl.
  - rewrite append_empty. reflexivity.
  - rewrite IH. destruct (is_upper_char c);
      rewrite !concat_app; simpl; rewrite !append_assoc; reflexivity.
Qed.

Lemma remove_space_spaced (s : string) :
  remove_char " " (spaced s) = remove_char " " s.
Proof.
  induction s as [| c s IH]; [reflexivity |]. simpl.
  destruct (is_upper_char c) eqn:U; simpl.
  - destruct (Ascii.eqb c " ") eqn:E.
    + apply Ascii.eqb_eq in E. subst c. discriminate U.
    + rewrite IH. reflexivity.
  - rewrite IH. reflexivity.
Qed.

Lemma length_spaced (s : string) :
  String.length (spaced s) = (String.length s + count_upper s)%nat.
Proof.
  induction s as [| c s IH]; [reflexivity |]. simpl.
  destruct (is_upper_char c); simpl; rewrite IH; lia.
Qed.

(** X11: [slugify_camelcase] raises nothing.  On the empty text, read
    without a bounds check, it answers the one-character text NUL.  On any
    other text it keeps the first character and puts one space before each
    later upper-case letter: the answer is longer by the number of those
    letters, and without its spaces it is the input without its spaces (so
    an input with no space is recovered by removing them). *)
Theorem slugify_camelcase_answer (obj : string) :
  (obj = EmptyString -> slugify_camelcase obj = Ok (String NUL EmptyString))
  /\ (forall c rest, obj = String c rest ->
      exists out,
        slugify_camelcase obj = Ok (String c out)
        /\ String.length out = (String.length rest + count_upper rest)%nat
        /\ remove_char " " (String c out) = remove_char " " obj
        /\ (count_upper rest = O -> out = rest)).
Proof.
  split.
  - intros ->. reflexivity.
  - intros c rest ->. exists (spaced rest).
    unfold slugify_camelcase. cbv iota beta. rewrite slugify_loop_spaced.
    split; [reflexivity |]. split; [apply length_spaced |]. split.
    + simpl. rewrite remove_space_spaced. reflexivity.
    + clear c. induction rest as [| c rest IH]; [reflexivity |]. simpl.
      destruct (is_upper_char c); [discriminate |]. intros H.
      rewrite (IH H). reflexivity.
Qed.

Lemma slugify_camelcase_answer_witness :
  exists out, slugify_camelcase "DataModel" = Ok (String "D" out)
              /\ String.length out = 9%nat.
Proof.
  destruct (proj2 (slugify_camelcase_answer "DataModel") "D"%char "ataModel" eq_refl)
    as [out [H [Hl _]]].
  exists out. split; [exact H | exact Hl].
Defined.

(** ** The engine, further *)

Lemma mapM_Ok_Forall2 {A B : Type} (f : A -> res B) (l : list A) :
  forall r, mapM f l = Ok r -> Forall2 (fun x y => f x = Ok y) l r.
Proof.
  induction l as [| x l IH]; intros r H; simpl in H.
  - inversion H. constructor.
  - destruct (f x) as [y | e] eqn:Ex; simpl in H; [| discriminate H].
    destruct (mapM f l) as [ys | e]; simpl in H; [| discriminate H].
    inversion H; subst. constructor; [exact Ex | apply IH; reflexivity].
Qed.

Lemma mapM_Raise_first {A B : Type} (f : A -> res B) (l : list A) :
  forall e, mapM f l = Raise e ->
  exists l1 x l2, l = l1 ++ x :: l2 /\ f x = Raise e
                  /\ forall y, In y l1 -> exists v, f y = Ok v.
Proof.
  induction l as [| x l IH]; intros e H; simpl in H; [discriminate H |].
  destruct (f x) as [y | e'] eqn:Ex; simpl in H.
  - destruct (mapM f l) as [ys | e''] eqn:El; simpl in H; [discriminate H |].
    inversion H; subst e''. destruct (IH e eq_refl) as [l1 [x' [l2 [Hl [Hx Hall]]]]].
    exists (x :: l1), x', l2. split; [rewrite Hl; reflexivity |].
    split; [exact Hx |]. intros z [<- | Hz]; [exists y; exact Ex | apply Hall, Hz].
  - inversion H; subst e'. exists [], x, l. split; [reflexivity |].
    split; [exact Ex |]. intros z [].
Qed.

Lemma parse_type_List_sequence (ext : Externals) (element : pytype)
    (data : value) (l : list value) (encoder : option (value -> res value)) :
  data = VList l \/ data = VTuple l ->
  in_typing element = false -> is_dataclass element = false ->
  is_iterable ext data = true ->
  parse_type ext (List_ element) data encoder
  = (r <- mapM (fun item => parse_type ext element item encoder) l ;;
     Ok (VList r)).
Proof.
  intros Hd Ht Hdc Hit. unfold List_.
  destruct Hd as [-> | ->]; simpl; rewrite Ht, Hdc; simpl in Hit; rewrite Hit;
    reflexivity.
Qed.

(** X12: a list or a tuple under [List[element]], for an element type that
    is a plain class: the answer is a list (also for a tuple) with one
    coerced item for each item, in order; if an item fails, the error is
    that of the first item that fails, and nothing is returned. *)
Theorem parse_type_List_items (ext : Externals) (element : pytype)
    (data : value) (l : list value) (encoder : option (value -> res value)) :
  data = VList l \/ data = VTuple l ->
  in_typing element = false -> is_dataclass element = false ->
  is_iterable ext data = true ->
  (forall r, parse_type ext (List_ element) data encoder = Ok r ->
     exists l', r = VList l' /\ List.length l' = List.length l
       /\ Forall2 (fun x y => parse_type ext element x encoder = Ok y) l l')
  /\ (forall e, parse_type ext (List_ element) data encoder = Raise e ->
     exists l1 x l2, l = l1 ++ x :: l2
       /\ parse_type ext element x encoder = Raise e
       /\ forall y, In y l1 ->
            exists v, parse_type ext element y encoder = Ok v).
Proof.
  intros Hd Ht Hdc Hit.
  rewrite (parse_type_List_sequence ext element data l encoder Hd Ht Hdc Hit).
  split.
  - intros r H. apply bind_Ok_inv in H. destruct H as [l' [Hm H]].
    inversion H; subst r. exists l'. split; [reflexivity |].
    pose proof (mapM_Ok_Forall2 _ _ _ Hm) as HF. split; [| exact HF].
    symmetry. apply (Forall2_length HF).
  - intros e H.
    destruct (mapM (fun item => parse_type ext element item encoder) l)
      as [r | e'] eqn:Hm; simpl in H; [discriminate H |].
    inversion H; subst e'. apply (mapM_Raise_first _ _ _ Hm).
Qed.

Lemma parse_type_List_items_witness :
  exists l',
    parse_type sample_externals (List_ (Class C_int))
      (VTuple [VStr "1"; VInt 2; VStr "3"]) None = Ok (VList l')
    /\ List.length l' = 3%nat.
Proof.
  destruct (parse_type_List_items sample_externals (Class C_int)
              (VTuple [VStr "1"; VInt 2; VStr "3"])
              [VStr "1"; VInt 2; VStr "3"] None
              (or_intror eq_refl) eq_refl eq_refl eq_refl) as [H _].
  destruct (H (VList [VInt 1; VInt 2; VInt 3]) eq_refl) as [l' [E [Hl _]]].
  exists l'. rewrite <- E. split; [reflexivity | exact Hl].
Defined.

Lemma mapM_instances (arg_type : pytype) (ext : Externals) (l : list value) :
  forallb is_dataclass_instance l = true ->
  mapM (fun d =>
          if is_dataclass_instance d then Ok d
          else if is_list d then (xs <- iterate d ;; new ext arg_type xs [])
          else if is_dict d then new ext arg_type [] (dict_items d)
          else new ext arg_type [d] []) l
  = Ok l.
Proof.
  induction l as [| d l IH]; [reflexivity |]. simpl. intros H.
  apply andb_prop in H. destruct H as [Hd Hl]. rewrite Hd, (IH Hl). reflexivity.
Qed.

(** X13: under [List[D]] for a dataclass [D], a list of instances of
    dataclasses is returned as it is, but a tuple, whatever it holds,
    ends the call with an [UnboundLocalError]: the result list is only
    built when the data is a list. *)
Theorem parse_type_List_of_dataclass (ext : Externals) (name : string)
    (l : list value) (encoder : option (value -> res value)) :
  parse_type ext (List_ (Class (C_dataclass name))) (VTuple l) encoder
  = Raise UnboundLocalError
  /\ (forallb is_dataclass_instance l = true ->
      parse_type ext (List_ (Class (C_dataclass name))) (VList l) encoder
      = Ok (VList l)).
Proof.
  split; [reflexivity |]. intros H.
  change (parse_type ext (List_ (Class (C_dataclass name))) (VList l) encoder)
    with (list_of_dataclass ext (Class (C_dataclass name)) (VList l)).
  unfold list_of_dataclass.
  rewrite (mapM_instances (Class (C_dataclass name)) ext l H). reflexivity.
Qed.

Lemma parse_type_List_of_dataclass_witness :
  parse_type sample_externals (List_ (Class (C_dataclass "Point")))
    (VList [VInstance "Point" []]) None
  = Ok (VList [VInstance "Point" []]).
Proof.
  apply (proj2 (parse_type_List_of_dataclass sample_externals "Point"
                  [VInstance "Point" []] None)).
  reflexivity.
Defined.

Lemma last_conversion_error (ext : Externals) (T : pytype) (data : value)
    (e : exn) :
  last_conversion ext T data = Raise e -> TypeError_or_ValueError e = false.
Proof.
  unfold last_conversion. destruct T; [| discriminate].
  destruct (new_from _ _ _ _) as [v | e']; simpl; [discriminate |].
  destruct (TypeError_or_ValueError e') eqn:E; [discriminate |].
  intros H. inversion H; subst. exact E.
Qed.

(** X14: a failed conversion leaves the engine as a plain [ValueError].  For
    a class that is no dataclass and no override encoder, [parse_type]
    never lets a [TypeError] or a subclass of [ValueError] (such as the
    [UnicodeDecodeError] of undecodable bytes) out as it is; the same holds
    of [parse_basic] for every kind but Bytes. *)
Theorem engine_reports_ValueError (ext : Externals) (c : pyclass)
    (data : value) (e : exn) :
  is_dataclass (Class c) = false -> TypeError_or_ValueError e = true ->
  (parse_type ext (Class c) data None = Raise e -> e = ValueError)
  /\ (is_bytes_class (Class c) = false ->
      parse_basic ext (Class c) data None = Raise e -> e = ValueError).
Proof.
  intros Hdc He. split.
  - cbn [parse_type]. rewrite Hdc.
    destruct (encoders_get ext (Class c)) as [conv | e0].
    + destruct (conv data) as [v | e1]; [discriminate |].
      destruct (is_KeyError e1).
      * intros H. apply last_conversion_error in H. congruence.
      * destruct (TypeError_or_ValueError e1) eqn:E1; intros H; inversion H;
          [reflexivity | congruence].
    + intros H. apply last_conversion_error in H. congruence.
  - intros Hb. unfold parse_basic. rewrite Hb.
    destruct (is_str_class (Class c)).
    { intros H. destruct (py_str_cases ext data) as [[t Ht] | Ht];
        rewrite Ht in H; cbn [bind] in H; [discriminate H |].
      inversion H. reflexivity. }
    destruct (conv <- encoders_get ext (Class c) ;; conv data) as [v | e1];
      [discriminate |].
    destruct (is_KeyError e1); [discriminate |].
    destruct (TypeError_or_ValueError e1) eqn:E1; intros H; inversion H;
      [reflexivity | congruence].
Qed.

Lemma engine_reports_ValueError_witness :
  parse_type sample_externals (Class C_bool) (VBytes [xff]) None
  = Raise ValueError.
Proof.
  destruct (parse_type sample_externals (Class C_bool) (VBytes [xff]) None)
    as [v | e] eqn:E; [discriminate E |].
  f_equal.
  apply (proj1 (engine_reports_ValueError sample_externals C_bool
                  (VBytes [xff]) e eq_refl
                  ltac:(vm_compute in E; inversion E; reflexivity))).
  exact E.
Defined.

(** X15: the two entry points on a class.  Where the registry has a converter
    and that converter raises no [KeyError], [parse_basic] and [parse_type]
    give the same answer; where the registry has none (and the class is
    neither [str] nor [bytes]), [parse_basic] without an encoder answers
    [None] whatever the data, while [parse_type] hands a value that is no
    mapping, sequence or text back as it is. *)
Theorem entry_points_on_class (ext : Externals) (c : pyclass) (data : value) :
  (forall f, registry_get (encoders ext) c = Ok f ->
     f data <> Raise KeyError ->
     parse_basic ext (Class c) data None = parse_type ext (Class c) data None)
  /\ (registry_get (encoders ext) c = Raise KeyError ->
      is_str_class (Class c) = false -> is_bytes_class (Class c) = false ->
      parse_basic ext (Class c) data None = Ok VNone
      /\ (is_dataclass (Class c) = false -> is_dict data = false ->
          is_list_or_tuple data = false -> is_str data = false ->
          parse_type ext (Class c) data None = Ok data)).
Proof.
  split.
  - intros f Hf Hk.
    assert (Hc : is_str_class (Class c) = false /\ is_bytes_class (Class c) = false
                 /\ is_dataclass (Class c) = false).
    { destruct c; try (repeat split; reflexivity); simpl in Hf.
      - discriminate Hf.
      - discriminate Hf.
      - discriminate Hf. }
    destruct Hc as [Hs [Hb Hd]].
    unfold parse_basic. cbn [parse_type]. rewrite Hs, Hb, Hd.
    unfold encoders_get. rewrite Hf. cbn [bind].
    destruct (f data) as [v | e]; [reflexivity |].
    destruct e; try reflexivity. contradiction Hk. reflexivity.
  - intros Hf Hs Hb. split.
    + unfold parse_basic. rewrite Hs, Hb. unfold encoders_get. rewrite Hf.
      reflexivity.
    + intros Hd Hdi Hl Hst. cbn [parse_type]. rewrite Hd.
      unfold encoders_get. rewrite Hf. unfold last_conversion, new_from.
      rewrite Hdi, Hl, Hst. reflexivity.
Qed.

Lemma entry_points_on_class_witness :
  parse_basic sample_externals (Class C_int) (VStr "12") None
  = parse_type sample_externals (Class C_int) (VStr "12") None
  /\ parse_basic sample_externals (Class (C_class "Color")) (VInt 3) None
     = Ok VNone.
Proof.
  split.
  - apply (proj1 (entry_points_on_class sample_externals C_int (VStr "12"))
             to_integer eq_refl).
    discriminate.
  - apply (proj2 (entry_points_on_class sample_externals (C_class "Color")
                    (VInt 3)) eq_refl eq_refl eq_refl).
Defined.

(** ** Reading a clock text *)

Lemma digits_run_complete (ds : string) : forall hi lo rest caps k c,
  all_digits ds = true -> (lo <= String.length ds <= hi)%nat ->
  no_leading_digit rest = true -> k rest caps = Some c ->
  re_run (Repeat lo hi Digit) (ds ++ rest)%string caps k = Some c.
Proof.
  induction ds as [| a ds IH]; intros hi lo rest caps k c Hd Hl Hr Hk.
  - simpl in Hl. assert (lo = O) by lia. subst lo. simpl append.
    destruct hi as [| hi]; [rewrite re_run_Repeat_O; exact Hk |].
    rewrite re_run_Repeat_S, re_run_Digit.
    destruct rest as [| b rest]; [exact Hk |].
    simpl in Hr. destruct (is_digit b); [discriminate Hr | exact Hk].
  - simpl in Hd. apply andb_prop in Hd. destruct Hd as [Ha Hd].
    destruct hi as [| hi]; [simpl in Hl; lia |].
    simpl append. rewrite re_run_Repeat_S, re_run_Digit. rewrite Ha.
    rewrite (IH hi (pred lo) rest caps k c Hd) by (simpl in Hl; lia || assumption).
    reflexivity.
Qed.

Lemma group_digits_complete (i lo hi : nat) (ds rest : string)
    (caps : captures) k c :
  captured_digits lo hi ds -> no_leading_digit rest = true ->
  k rest (set_nth i (Some ds) caps) = Some c ->
  re_run (Group i (digits lo hi)) (ds ++ rest)%string caps k = Some c.
Proof.
  intros [Hd Hl] Hr Hk. rewrite re_run_Group. unfold digits.
  apply digits_run_complete; try assumption.
  rewrite consumed_app. exact Hk.
Qed.

Lemma fraction_complete (g4 : option string) (caps : captures) :
  captured_fraction g4 ->
  re_run (opt (Seq Dot (Group 4 (digits 1 6)))) (fraction_suffix g4) caps
    (fun _ c => Some c)
  = Some (match g4 with Some f => set_nth 4 (Some f) caps | None => caps end).
Proof.
  intros Hg. unfold opt. rewrite re_run_Repeat_S.
  destruct Hg as [-> | [f [-> Hf]]].
  - reflexivity.
  - cbn [fraction_suffix]. rewrite re_run_Seq.
    assert (Hdot : forall k, re_run Dot (String "." f) caps k = k f caps)
      by reflexivity.
    rewrite Hdot. cbn [pred].
    pose proof (fun k c => group_digits_complete 4 1 6 f EmptyString caps k c
                             Hf eq_refl) as G.
    rewrite append_empty in G.
    rewrite (G _ (set_nth 4 (Some f) caps)); [reflexivity |].
    rewrite re_run_Repeat_O. reflexivity.
Qed.

Lemma no_leading_digit_fraction (g4 : option string) :
  no_leading_digit (fraction_suffix g4) = true.
Proof. destruct g4; reflexivity. Qed.

Lemma UNSIGNED_RE_complete (h m sec : string) (g4 : option string)
    (g0 : option string) :
  captured_digits 1 3 h -> captured_digits 1 2 m -> captured_digits 1 2 sec ->
  captured_fraction g4 ->
  re_run UNSIGNED_RE (clock_text h m sec g4) [g0; None; None; None; None]
    (fun _ c => Some c)
  = Some [g0; Some h; Some m; Some sec; g4].
Proof.
  intros Hh Hm Hs Hf. unfold UNSIGNED_RE, clock_text.
  rewrite re_run_Seq.
  apply group_digits_complete; [exact Hh | reflexivity |].
  cbn [set_nth]. rewrite re_run_Seq.
  assert (Hcolon : forall s caps k, re_run (Lit ":") (String ":" s) caps k = k s caps)
    by reflexivity.
  rewrite Hcolon. rewrite re_run_Seq.
  apply group_digits_complete; [exact Hm | reflexivity |].
  cbn [set_nth]. rewrite re_run_Seq, Hcolon, re_run_Seq.
  apply group_digits_complete; [exact Hs | apply no_leading_digit_fraction |].
  cbn [set_nth]. rewrite (fraction_complete g4 _ Hf).
  destruct g4; reflexivity.
Qed.

Lemma clock_text_unsigned (h m sec : string) (g4 : option string) :
  captured_digits 1 3 h -> unsigned_text (clock_text h m sec g4).
Proof.
  intros [Hd Hl] r H. unfold clock_text in H.
  destruct h as [| c h]; [simpl in Hl; lia |].
  simpl in H. inversion H; subst c. discriminate Hd.
Qed.

(** X16: a text of the form [H:M:S] or [H:M:S.F] (one to three digits of
    hours, one or two of minutes and of seconds, one to six of fraction)
    is converted to the duration of H hours, M minutes, S seconds and the
    fraction scaled to microseconds; with a minus sign in front, to the
    opposite duration. *)
Theorem to_timedelta_reads_clock_text (h m sec : string) (g4 : option string) :
  captured_digits 1 3 h -> captured_digits 1 2 m -> captured_digits 1 2 sec ->
  captured_fraction g4 ->
  to_timedelta (VStr (clock_text h m sec g4))
  = Ok (VTimedelta (groups_microseconds h m sec g4))
  /\ to_timedelta (VStr (String "-" (clock_text h m sec g4)))
  = Ok (VTimedelta (- groups_microseconds h m sec g4)).
Proof.
  intros Hh Hm Hs Hf.
  pose proof (clock_text_unsigned h m sec g4 Hh) as Hu.
  assert (H : to_timedelta (VStr (clock_text h m sec g4))
              = Ok (VTimedelta (groups_microseconds h m sec g4))).
  { pose proof (TIMEDELTA_RE_unsigned _ Hu) as R.
    change (repeat None 5) with [@None string; None; None; None; None] in R.
    rewrite (UNSIGNED_RE_complete h m sec g4 None Hh Hm Hs Hf) in R.
    destruct (to_timedelta_matched _ _ R) as [E _]. rewrite E.
    change (map group_value [None; Some h; Some m; Some sec; g4])
      with [group_value None; VStr h; VStr m; VStr sec; group_value g4].
    destruct (timedelta_of_groups_value None h m sec g4 Hh Hm Hs Hf) as [_ Hv].
    rewrite Hv.
    cbn [cpdef_result bind is_None is_timedelta orb catch group_value truth].
    f_equal. f_equal. lia. }
  split; [exact H |].
  pose proof (TIMEDELTA_RE_signed (clock_text h m sec g4)) as R.
  change (repeat None 5) with [@None string; None; None; None; None] in R.
  rewrite (UNSIGNED_RE_complete h m sec g4 None Hh Hm Hs Hf) in R.
  cbn [option_map set_nth] in R.
  destruct (to_timedelta_matched _ _ R) as [E _]. rewrite E.
  change (map group_value [Some "-"; Some h; Some m; Some sec; g4])
    with [group_value (Some "-"); VStr h; VStr m; VStr sec; group_value g4].
  destruct (timedelta_of_groups_value (Some "-") h m sec g4 Hh Hm Hs Hf)
    as [_ Hv].
  rewrite Hv.
  cbn [cpdef_result bind is_None is_timedelta orb catch group_value truth
       String.eqb Ascii.eqb Bool.eqb negb].
  f_equal. f_equal. lia.
Qed.

Lemma to_timedelta_reads_clock_text_witness :
  to_timedelta (VStr "12:05:07.5") = Ok (VTimedelta 43507500000)
  /\ to_timedelta (VStr "-12:05:07.5") = Ok (VTimedelta (- 43507500000)).
Proof.
  apply (to_timedelta_reads_clock_text "12" "05" "07" (Some "5")).
  - split; [reflexivity | simpl; lia].
  - split; [reflexivity | simpl; lia].
  - split; [reflexivity | simpl; lia].
  - right. exists "5". split; [reflexivity |]. split; [reflexivity | simpl; lia].
Defined.

(** ** Integer, float and decimal: what can come out *)



(** X18: what escapes the two lenient converters.  On a value that is no
    value-producer [to_float] raises only for an integer too large for a
    float (an [OverflowError]).  [to_decimal] raises no [TypeError] and no
    [ValueError]; it raises [decimal.InvalidOperation] for text that is
    outside the numeric syntax or denotes a number beyond the limits of
    the context, and for an integer of more digits than the greatest
    precision; for a list or a tuple it raises what the constructor
    raised.  Every other failure is answered [None]. *)
Theorem lenient_converters_errors (ext : Externals) (v : value) (e : exn) :
  callable v = false ->
  (to_float ext v = Raise e ->
     e = OverflowError
     /\ exists z, v = VInt z /\ 2 ^ 1024 - 2 ^ 970 <= Z.abs z)
  /\ (to_decimal ext v = Raise e ->
     TypeError_or_ValueError e = false
     /\ ((e = InvalidOperation
          /\ exists s, v = VStr s
               /\ (decimal_of_text s = None
                   \/ exists d, decimal_of_text s = Some d
                                /\ decimal_exact d = false))
         \/ (e = InvalidOperation
             /\ exists z, v = VInt z /\ MAX_PREC < decimal_digits z)
         \/ (exists l, (v = VTuple l \/ v = VList l)
                       /\ decimal_of_sequence ext l = Raise e))).
Proof.
  intros Hc. split; intros H.
  - unfold to_float in H. rewrite Hc in H.
    destruct v; try discriminate Hc;
      cbn -[Z.pow Z.sub Z.ltb Z.abs] in H; try discriminate H.
    1: { destruct (Z.abs z <? 2 ^ 1024 - 2 ^ 970) eqn:E;
           cbn -[Z.pow Z.sub Z.ltb Z.abs] in H;
           [discriminate H |].
         inversion H. split; [reflexivity |]. exists z. split; [reflexivity |].
         apply Z.ltb_ge in E. exact E. }
    all: repeat match type of H with
         | context [match ?x with _ => _ end] => destruct x
         end; discriminate H.
  - unfold to_decimal in H. rewrite Hc in H.
    destruct (is_None v); [discriminate H |].
    destruct (is_Decimal v); [discriminate H |].
    destruct (py_Decimal ext v) as [d | e'] eqn:P; cbn [bind catch] in H;
      [discriminate H |].
    destruct (TypeError_or_ValueError e') eqn:Te; [discriminate H |].
    inversion H; subst e'. split; [exact Te |].
    destruct v; cbn [py_Decimal] in P; try discriminate P;
      try (inversion P; subst e; discriminate Te).
    + (* an integer *)
      right. left. unfold exactly in P.
      destruct (decimal_exact _) eqn:X in P; [discriminate P |].
      inversion P. split; [reflexivity |]. exists z. split; [reflexivity |].
      unfold decimal_exact in X. rewrite Z2N.id in X by lia.
      change (decimal_digits (Z.abs z)) with
        (Z.of_nat (String.length (text_of_Z (Z.abs (Z.abs z))))) in X.
      rewrite Z.abs_idemp in X.
      fold (decimal_digits z) in X. unfold MAX_PREC, MAX_EMAX, MIN_ETINY in *.
      destruct (Z.leb_spec (decimal_digits z) 999999999999999999);
        [| lia].
      destruct (Z.leb_spec (0 + decimal_digits z - 1) 999999999999999999);
        [| lia].
      discriminate X.
    + (* text *)
      left. destruct (decimal_of_text s) as [d |] eqn:D.
      * unfold exactly in P. destruct (decimal_exact d) eqn:X;
          [discriminate P |].
        inversion P. split; [reflexivity |]. exists s. split; [reflexivity |].
        right. exists d. split; [exact D | exact X].
      * inversion P. split; [reflexivity |]. exists s. split; [reflexivity |].
        left. exact D.
    + (* a list *)
      right. right. exists l. split; [right; reflexivity | exact P].
    + (* a tuple *)
      right. right. exists l. split; [left; reflexivity | exact P].
Qed.

Lemma lenient_converters_errors_witness :
  to_decimal sample_externals (VStr "1e1000000000000000000")
  = Raise InvalidOperation
  /\ TypeError_or_ValueError InvalidOperation = false.
Proof.
  assert (E : to_decimal sample_externals (VStr "1e1000000000000000000")
              = Raise InvalidOperation) by (vm_compute; reflexivity).
  split; [exact E |].
  apply (proj2 (lenient_converters_errors sample_externals
                  (VStr "1e1000000000000000000") InvalidOperation eq_refl) E).
Defined.

(** ** Colon-separated times *)

Lemma digit_not_colon (c : ascii) : is_digit c = true -> Ascii.eqb c ":" = false.
Proof.
  intros H. destruct (Ascii.eqb_spec c ":") as [-> | _]; [discriminate H | reflexivity].
Qed.

Lemma split_on_digits (t : string) :
  all_digits t = true -> split_on ":" t = [t].
Proof.
  induction t as [| c t IH]; [reflexivity |].
  intros H. simpl in H. apply andb_prop in H. destruct H as [Hc Ht].
  cbn [split_on]. rewrite (digit_not_colon c Hc), (IH Ht). reflexivity.
Qed.

Lemma split_on_field (t r : string) :
  all_digits t = true ->
  split_on ":" (t ++ String ":" r) = t :: split_on ":" r.
Proof.
  induction t as [| c t IH]; [reflexivity |].
  intros H. simpl in H. apply andb_prop in H. destruct H as [Hc Ht].
  cbn [append split_on]. rewrite (digit_not_colon c Hc), (IH Ht). reflexivity.
Qed.

(** X19: colon-separated fields of digits are read as a time of day by the
    first attempt of [to_time]: [H:M] and [H:M:S] give the time with these
    fields (and zero for the others) whenever the hour is below 24 and the
    minute and second below 60, leading zeros allowed, as long as no field
    has more digits than [int] reads. *)
Theorem to_time_reads_clock_text (h m sec : string) :
  all_digits h = true -> all_digits m = true -> all_digits sec = true ->
  (1 <= String.length h)%nat -> (1 <= String.length m)%nat ->
  (1 <= String.length sec)%nat ->
  Z.of_nat (String.length h) <= max_str_digits ->
  Z.of_nat (String.length m) <= max_str_digits ->
  Z.of_nat (String.length sec) <= max_str_digits ->
  digits_value h 0 < 24 -> digits_value m 0 < 60 -> digits_value sec 0 < 60 ->
  to_time (VStr (h ++ String ":" m))
  = Ok (VTime (mktime (digits_value h 0) (digits_value m 0) 0 0))
  /\ to_time (VStr (h ++ String ":" (m ++ String ":" sec)))
  = Ok (VTime (mktime (digits_value h 0) (digits_value m 0)
                 (digits_value sec 0) 0)).
Proof.
  intros Dh Dm Ds Lh Lm Ls Mh Mm Ms Vh Vm Vs.
  destruct (py_int_digits_value h Dh Lh Mh) as [Ph [Bh _]].
  destruct (py_int_digits_value m Dm Lm Mm) as [Pm [Bm _]].
  destruct (py_int_digits_value sec Ds Ls Ms) as [Ps [Bs _]].
  assert (Hin : forall z, 0 <= z < 60 -> in_c_int z = true).
  { intros z Hz. unfold in_c_int. apply andb_true_intro. split;
      [apply Z.leb_le | apply Z.ltb_lt]; change (2 ^ 31) with 2147483648; lia. }
  assert (Hv : forall s0, 0 <= s0 < 60 ->
            mk_time (digits_value h 0) (digits_value m 0) s0 0
            = Ok (VTime (mktime (digits_value h 0) (digits_value m 0) s0 0))).
  { intros s0 Hs0. unfold mk_time.
    rewrite !Hin by lia. cbn [andb negb].
    replace (0 <=? digits_value h 0) with true by (symmetry; apply Z.leb_le; lia).
    replace (digits_value h 0 <? 24) with true by (symmetry; apply Z.ltb_lt; lia).
    replace (0 <=? digits_value m 0) with true by (symmetry; apply Z.leb_le; lia).
    replace (digits_value m 0 <? 60) with true by (symmetry; apply Z.ltb_lt; lia).
    replace (0 <=? s0) with true by (symmetry; apply Z.leb_le; lia).
    replace (s0 <? 60) with true by (symmetry; apply Z.ltb_lt; lia).
    reflexivity. }
  split; unfold to_time; cbn [is_None is_time callable method_split bind].
  - rewrite (split_on_field h m Dh), (split_on_digits m Dm).
    cbn [map mapM bind]. rewrite Ph. cbn [bind]. rewrite Pm. cbn [bind time_of_args].
    rewrite (Hv 0) by lia. reflexivity.
  - rewrite (split_on_field h _ Dh), (split_on_field m sec Dm),
      (split_on_digits sec Ds).
    cbn [map mapM bind]. rewrite Ph. cbn [bind]. rewrite Pm. cbn [bind].
    rewrite Ps. cbn [bind time_of_args].
    rewrite (Hv (digits_value sec 0)) by lia. reflexivity.
Qed.

Lemma to_time_reads_clock_text_witness :
  to_time (VStr "007:5") = Ok (VTime (mktime 7 5 0 0))
  /\ to_time (VStr "007:5:59") = Ok (VTime (mktime 7 5 59 0)).
Proof.
  apply (to_time_reads_clock_text "007" "5" "59");
    try reflexivity; unfold max_str_digits; simpl; lia.
Defined.

(** ** A union is its first member *)

(** X20: under [Union] (or [Optional], or an unnamed [typing] object) that
    is not the optional form, only the first member is tried: the members
    after it and the override encoder never change the answer. *)
Theorem parse_type_Union_first_member (ext : Externals) (name : option string)
    (o : bool) (t : pytype) (rest rest' : list pytype) (data : value)
    (encoder encoder' : option (value -> res value)) :
  optional_name name ->
  is_NoneType t = false ->
  existsb is_NoneType rest = false -> existsb is_NoneType rest' = false ->
  parse_type ext (Typing name o (Some (t :: rest))) data encoder
  = parse_type ext (Typing name o (Some (t :: rest'))) data encoder'.
Proof.
  intros Hn Ht Hr Hr'.
  assert (Hname : forall l,
            (name_is (Typing name o l) "Dict" = false)
            /\ (name_is (Typing name o l) "List" = false)).
  { intros l. destruct Hn as [-> | [-> | ->]]; split; reflexivity. }
  cbn [parse_type].
  destruct (Hname (Some (t :: rest))) as [-> ->].
  destruct (Hname (Some (t :: rest'))) as [-> ->].
  cbn [andb get_args existsb]. rewrite Ht, Hr, Hr'. cbn [orb].
  rewrite !andb_false_r. reflexivity.
Qed.

Lemma parse_type_Union_first_member_witness :
  parse_type sample_externals
    (Typing (Some "Union") true (Some [Class C_int; Class C_str]))
    (VStr "12") (Some (fun _ => Ok VNone))
  = parse_type sample_externals
      (Typing (Some "Union") true (Some [Class C_int])) (VStr "12") None.
Proof.
  apply (parse_type_Union_first_member sample_externals (Some "Union") true
           (Class C_int) [Class C_str] [] (VStr "12")).
  - right. right. reflexivity.
  - reflexivity.
  - reflexivity.
  - reflexivity.
Defined.
